(** * OKX trading client: order lifecycle, REST protocol and account stream

    A shallow embedding of the exchange connectivity layer
    ([exchange/okx_rest.py], [exchange/okx_ws_private.py]) and of the order
    lifecycle manager built on it ([execution/order_manager.py],
    [execution/portfolio.py]), with the properties the specification states
    about them.

    Conventions of the embedding:
    - a Python [float] is an IEEE-754 binary64 value: Rocq's primitive
      [float], whose operations round to nearest-even exactly as CPython's;
    - a Python exception is a value of [exn]; a call that may raise returns
      a [result];
    - the durable key-value ledger ([data/store.py], table [kv]) is a finite
      map from strings to strings;
    - what the outside world answers (the exchange, the clock) is an
      argument of the function that asks for it. *)

From Stdlib Require Import ZArith QArith Qabs Qround Qreduction String Ascii List Bool Lia
  Floats.
From stdpp Require Import base gmap strings list.
Set Warnings "-inexact-float,-register-all".

(** ** Python values shared by all components *)

Module Py.

(** Exceptions carry the text that [str(e)] returns. *)
Inductive exn : Type :=
| RuntimeError (msg : string)
| ValueError (msg : string)
| HTTPError (msg : string)
| AttributeError (msg : string)
| TypeError (msg : string)
| LookupError (msg : string)
| OverflowError (msg : string)
| ArithmeticError (msg : string).

Definition str_exn (e : exn) : string :=
  match e with
  | RuntimeError m | ValueError m | HTTPError m | AttributeError m
  | TypeError m | LookupError m | OverflowError m | ArithmeticError m => m
  end.

Inductive result (A : Type) : Type :=
| Ok (a : A)
| Raise (e : exn).
Arguments Ok {A} a.
Arguments Raise {A} e.

(** Sequencing: the first exception raised propagates ([x ← r; k] below). *)
#[global] Instance result_ret : MRet result := fun A a => Ok a.
#[global] Instance result_bind : MBind result := fun A B k r =>
  match r with
  | Ok a => k a
  | Raise e => Raise e
  end.

(** *** Floats *)

(** Truthiness of a float: only [0.0] and [-0.0] are falsy (a NaN is
    truthy). *)
Definition float_truthy (x : float) : bool := negb (x =? 0)%float.

(** [x or d] on floats. *)
Definition float_or (x d : float) : float :=
  if float_truthy x then x else d.

(** [float(v or d)] where [v] is [None] or a float: a numeric configuration
    entry read with [d.get(k, d) or d], or [store.get_kv_float(k) or d]. *)
Definition entry_or (x : option float) (d : float) : float :=
  match x with
  | Some v => float_or v d
  | None => d
  end.

(** [int(x)] on a float truncates toward zero; it raises on an infinity
    and on a NaN. *)
Definition int_of_float (x : float) : result Z :=
  match Prim2SF x with
  | S754_zero _ => Ok 0%Z
  | S754_finite s m e =>
      let v := if (0 <=? e)%Z then (Z.pos m * 2 ^ e)%Z
               else (Z.pos m / 2 ^ (- e))%Z in
      Ok (if s then (- v)%Z else v)
  | S754_infinity _ =>
      Raise (OverflowError "cannot convert float infinity to integer")
  | S754_nan => Raise (ValueError "cannot convert float NaN to integer")
  end.

(** *** Strings (sequences of bytes, UTF-8) *)

Local Open Scope string_scope.

Definition str_truthy (s : string) : bool :=
  match s with EmptyString => false | _ => true end.

(** Truthiness of an optional string such as [store.get_kv(k)]: [None] and
    the empty string are falsy. *)
Definition opt_str_truthy (v : option string) : bool :=
  match v with Some s => str_truthy s | None => false end.

(** [needle in hay]. *)
Fixpoint contains (needle hay : string) : bool :=
  String.prefix needle hay ||
  match hay with
  | EmptyString => false
  | String _ hay' => contains needle hay'
  end.

Definition upper_ascii (c : ascii) : ascii :=
  let n := nat_of_ascii c in
  if (97 <=? n)%nat && (n <=? 122)%nat then ascii_of_nat (n - 32) else c.

Definition lower_ascii (c : ascii) : ascii :=
  let n := nat_of_ascii c in
  if (65 <=? n)%nat && (n <=? 90)%nat then ascii_of_nat (n + 32) else c.

Fixpoint map_str (f : ascii -> ascii) (s : string) : string :=
  match s with
  | EmptyString => EmptyString
  | String c s' => String (f c) (map_str f s')
  end.

(** [s.upper()] and [s.lower()], on ASCII letters (the methods, sides and
    states of the protocol are ASCII). *)
Definition upper (s : string) : string := map_str upper_ascii s.
Definition lower (s : string) : string := map_str lower_ascii s.

(** The characters [str.strip()] removes. The ASCII ones: tab, line feed,
    vertical tab, form feed, carriage return, the four separators 28..31
    and the space. *)
Definition is_space (c : ascii) : bool :=
  let n := nat_of_ascii c in
  ((9 <=? n)%nat && (n <=? 13)%nat) || ((28 <=? n)%nat && (n <=? 32)%nat).

(** U+0085 and U+00A0, as the two bytes of their UTF-8 encoding. *)
Definition is_space2 (c1 c2 : ascii) : bool :=
  let n1 := nat_of_ascii c1 in
  let n2 := nat_of_ascii c2 in
  (n1 =? 194)%nat && ((n2 =? 133)%nat || (n2 =? 160)%nat).

(** U+1680, U+2000 to U+200A, U+2028, U+2029, U+202F, U+205F and U+3000,
    as the three bytes of their UTF-8 encoding. *)
Definition is_space3 (c1 c2 c3 : ascii) : bool :=
  let n1 := nat_of_ascii c1 in
  let n2 := nat_of_ascii c2 in
  let n3 := nat_of_ascii c3 in
  ((n1 =? 225)%nat && (n2 =? 154)%nat && (n3 =? 128)%nat)
  || ((n1 =? 226)%nat && (n2 =? 128)%nat
      && (((128 <=? n3)%nat && (n3 <=? 138)%nat)
          || (n3 =? 168)%nat || (n3 =? 169)%nat || (n3 =? 175)%nat))
  || ((n1 =? 226)%nat && (n2 =? 129)%nat && (n3 =? 159)%nat)
  || ((n1 =? 227)%nat && (n2 =? 128)%nat && (n3 =? 128)%nat).

(** [s.lstrip()]: the whitespace characters at the head are removed, one
    character (one, two or three bytes) at a time. *)
Fixpoint lstrip (s : string) : string :=
  match s with
  | EmptyString => EmptyString
  | String c1 s1 =>
      if is_space c1 then lstrip s1
      else
        match s1 with
        | EmptyString => s
        | String c2 s2 =>
            if is_space2 c1 c2 then lstrip s2
            else
              match s2 with
              | EmptyString => s
              | String c3 s3 => if is_space3 c1 c2 c3 then lstrip s3 else s
              end
        end
  end.

(** [s] is one whitespace character. *)
Definition is_space_char (s : string) : bool :=
  match s with
  | String c1 EmptyString => is_space c1
  | String c1 (String c2 EmptyString) => is_space2 c1 c2
  | String c1 (String c2 (String c3 EmptyString)) => is_space3 c1 c2 c3
  | _ => false
  end.

(** [s.rstrip()]: what is left of [s] from a byte on is dropped when it is
    one whitespace character followed by whitespace only. *)
Fixpoint rstrip (s : string) : string :=
  match s with
  | EmptyString => EmptyString
  | String c s' =>
      let r := String c (rstrip s') in
      if is_space_char r then EmptyString else r
  end.

Definition strip (s : string) : string := rstrip (lstrip s).

(** The string starts with a whitespace character. *)
Definition starts_space (s : string) : bool :=
  match s with
  | EmptyString => false
  | String c1 s1 =>
      is_space c1 ||
      match s1 with
      | EmptyString => false
      | String c2 s2 =>
          is_space2 c1 c2 ||
          match s2 with
          | EmptyString => false
          | String c3 _ => is_space3 c1 c2 c3
          end
      end
  end.

(** Decimal digits of a natural number, most significant first. *)
Definition digit_char (d : Z) : ascii := ascii_of_nat (48 + Z.to_nat d).

Fixpoint digits_fuel (fuel : nat) (n : Z) (acc : string) : string :=
  match fuel with
  | O => acc
  | S fuel' =>
      let acc' := String (digit_char (n mod 10)) acc in
      if (n <? 10)%Z then acc' else digits_fuel fuel' (n / 10) acc'
  end.

Definition str_of_nonneg (n : Z) : string :=
  digits_fuel (S (Z.to_nat (Z.log2 n))) n EmptyString.

(** [str(n)] for an integer. *)
Definition str_of_Z (n : Z) : string :=
  if (n <? 0)%Z then String "-" (str_of_nonneg (- n)) else str_of_nonneg n.

Fixpoint zeros (k : nat) : string :=
  match k with
  | O => EmptyString
  | S k' => String "0" (zeros k')
  end.

(** [s.zfill(width)] for a string with no sign. *)
Definition zfill (width : nat) (s : string) : string :=
  zeros (width - String.length s) ++ s.

(** [s[:n]]. *)
Definition take (n : nat) (s : string) : string := String.substring 0 n s.

(** The last character of [s], or [d] when [s] is empty. *)
Fixpoint last_char (s : string) (d : ascii) : ascii :=
  match s with
  | EmptyString => d
  | String c s' => last_char s' c
  end.

Definition is_digit (c : ascii) : bool :=
  let n := nat_of_ascii c in (48 <=? n)%nat && (n <=? 57)%nat.

(** A lower-case hexadecimal digit. *)
Definition is_hex_digit (c : ascii) : bool :=
  let n := nat_of_ascii c in
  ((48 <=? n)%nat && (n <=? 57)%nat) || ((97 <=? n)%nat && (n <=? 102)%nat).

Fixpoint all_chars (p : ascii -> bool) (s : string) : bool :=
  match s with
  | EmptyString => true
  | String c s' => p c && all_chars p s'
  end.


(** *** JSON documents, as [json.loads] returns them *)

Inductive json : Type :=
| JNull
| JBool (b : bool)
| JInt (n : Z)
| JFloat (x : float)
| JStr (s : string)
| JArr (items : list json)
| JObj (fields : list (string * json)).

Definition type_name (v : json) : string :=
  match v with
  | JNull => "NoneType"
  | JBool _ => "bool"
  | JInt _ => "int"
  | JFloat _ => "float"
  | JStr _ => "str"
  | JArr _ => "list"
  | JObj _ => "dict"
  end.

Definition truthy (v : json) : bool :=
  match v with
  | JNull => false
  | JBool b => b
  | JInt n => negb (n =? 0)%Z
  | JFloat x => float_truthy x
  | JStr s => str_truthy s
  | JArr items => match items with [] => false | _ => true end
  | JObj fields => match fields with [] => false | _ => true end
  end.

(** [v or d]. *)
Definition jor (v d : json) : json := if truthy v then v else d.

Fixpoint assoc (k : string) (fields : list (string * json)) : option json :=
  match fields with
  | [] => None
  | (k', v) :: rest => if String.eqb k k' then Some v else assoc k rest
  end.

Definition no_attribute (v : json) (attr : string) : exn :=
  AttributeError ("'" ++ type_name v ++ "' object has no attribute '" ++ attr ++ "'").

(** [v.get(k)]: [None] for a missing key; only a dict has the method. *)
Definition get (v : json) (k : string) : result json :=
  match v with
  | JObj fields => Ok (default JNull (assoc k fields))
  | _ => Raise (no_attribute v "get")
  end.

(** [v.get(k)] on a value known to be a dict. *)
Definition field (v : json) (k : string) : option json :=
  match v with
  | JObj fields => assoc k fields
  | _ => None
  end.

(** What the embedding takes from the Python runtime as it is: the
    quoting of a string by [repr], the shortest round-trip rendering of a
    float by [str], and the parsing of a float by [float]. *)
Class Runtime : Type := {
  repr_str : string -> string;
  str_of_float : float -> string;
  float_of_str : string -> option float;
}.

Fixpoint join (sep : string) (parts : list string) : string :=
  match parts with
  | [] => EmptyString
  | [p] => p
  | p :: rest => p ++ sep ++ join sep rest
  end.

(** [repr(v)]. *)
Fixpoint repr `{Runtime} (v : json) : string :=
  match v with
  | JNull => "None"
  | JBool true => "True"
  | JBool false => "False"
  | JInt n => str_of_Z n
  | JFloat x => str_of_float x
  | JStr s => repr_str s
  | JArr items => "[" ++ join ", " (map repr items) ++ "]"
  | JObj fields =>
      "{" ++ join ", " (map (fun kv => repr_str (fst kv) ++ ": " ++ repr (snd kv)) fields) ++ "}"
  end.

(** [str(v)]: a string is itself, anything else is its [repr]. *)
Definition str `{Runtime} (v : json) : string :=
  match v with
  | JStr s => s
  | _ => repr v
  end.

(** [float(n)] for an integer: the nearest binary64, ties to even. *)
Definition float_of_Z (n : Z) : float :=
  SF2Prim (binary_normalize prec emax n 0 false).

(** [float(v)]. *)
Definition to_float `{Runtime} (v : json) : result float :=
  match v with
  | JFloat x => Ok x
  | JInt n =>
      if (Z.abs n <? 2 ^ 1024)%Z && negb (is_infinity (float_of_Z n))
      then Ok (float_of_Z n)
      else Raise (OverflowError "int too large to convert to float")
  | JBool b => Ok (if b then 1 else 0)%float
  | JStr s =>
      match float_of_str s with
      | Some x => Ok x
      | None => Raise (ValueError ("could not convert string to float: " ++ repr_str s))
      end
  | _ => Raise (TypeError ("float() argument must be a string or a real number, not '"
                           ++ type_name v ++ "'"))
  end.

(** [v.lower()]: a method of strings only. *)
Definition to_lower (v : json) : result string :=
  match v with
  | JStr s => Ok (lower s)
  | _ => Raise (no_attribute v "lower")
  end.

(** [v[0]]. *)
Definition first_item (v : json) : result json :=
  match v with
  | JArr (x :: _) => Ok x
  | JArr [] => Raise (LookupError "list index out of range")
  | JStr (String c _) => Ok (JStr (String c EmptyString))
  | JStr EmptyString => Raise (LookupError "string index out of range")
  | JObj _ => Raise (LookupError "0")
  | _ => Raise (TypeError ("'" ++ type_name v ++ "' object is not subscriptable"))
  end.

End Py.

Import Py.

(** ** Decimal arithmetic ([decimal.Decimal] in the default context) *)

(** A finite [Decimal] is modelled by its value, a rational number. The
    default context keeps 28 significant digits and rounds half to even:
    division and multiplication round their exact result to the context,
    [to_integral_value] does not round to the context. The exponents of
    the decimals of floats stay far from the limits of the context. *)
Module Dec.

Local Open Scope string_scope.
Local Open Scope Q_scope.

Definition ctx_prec : Z := 28.

Definition pow10 (e : Z) : Q :=
  if (0 <=? e)%Z then inject_Z (10 ^ e) else / inject_Z (10 ^ (- e)).

(** The number of decimal digits of [n >= 1]. *)
Fixpoint ndigits_fuel (fuel : nat) (n : Z) : Z :=
  match fuel with
  | O => 1
  | S fuel' => if (n <? 10)%Z then 1 else (1 + ndigits_fuel fuel' (n / 10))%Z
  end.

Definition ndigits (n : Z) : Z := ndigits_fuel (Z.to_nat (Z.log2 n)) n.

(** The adjusted exponent of [q <> 0]: the [e] with [10^e <= |q| < 10^(e+1)]. *)
Definition adjusted (q : Q) : Z :=
  let e0 := (ndigits (Z.abs (Qnum q)) - ndigits (Z.pos (Qden q)))%Z in
  if Qle_bool (pow10 e0) (Qabs q) then e0 else (e0 - 1)%Z.

Definition round_half_even (q : Q) : Z :=
  let f := Qfloor q in
  match Qcompare (q - inject_Z f) (1 # 2) with
  | Lt => f
  | Gt => (f + 1)%Z
  | Eq => if Z.even f then f else (f + 1)%Z
  end.

(** Rounding to the context: to [ctx_prec] significant digits. *)
Definition round_ctx (q : Q) : Q :=
  if Qeq_bool q 0 then 0
  else
    let e := (adjusted q - (ctx_prec - 1))%Z in
    inject_Z (round_half_even (q / pow10 e)) * pow10 e.

(** [a / b], for [b <> 0]. *)
Definition div (a b : Q) : Q := round_ctx (a / b).

(** [a * b]. *)
Definition mul (a b : Q) : Q := round_ctx (a * b).

(** [q.to_integral_value(rounding=ROUND_DOWN)]: truncation toward zero. *)
Definition to_integral_down (q : Q) : Q :=
  inject_Z (Z.quot (Qnum q) (Z.pos (Qden q))).

(** The value is exact in the context: it has at most 28 significant
    digits. *)
Definition exact (q : Q) : Prop := round_ctx q == q.

(** *** Decimals with their special values *)

(** A [Decimal]: a finite number, given by its sign and its absolute
    value (zero has a sign), an infinity, or a quiet NaN. The operations
    above are those of the absolute values. *)
Inductive decimal : Type :=
| Fin (neg : bool) (mag : Q)
| Inf (neg : bool)
| NaN.

(** The signals of the context that are trapped, as the exceptions they
    raise ([decimal.InvalidOperation] and [decimal.DivisionByZero] are
    arithmetic errors). *)
Definition signal (name : string) : exn :=
  ArithmeticError ("[<class 'decimal." ++ name ++ "'>]").

(** The decimal digits at the head of [s]: their value added to [acc]
    shifted, their number added to [count], and the rest of [s]. *)
Fixpoint digits (s : string) (acc : Z) (count : nat) : Z * nat * string :=
  match s with
  | String c s' =>
      if is_digit c
      then digits s' (10 * acc + Z.of_nat (nat_of_ascii c - 48))%Z (S count)
      else (acc, count, s)
  | EmptyString => (acc, count, s)
  end.

(** The exponent part of a numeric string, [e], a sign and digits, or
    nothing. *)
Definition exponent (s : string) : option Z :=
  match s with
  | EmptyString => Some 0%Z
  | String c s' =>
      if (nat_of_ascii c =? 101)%nat || (nat_of_ascii c =? 69)%nat then
        let '(neg, body) :=
          match s' with
          | String "-" r => (true, r)
          | String "+" r => (false, r)
          | _ => (false, s')
          end in
        match digits body 0%Z 0%nat with
        | (n, S _, EmptyString) => Some (if neg then (- n)%Z else n)
        | _ => None
        end
      else None
  end.

(** [Decimal(s)] for a string: a sign, then [inf], [infinity] or [nan] in
    any case, or digits with an optional point and an optional exponent.
    The value is exact, whatever the precision of the context. (The
    underscores and the signalling or diagnostic NaNs that [Decimal] also
    reads do not occur in the [str] of a float.) *)
Definition of_str (s : string) : result decimal :=
  let s := strip s in
  let '(neg, body) :=
    match s with
    | String "-" r => (true, r)
    | String "+" r => (false, r)
    | _ => (false, s)
    end in
  if String.eqb (lower body) "inf" || String.eqb (lower body) "infinity" then Ok (Inf neg)
  else if String.eqb (lower body) "nan" then Ok NaN
  else
    let '(ip, n1, rest) := digits body 0%Z 0%nat in
    let '(m, n2, rest') :=
      match rest with
      | String "." frac => digits frac ip 0%nat
      | _ => (ip, 0%nat, rest)
      end in
    match exponent rest' with
    | Some e =>
        if (0 <? n1 + n2)%nat then Ok (Fin neg (inject_Z m * pow10 (e - Z.of_nat n2)))
        else Raise (signal "ConversionSyntax")
    | None => Raise (signal "ConversionSyntax")
    end.

(** [a / b]. *)
Definition divide (a b : decimal) : result decimal :=
  match a, b with
  | NaN, _ | _, NaN => Ok NaN
  | Inf _, Inf _ => Raise (signal "InvalidOperation")
  | Inf na, Fin nb _ => Ok (Inf (xorb na nb))
  | Fin na _, Inf nb => Ok (Fin (xorb na nb) 0)
  | Fin na x, Fin nb y =>
      if Qeq_bool y 0 then
        Raise (signal (if Qeq_bool x 0 then "DivisionUndefined" else "DivisionByZero"))
      else Ok (Fin (xorb na nb) (div x y))
  end.

(** [a * b]. *)
Definition multiply (a b : decimal) : result decimal :=
  match a, b with
  | NaN, _ | _, NaN => Ok NaN
  | Inf na, Inf nb => Ok (Inf (xorb na nb))
  | Inf na, Fin nb y =>
      if Qeq_bool y 0 then Raise (signal "InvalidOperation") else Ok (Inf (xorb na nb))
  | Fin na x, Inf nb =>
      if Qeq_bool x 0 then Raise (signal "InvalidOperation") else Ok (Inf (xorb na nb))
  | Fin na x, Fin nb y => Ok (Fin (xorb na nb) (mul x y))
  end.

(** [a.to_integral_value(rounding=ROUND_DOWN)]. *)
Definition to_integral_value (a : decimal) : decimal :=
  match a with
  | Fin neg x => Fin neg (to_integral_down x)
  | _ => a
  end.

(** The binary64 value nearest to [n / d], ties to even, with the sign
    [neg], for [n] and [d] positive: the quotient is cut to some 64 bits,
    one more bit tells whether anything was cut off, and
    [binary_normalize] rounds this to the format (to an infinity beyond
    its range). *)
Definition float_of_pos (neg : bool) (n d : Z) : float :=
  let e := (Z.log2 n - Z.log2 d - 64)%Z in
  let num := if (0 <=? e)%Z then n else (n * 2 ^ (- e))%Z in
  let den := if (0 <=? e)%Z then (d * 2 ^ e)%Z else d in
  let m := (2 * (num / den) + (if (num mod den =? 0)%Z then 0 else 1))%Z in
  SF2Prim (binary_normalize prec emax (if neg then (- m)%Z else m) (e - 1) neg).

(** [float(q)] for a number that is not zero. *)
Definition float_of_Q (q : Q) : float :=
  let r := Qred q in
  match Qnum r with
  | Z0 => 0%float
  | Zpos n => float_of_pos false (Zpos n) (Zpos (Qden r))
  | Zneg n => float_of_pos true (Zpos n) (Zpos (Qden r))
  end.

(** [float(a)]. *)
Definition to_float (a : decimal) : float :=
  match a with
  | Fin neg x =>
      if Qeq_bool x 0 then (if neg then (- 0)%float else 0%float)
      else if neg then float_of_Q (- x) else float_of_Q x
  | Inf neg => if neg then neg_infinity else infinity
  | NaN => nan
  end.

End Dec.

(** ** SHA-1 ([hashlib.sha1], FIPS 180-4) *)

(** Words are 32-bit integers in [Z], reduced modulo [2^32] after every
    addition and rotation; a message is its list of bytes. *)
Module Sha1.

Local Open Scope Z_scope.

Definition w32 (x : Z) : Z := x mod 2 ^ 32.

Definition add32 (x y : Z) : Z := w32 (x + y).

Definition rotl (n x : Z) : Z :=
  w32 (Z.lor (Z.shiftl x n) (Z.shiftr x (32 - n))).

Definition not32 (x : Z) : Z := Z.lxor x 4294967295.

Definition bytes_of (s : string) : list Z :=
  map (fun c => Z.of_nat (nat_of_ascii c)) (list_ascii_of_string s).

(** The big-endian bytes of [x], [k] of them. *)
Fixpoint be_bytes (k : nat) (x : Z) : list Z :=
  match k with
  | O => []
  | S k' => (Z.shiftr x (8 * Z.of_nat k')) mod 256 :: be_bytes k' x
  end.

(** Padding: the bit 1, zeros up to 56 modulo 64 bytes, the length in bits
    on 64 bits. *)
Definition pad (msg : list Z) : list Z :=
  let len := Z.of_nat (length msg) in
  (msg ++ 128 :: repeat 0 (Z.to_nat ((55 - len) mod 64)) ++ be_bytes 8 (8 * len))%list.

Fixpoint words_of (fuel : nat) (bytes : list Z) : list Z :=
  match fuel, bytes with
  | S fuel', b0 :: b1 :: b2 :: b3 :: rest =>
      (b0 * 16777216 + b1 * 65536 + b2 * 256 + b3) :: words_of fuel' rest
  | _, _ => []
  end.

(** The message schedule: [k] more words after the ones in [w]. *)
Fixpoint expand (k : nat) (w : list Z) : list Z :=
  match k with
  | O => w
  | S k' =>
      let t := length w in
      let x := Z.lxor (Z.lxor (nth (t - 3) w 0) (nth (t - 8) w 0))
                      (Z.lxor (nth (t - 14) w 0) (nth (t - 16) w 0)) in
      expand k' (w ++ [rotl 1 x])%list
  end.

Definition state : Type := Z * Z * Z * Z * Z.

Definition round (t : nat) (wt : Z) (st : state) : state :=
  let '(a, b, c, d, e) := st in
  let f :=
    if (t <? 20)%nat then Z.lor (Z.land b c) (Z.land (not32 b) d)
    else if (t <? 40)%nat then Z.lxor (Z.lxor b c) d
    else if (t <? 60)%nat then Z.lor (Z.lor (Z.land b c) (Z.land b d)) (Z.land c d)
    else Z.lxor (Z.lxor b c) d in
  let k :=
    if (t <? 20)%nat then 1518500249
    else if (t <? 40)%nat then 1859775393
    else if (t <? 60)%nat then 2400959708
    else 3395469782 in
  let temp := w32 (rotl 5 a + f + e + k + wt) in
  (temp, a, rotl 30 b, c, d).

Fixpoint rounds (t : nat) (w : list Z) (st : state) : state :=
  match w with
  | [] => st
  | wt :: w' => rounds (S t) w' (round t wt st)
  end.

Definition compress (h : state) (block : list Z) : state :=
  let '(h0, h1, h2, h3, h4) := h in
  let '(a, b, c, d, e) := rounds 0 (expand 64 block) h in
  (add32 h0 a, add32 h1 b, add32 h2 c, add32 h3 d, add32 h4 e).

Fixpoint blocks (fuel : nat) (words : list Z) (h : state) : state :=
  match fuel, words with
  | S fuel', _ :: _ => blocks fuel' (skipn 16 words) (compress h (firstn 16 words))
  | _, _ => h
  end.

Definition initial : state :=
  (1732584193, 4023233417, 2562383102, 271733878, 3285377520).

Definition digest (msg : string) : state :=
  let bytes := pad (bytes_of msg) in
  let words := words_of (length bytes) bytes in
  blocks (length words) words initial.

Definition hex_char (d : Z) : ascii :=
  if d <? 10 then ascii_of_nat (48 + Z.to_nat d) else ascii_of_nat (87 + Z.to_nat d).

Definition nibble (x : Z) (i : Z) : ascii := hex_char ((Z.shiftr x (4 * i)) mod 16).

(** The 8 lower-case hexadecimal digits of a word. *)
Definition hex8 (x : Z) : string :=
  String (nibble x 7) (String (nibble x 6) (String (nibble x 5) (String (nibble x 4)
  (String (nibble x 3) (String (nibble x 2) (String (nibble x 1) (String (nibble x 0)
  EmptyString))))))).

(** [hashlib.sha1(msg).hexdigest()]. *)
Definition hexdigest (msg : string) : string :=
  let '(h0, h1, h2, h3, h4) := digest msg in
  (hex8 h0 ++ hex8 h1 ++ hex8 h2 ++ hex8 h3 ++ hex8 h4)%string.

End Sha1.

(** ** SHA-256 and HMAC ([hashlib.sha256], [hmac]; FIPS 180-4, RFC 2104) *)

Module Sha256.

Local Open Scope Z_scope.

Definition rotr (n x : Z) : Z :=
  Sha1.w32 (Z.lor (Z.shiftr x n) (Z.shiftl x (32 - n))).

Definition xor3 (x y z : Z) : Z := Z.lxor (Z.lxor x y) z.

Definition ssig0 (x : Z) : Z := xor3 (rotr 7 x) (rotr 18 x) (Z.shiftr x 3).
Definition ssig1 (x : Z) : Z := xor3 (rotr 17 x) (rotr 19 x) (Z.shiftr x 10).
Definition bsig0 (x : Z) : Z := xor3 (rotr 2 x) (rotr 13 x) (rotr 22 x).
Definition bsig1 (x : Z) : Z := xor3 (rotr 6 x) (rotr 11 x) (rotr 25 x).
Definition ch (x y z : Z) : Z := Z.lxor (Z.land x y) (Z.land (Sha1.not32 x) z).
Definition maj (x y z : Z) : Z := xor3 (Z.land x y) (Z.land x z) (Z.land y z).

(** The primes below [bound], by trial division. *)
Definition is_prime (n : Z) : bool :=
  (1 <? n) && forallb (fun d => negb (n mod d =? 0)) (map Z.of_nat (seq 2 (Z.to_nat n - 2))).

Definition primes_below (bound : nat) : list Z :=
  List.filter is_prime (map Z.of_nat (seq 0 bound)).

(** The integer cube root of [n < 2^105], bit by bit. *)
Fixpoint cube_root_bits (bit : nat) (n r : Z) : Z :=
  match bit with
  | O => r
  | S bit' =>
      let r' := r + 2 ^ Z.of_nat bit' in
      cube_root_bits bit' n (if r' * r' * r' <=? n then r' else r)
  end.

Definition cube_root (n : Z) : Z := cube_root_bits 35 n 0.

(** The round constants: the first 32 bits of the fractional parts of the
    cube roots of the first 64 primes. *)
Definition K : list Z :=
  Eval vm_compute in
    map (fun p => Sha1.w32 (cube_root (p * 2 ^ 96))) (primes_below 312).

(** The message schedule: [k] more words after the ones in [w]. *)
Fixpoint expand (k : nat) (w : list Z) : list Z :=
  match k with
  | O => w
  | S k' =>
      let t := length w in
      let x := Sha1.w32 (ssig1 (nth (t - 2) w 0) + nth (t - 7) w 0
                         + ssig0 (nth (t - 15) w 0) + nth (t - 16) w 0) in
      expand k' (w ++ [x])%list
  end.

Definition state : Type := Z * Z * Z * Z * Z * Z * Z * Z.

Definition round (kt wt : Z) (st : state) : state :=
  let '(a, b, c, d, e, f, g, h) := st in
  let t1 := Sha1.w32 (h + bsig1 e + ch e f g + kt + wt) in
  let t2 := Sha1.w32 (bsig0 a + maj a b c) in
  (Sha1.add32 t1 t2, a, b, c, Sha1.add32 d t1, e, f, g).

Fixpoint rounds (ks ws : list Z) (st : state) : state :=
  match ks, ws with
  | kt :: ks', wt :: ws' => rounds ks' ws' (round kt wt st)
  | _, _ => st
  end.

Definition compress (hs : state) (block : list Z) : state :=
  let '(h0, h1, h2, h3, h4, h5, h6, h7) := hs in
  let '(a, b, c, d, e, f, g, h) := rounds K (expand 48 block) hs in
  (Sha1.add32 h0 a, Sha1.add32 h1 b, Sha1.add32 h2 c, Sha1.add32 h3 d,
   Sha1.add32 h4 e, Sha1.add32 h5 f, Sha1.add32 h6 g, Sha1.add32 h7 h).

Fixpoint blocks (fuel : nat) (words : list Z) (hs : state) : state :=
  match fuel, words with
  | S fuel', _ :: _ => blocks fuel' (skipn 16 words) (compress hs (firstn 16 words))
  | _, _ => hs
  end.

(** The initial hash value: the first 32 bits of the fractional parts of
    the square roots of the first 8 primes. *)
Definition frac_sqrt (p : Z) : Z := Sha1.w32 (Z.sqrt (p * 2 ^ 64)).

Definition initial : state :=
  Eval vm_compute in
    (frac_sqrt 2, frac_sqrt 3, frac_sqrt 5, frac_sqrt 7,
     frac_sqrt 11, frac_sqrt 13, frac_sqrt 17, frac_sqrt 19).

(** The 32 bytes of the digest of a list of bytes. *)
Definition digest (msg : list Z) : list Z :=
  let bytes := Sha1.pad msg in
  let words := Sha1.words_of (length bytes) bytes in
  let '(h0, h1, h2, h3, h4, h5, h6, h7) := blocks (length words) words initial in
  flat_map (Sha1.be_bytes 4) [h0; h1; h2; h3; h4; h5; h6; h7].

(** [hmac.new(key, msg, hashlib.sha256).digest()], on lists of bytes. *)
Definition hmac_bytes (key msg : list Z) : list Z :=
  let key := if (64 <? length key)%nat then digest key else key in
  let key := (key ++ repeat 0 (64 - length key))%list in
  let ikey := map (Z.lxor 0x36) key in
  let okey := map (Z.lxor 0x5c) key in
  digest (okey ++ digest (ikey ++ msg))%list.

Definition string_of_bytes (bytes : list Z) : string :=
  string_of_list_ascii (map (fun b => ascii_of_nat (Z.to_nat b)) bytes).

(** The digest as a byte string, for a key and a message given as
    strings. *)
Definition hmac (key msg : string) : string :=
  string_of_bytes (hmac_bytes (Sha1.bytes_of key) (Sha1.bytes_of msg)).

Definition hex2 (b : Z) : string :=
  String (Sha1.nibble b 1) (String (Sha1.nibble b 0) EmptyString).

Definition hexdigest (msg : string) : string :=
  String.concat EmptyString (map hex2 (digest (Sha1.bytes_of msg))).

End Sha256.

(** ** Base64 ([base64.b64encode], RFC 4648) *)

Module Base64.

(** Six bits, most significant first. *)
Definition sextet : Type := (bool * bool * bool * bool * bool * bool)%type.

Definition index (s : sextet) : nat :=
  let '(b5, b4, b3, b2, b1, b0) := s in
  (if b5 then 32 else 0) + (if b4 then 16 else 0) + (if b3 then 8 else 0)
  + (if b2 then 4 else 0) + (if b1 then 2 else 0) + (if b0 then 1 else 0).

(** The alphabet: [A-Z], [a-z], [0-9], [+], [/]. *)
Definition char_of (s : sextet) : ascii :=
  let n := index s in
  if (n <? 26)%nat then ascii_of_nat (65 + n)
  else if (n <? 52)%nat then ascii_of_nat (97 + (n - 26))
  else if (n <? 62)%nat then ascii_of_nat (48 + (n - 52))
  else if (n =? 62)%nat then "+"%char
  else "/"%char.

Definition pad_char : ascii := "="%char.

(** The six bits of [n < 64], and the sextet a character of the alphabet
    stands for. *)
Definition sextet_of_index (n : nat) : sextet :=
  (Nat.testbit n 5, Nat.testbit n 4, Nat.testbit n 3,
   Nat.testbit n 2, Nat.testbit n 1, Nat.testbit n 0).

Definition sextet_of (ch : ascii) : sextet :=
  let n := nat_of_ascii ch in
  if (65 <=? n)%nat && (n <=? 90)%nat then sextet_of_index (n - 65)
  else if (97 <=? n)%nat && (n <=? 122)%nat then sextet_of_index (n - 97 + 26)
  else if (48 <=? n)%nat && (n <=? 57)%nat then sextet_of_index (n - 48 + 52)
  else if (n =? 43)%nat then sextet_of_index 62
  else sextet_of_index 63.

(** Three bytes give four characters; a last byte gives two and a last
    pair three, padded to four. (The bits of an [ascii] come least
    significant first.) *)
Fixpoint b64encode (bytes : string) : string :=
  match bytes with
  | EmptyString => EmptyString
  | String (Ascii a0 a1 a2 a3 a4 a5 a6 a7) EmptyString =>
      String (char_of (a7, a6, a5, a4, a3, a2))
        (String (char_of (a1, a0, false, false, false, false))
           (String pad_char (String pad_char EmptyString)))
  | String (Ascii a0 a1 a2 a3 a4 a5 a6 a7)
      (String (Ascii b0 b1 b2 b3 b4 b5 b6 b7) EmptyString) =>
      String (char_of (a7, a6, a5, a4, a3, a2))
        (String (char_of (a1, a0, b7, b6, b5, b4))
           (String (char_of (b3, b2, b1, b0, false, false))
              (String pad_char EmptyString)))
  | String (Ascii a0 a1 a2 a3 a4 a5 a6 a7)
      (String (Ascii b0 b1 b2 b3 b4 b5 b6 b7)
         (String (Ascii c0 c1 c2 c3 c4 c5 c6 c7) rest)) =>
      String (char_of (a7, a6, a5, a4, a3, a2))
        (String (char_of (a1, a0, b7, b6, b5, b4))
           (String (char_of (b3, b2, b1, b0, c7, c6))
              (String (char_of (c5, c4, c3, c2, c1, c0)) (b64encode rest))))
  end.

End Base64.

(** ** The exchange protocol client ([exchange/okx_rest.py]) *)

Module Rest.

Local Open Scope string_scope.

(** The fields of [OKXRest] that [_request] reads. *)
Record client : Type := {
  demo : bool;
  base_url : string;
  api_key : string;
  api_secret : string;
  passphrase : string;
}.

Record http_request : Type := {
  rq_method : string;
  rq_url : string;
  rq_headers : list (string * string);
  rq_body : option string;
}.

(** What [_request] reads of a [requests.Response]; [json_body] is [None]
    when [r.json()] raises. *)
Record http_response : Type := {
  status_code : Z;
  reason : string;
  url : string;
  text : string;
  json_body : option json;
}.

(** The libraries and the network under the client: [urllib] and [json],
    the clock behind [_iso_ts], and the HTTP session ([inl e]: a
    [requests.RequestException] with text [e]). *)
Class Network : Type := {
  urlencode : list (string * string) -> string;
  json_dumps : json -> string;
  iso_ts : string;
  send : http_request -> string + http_response;
}.

(** *** Signing *)

Definition prehash (ts method request_path body : string) : string :=
  ts ++ upper method ++ request_path ++ body.

Definition _sign (c : client) (ts method request_path body : string) : string :=
  Base64.b64encode (Sha256.hmac (api_secret c) (prehash ts method request_path body)).

Definition _headers (c : client) (ts method request_path body : string)
  : list (string * string) :=
  [ ("OK-ACCESS-KEY", api_key c);
    ("OK-ACCESS-SIGN", _sign c ts method request_path body);
    ("OK-ACCESS-TIMESTAMP", ts);
    ("OK-ACCESS-PASSPHRASE", passphrase c) ].

(** *** The core request *)

(** [{k: v for k, v in params.items() if v is not None}]. *)
Fixpoint present_params (params : list (string * option string)) : list (string * string) :=
  match params with
  | [] => []
  | (k, Some v) :: rest => (k, v) :: present_params rest
  | (_, None) :: rest => present_params rest
  end.

(** [path + (f"?{query}" if query else "")]. *)
Definition request_path_of (path query : string) : string :=
  path ++ (if str_truthy query then "?" ++ query else "").

Definition hint_demo : string :=
  "（提示：你在跑模拟盘：请使用“模拟交易”创建的 API Key；另外若你是 EEA/US 用户，请把 base_url 设置为 eea.okx.com / us.okx.com）".

Definition hint_prod : string :=
  "（提示：检查是否用错了环境/Key；若你是 EEA/US 用户，请把 base_url 设置为 eea.okx.com / us.okx.com）".

(** The classification of a parsed response: the envelope's [code], then,
    on a trade path, the first row's [sCode]. *)
Definition check_envelope `{Runtime} (c : client) (path : string) (resp : json) : result json :=
  code_v ← get resp "code";
  msg_v ← get resp "msg";
  let code := str (jor code_v (JStr "")) in
  let msg := str (jor msg_v (JStr "")) in
  if negb (String.eqb code "0") then
    if String.eqb code "50119" then
      let hint := if demo c then hint_demo else hint_prod in
      Raise (RuntimeError ("OKX API error: code=" ++ code ++ " msg=" ++ msg ++ " " ++ hint
                           ++ " resp=" ++ repr resp))
    else
      Raise (RuntimeError ("OKX API error: code=" ++ code ++ " msg=" ++ msg
                           ++ " resp=" ++ repr resp))
  else if String.prefix "/api/v5/trade/" path then
    rows_v ← get resp "data";
    match jor rows_v (JArr []) with
    | JArr (row0 :: _) =>
        sc ← get row0 "sCode";
        let s_code := str (jor sc (JStr "0")) in
        if negb (String.eqb s_code "0") then
          sm ← get row0 "sMsg";
          Raise (RuntimeError ("OKX TRADE OP FAILED: sCode=" ++ s_code ++ " sMsg="
                               ++ str (jor sm (JStr "")) ++ " resp=" ++ repr resp))
        else Ok resp
    | _ => Ok resp
    end
  else Ok resp.

Definition sends_body (method : string) : bool :=
  negb (String.eqb method "GET" || String.eqb method "DELETE").

(** [body_str]: the compact JSON of [data] for POST and PUT, nothing for
    the other methods ([method] is in upper case). *)
Definition body_of `{Network} (method : string) (data : list (string * json)) : string :=
  if String.eqb method "POST" || String.eqb method "PUT"
  then json_dumps (JObj data) else "".

(** The first part of [_request]: the request it sends, or the error it
    raises when a credential is missing. *)
Definition build_request `{Network} (c : client) (method path : string)
    (params : list (string * option string)) (data : list (string * json))
    (auth : bool) : result http_request :=
  let method := upper method in
  let query := urlencode (present_params params) in
  let request_path := request_path_of path query in
  let full_url := base_url c ++ request_path in
  let body_str := body_of method data in
  auth_headers ←
    (if auth then
       if str_truthy (api_key c) && str_truthy (api_secret c) && str_truthy (passphrase c)
       then Ok (_headers c iso_ts method request_path body_str)
       else Raise (RuntimeError "Missing OKX API credentials in config.auth")
     else Ok []);
  let headers :=
    (auth_headers ++ (if demo c then [("x-simulated-trading", "1")] else []))%list in
  Ok {| rq_method := method; rq_url := full_url; rq_headers := headers;
        rq_body := if sends_body method then Some body_str else None |}.

(** The second part: what [_request] makes of the answer of the network. *)
Definition classify `{Runtime} (c : client) (path : string)
    (answer : string + http_response) : result json :=
  match answer with
  | inl e => Raise (RuntimeError ("OKX HTTP request failed: " ++ e))
  | inr r =>
      if (400 <=? status_code r)%Z then
        Raise (HTTPError (str_of_Z (status_code r) ++ " Client Error: " ++ reason r
                          ++ " for url: " ++ url r ++ " | body=" ++ text r))
      else
        match json_body r with
        | None => Raise (RuntimeError ("OKX invalid JSON response: " ++ text r))
        | Some resp => check_envelope c path resp
        end
  end.

Definition _request `{Runtime} `{Network} (c : client) (method path : string)
    (params : list (string * option string)) (data : list (string * json))
    (auth : bool) : result json :=
  rq ← build_request c method path params data auth;
  classify c path (send rq).

(** The value of a header. *)
Fixpoint header (name : string) (headers : list (string * string)) : option string :=
  match headers with
  | [] => None
  | (k, v) :: rest => if String.eqb name k then Some v else header name rest
  end.

(** *** Order queries *)

Definition get_order_by_clordid `{Runtime} `{Network} (c : client)
    (inst_id cl_ord_id : string) : result json :=
  _request c "GET" "/api/v5/trade/order"
    [("instId", Some (strip inst_id)); ("clOrdId", Some (strip cl_ord_id))] [] true.

(** The success envelope [{"code": "0", "data": [od]}]. *)
Definition envelope (od : json) : json :=
  JObj [("code", JStr "0"); ("data", JArr [od])].

(** A row of a page that is an order with another client id:
    [str(od.get("clOrdId") or "")] is not [cl_ord_id]. *)
Definition other_order `{Runtime} (cl_ord_id : string) (od : json) : Prop :=
  exists fields, od = JObj fields
    /\ str (jor (default JNull (assoc "clOrdId" fields)) (JStr "")) <> cl_ord_id.

(** What [for od in rows] iterates over: the items of a list, the keys of
    a dict, the characters of a string. *)
Fixpoint chars (s : string) : list json :=
  match s with
  | EmptyString => []
  | String c s' => JStr (String c EmptyString) :: chars s'
  end.

Definition iter_rows (rows : json) : result (list json) :=
  match rows with
  | JArr items => Ok items
  | JObj fields => Ok (map (fun kv => JStr (fst kv)) fields)
  | JStr s => Ok (chars s)
  | _ => Raise (TypeError ("'" ++ type_name rows ++ "' object is not iterable"))
  end.

(** [str(od.get("clOrdId") or "")]. *)
Definition client_order_id `{Runtime} (od : json) : result string :=
  v ← get od "clOrdId";
  Ok (str (jor v (JStr ""))).

(** The scan of one page: the first row whose [clOrdId] is the requested
    one. *)
Fixpoint find_order `{Runtime} (cl_ord_id : string) (rows : list json) : result (option json) :=
  match rows with
  | [] => Ok None
  | od :: rest =>
      id ← client_order_id od;
      if String.eqb id cl_ord_id then Ok (Some od)
      else find_order cl_ord_id rest
  end.

(** [rows[-1]], reached with a list only (any other non-empty [rows] has
    made the scan raise). *)
Definition last_item (rows : json) : result json :=
  match rows with
  | JArr items =>
      match last items with
      | Some x => Ok x
      | None => Raise (LookupError "list index out of range")
      end
  | _ => Raise (TypeError ("'" ++ type_name rows ++ "' object is not subscriptable"))
  end.

Inductive page_outcome : Type :=
| Found (od : json)
| Exhausted
| Next (after : json).

Definition scan_page `{Runtime} (cl_ord_id : string) (rows : json) : result page_outcome :=
  items ← iter_rows rows;
  found ← find_order cl_ord_id items;
  match found with
  | Some od => Ok (Found od)
  | None =>
      if negb (truthy rows) then Ok Exhausted
      else
        last_row ← last_item rows;
        after ← get last_row "ordId";
        Ok (if truthy after then Next after else Exhausted)
  end.

Definition fetch_page `{Runtime} `{Network} (c : client) (path inst_id : string)
    (limit : Z) (after : json) : result json :=
  resp ← _request c "GET" path
           ([("instType", Some "SWAP"); ("instId", Some inst_id);
             ("limit", Some (str_of_Z limit))]
            ++ (if truthy after then [("after", Some (str after))] else []))%list
           [] true;
  rows_v ← get resp "data";
  Ok (jor rows_v (JArr [])).

(** The paging loop, [n] pages left, with the pages it has fetched beside
    its result. *)
Fixpoint search_pages `{Runtime} `{Network} (c : client) (path inst_id cl_ord_id : string)
    (limit : Z) (n : nat) (after : json) : result (option json) * list json :=
  match n with
  | O => (Ok None, [])
  | S n' =>
      match fetch_page c path inst_id limit after with
      | Raise e => (Raise e, [])
      | Ok rows =>
          match scan_page cl_ord_id rows with
          | Raise e => (Raise e, [rows])
          | Ok (Found od) => (Ok (Some (envelope od)), [rows])
          | Ok Exhausted => (Ok None, [rows])
          | Ok (Next after') =>
              let r := search_pages c path inst_id cl_ord_id limit n' after' in
              (fst r, rows :: snd r)
          end
      end
  end.

Definition _search_history_paged `{Runtime} `{Network} (c : client)
    (path inst_id cl_ord_id : string) (max_pages : nat) (limit : Z) : result (option json) :=
  fst (search_pages c path inst_id cl_ord_id limit max_pages JNull).

(** The pages [_search_history_paged] fetches. *)
Definition pages_searched `{Runtime} `{Network} (c : client)
    (path inst_id cl_ord_id : string) (max_pages : nat) (limit : Z) : list json :=
  snd (search_pages c path inst_id cl_ord_id limit max_pages JNull).

Definition history_path : string := "/api/v5/trade/orders-history".
Definition archive_path : string := "/api/v5/trade/orders-history-archive".

Definition not_found (cl_ord_id : string) : exn :=
  RuntimeError ("Order not found in current nor history: clOrdId=" ++ cl_ord_id).

(** The exception is the not-found error of the exhaustive lookup. *)
Definition is_not_found (e : exn) : bool :=
  match e with
  | RuntimeError msg => String.prefix "Order not found in current nor history" msg
  | _ => false
  end.

Definition get_order_anywhere `{Runtime} `{Network} (c : client)
    (inst_id cl_ord_id : string) : result json :=
  let inst_id := strip inst_id in
  let cl_ord_id := strip cl_ord_id in
  if negb (str_truthy inst_id) || negb (str_truthy cl_ord_id) then
    Raise (ValueError "get_order_anywhere requires inst_id and cl_ord_id")
  else
    match get_order_by_clordid c inst_id cl_ord_id with
    | Ok resp => Ok resp
    | Raise e =>
        if negb (contains "51603" (str_exn e)) then Raise e
        else
          found ← _search_history_paged c history_path inst_id cl_ord_id 10 100;
          match found with
          | Some r => Ok r
          | None =>
              found' ← _search_history_paged c archive_path inst_id cl_ord_id 10 100;
              match found' with
              | Some r => Ok r
              | None => Raise (not_found cl_ord_id)
              end
          end
    end.

(** *** Rounding to a step *)

(** [_floor_to_step(x, step)]: the decimals [Decimal(str(x))] and
    [Decimal(str(step))], the quotient truncated, the product, and
    [float(q)], which rounds the product to binary64. *)
Definition _floor_to_step `{Runtime} (x step : float) : result float :=
  if (step <=? 0)%float then Ok x
  else
    xd ← Dec.of_str (str_of_float x);
    sd ← Dec.of_str (str_of_float step);
    quotient ← Dec.divide xd sd;
    q ← Dec.multiply (Dec.to_integral_value quotient) sd;
    Ok (Dec.to_float q).

End Rest.

(** ** The order lifecycle manager ([execution/order_manager.py]) *)

Module OrderManager.

Local Open Scope string_scope.
Local Open Scope float_scope.

(** [make_cl_ord_id(idempotency_key)], called when [time.time()] reads
    [now]. *)
Definition make_cl_ord_id (idempotency_key : string) (now : float) : result string :=
  let h := take 20 (Sha1.hexdigest idempotency_key) in
  ms ← int_of_float (now * 1000);
  Ok ("Q" ++ h ++ zfill 5 (str_of_Z (ms mod 100000))).

(** The configuration entries the manager reads ([None]: the entry is
    absent or null). The entry [cancel_on_timeout] is read with
    [bool(d.get(k, True))], which tells an absent entry ([None] here) from a
    null one ([Some JNull]). *)
Record config : Type := {
  trade_inst_id : option string;
  trade_reject_cooldown_sec : option float;
  trade_cooldown_sec : option float;
  trade_max_positions : option Z;
  trade_order_timeout_sec : option float;
  trade_cancel_on_timeout : option json;
  trade_min_avail_usdt : option float;
  trade_margin_buffer_ratio : option float;
  account_td_mode : option string;
  account_leverage : option float;
}.

(** [bool(d.get("cancel_on_timeout", True))]. *)
Definition cancel_on_timeout (cfg : config) : bool :=
  match trade_cancel_on_timeout cfg with
  | Some v => truthy v
  | None => true
  end.

(** [str(x or d)] for a textual entry. *)
Definition text_or (x : option string) (d : string) : string :=
  match x with
  | Some v => if str_truthy v then v else d
  | None => d
  end.

(** [int(x or d)] for an integer entry. *)
Definition int_or (x : option Z) (d : Z) : Z :=
  match x with
  | Some v => if (v =? 0)%Z then d else v
  | None => d
  end.

(** The fields of the portfolio snapshot the manager reads. *)
Record portfolio : Type := {
  avail_usdt : float;
  pos_long : float;
  pos_short : float;
}.

(** [exchange/models.py]. *)
Record InstrumentSpec : Type := {
  spec_inst_id : string;
  ct_val : float;
  lot_sz : float;
  min_sz : float;
  tick_sz : float;
}.

Record order_request : Type := {
  or_inst_id : string;
  or_td_mode : string;
  or_side : string;
  or_pos_side : string;
  or_sz : float;
  or_last_px : float;
  or_cl_ord_id : string;
}.

Record tpsl_request : Type := {
  ts_inst_id : string;
  ts_td_mode : string;
  ts_close_side : string;
  ts_sz : float;
  ts_tp_trigger : float;
  ts_sl_trigger : float;
  ts_pos_side : string;
  ts_cl_ord_id : string;
}.

(** What the exchange client [self.ex] answers during one call of the
    manager. *)
Record exchange : Type := {
  calc_size_by_risk : float -> result float;
  _must_spec : string -> result InstrumentSpec;
  calc_tp_sl : float -> string -> result (float * float);
  place_market_with_tp_sl : order_request -> result json;
  get_order_anywhere : string -> string -> result json;
  cancel_order : string -> string -> result json;
  place_tp_sl_algo : tpsl_request -> result json;
}.

(** The calls the manager issues, in order; a call made for an
    idempotency key carries the key. *)
Inductive event : Type :=
| Submit (idem : string) (rq : order_request)
| SaveOrder (cl_ord_id : string)
| Lookup (cl_ord_id : string)
| Cancel (cl_ord_id : string)
| TpSl (idem : string) (rq : tpsl_request).

(** The durable ledger and the calls issued so far. *)
Record state : Type := {
  kv : gmap string string;
  calls : list event;
}.

Definition set_kv (k v : string) (st : state) : state :=
  {| kv := <[k := v]> (kv st); calls := calls st |}.

Definition del_kv (k : string) (st : state) : state :=
  {| kv := delete k (kv st); calls := calls st |}.

Definition get_kv_float `{Runtime} (st : state) (k : string) : option float :=
  match kv st !! k with
  | Some v => float_of_str v
  | None => None
  end.

Definition issue (ev : event) (st : state) : state :=
  {| kv := kv st; calls := (calls st ++ [ev])%list |}.

Definition _pending_key (idem : string) : string := "pending:" ++ idem ++ ":clOrdId".
Definition _pending_ts_key (idem : string) : string := "pending:" ++ idem ++ ":ts".
Definition _done_key (idem : string) : string := "done:" ++ idem.
Definition _reject_ts_key : string := "last_reject_ts".
Definition tp_sl_key (idem : string) : string := "tp_sl_set:" ++ idem.

Definition _cleanup_pending (idem : string) (st : state) : state :=
  del_kv (_pending_ts_key idem) (del_kv (_pending_key idem) (del_kv "pending_current_idem" st)).

(** [_bar_close(bar)]: the first of the four keys that is present, is not
    [None] and converts to a float. *)
Fixpoint first_price `{Runtime} (keys : list string) (bar : list (string * json)) : float :=
  match keys with
  | [] => 0
  | k :: rest =>
      match assoc k bar with
      | None | Some JNull => first_price rest bar
      | Some v =>
          match to_float v with
          | Ok x => x
          | Raise _ => first_price rest bar
          end
      end
  end.

Definition _bar_close `{Runtime} (bar : list (string * json)) : float :=
  first_price ["close"; "c"; "last"; "px"] bar.

(** *** The margin gate *)

Definition _margin_gate (cfg : config) (pf : portfolio) (ex : exchange)
    (inst_id : string) (last_px sz : float) : bool :=
  let avail := float_or (avail_usdt pf) 0 in
  if avail <=? 0 then false
  else
    let lev := entry_or (account_leverage cfg) 1 in
    let lev := if lev <=? 0 then 1 else lev in
    let ct_val :=
      match _must_spec ex inst_id with
      | Ok spec => Some (float_or (ct_val spec) 0)
      | Raise _ => None
      end in
    let min_avail_check :=
      let min_avail := entry_or (trade_min_avail_usdt cfg) 5 in
      if avail <? min_avail then false else true in
    match ct_val with
    | None => min_avail_check
    | Some ct =>
        if negb (float_truthy ct) || (ct <=? 0) then min_avail_check
        else
          let notional := last_px * ct * sz in
          let req_margin := notional / lev in
          let buffer_ratio := entry_or (trade_margin_buffer_ratio cfg) 0.95 in
          if avail * buffer_ratio <? req_margin then false else true
    end.

(** The required margin [p * ct * s / L] and the buffered balance
    [B * r], as the gate computes them. *)
Definition required_margin (last_px ct sz lev : float) : float :=
  last_px * ct * sz / lev.

Definition buffered_balance (cfg : config) (avail : float) : float :=
  avail * entry_or (trade_margin_buffer_ratio cfg) 0.95.

(** *** Signal entry *)

Record signal : Type := {
  action : string;
  idempotency_key : string;
  reason : string;
}.

(** What the world answers during one call of [on_signal]: the exchange
    client, the portfolio snapshot, and the clock at each place the method
    reads it. *)
Record signal_env : Type := {
  se_ex : exchange;
  se_portfolio : portfolio;
  now_reject_check : float;
  now_cooldown_check : float;
  now_gate_reject : float;
  now_cl_ord_id : float;
  now_pending : float;
  now_submit_reject : float;
  now_trade : float;
}.

Definition direction (action : string) : option (string * string) :=
  if String.eqb action "OPEN_LONG" then Some ("long", "buy")
  else if String.eqb action "OPEN_SHORT" then Some ("short", "sell")
  else None.

(** [on_signal(signal, bar)]: the state it leaves, and the exception it
    lets through, if any. *)
Definition on_signal `{Runtime} (cfg : config) (env : signal_env) (sig : signal)
    (bar : list (string * json)) (st : state) : state * option exn :=
  let ex := se_ex env in
  let pf := se_portfolio env in
  let idem := idempotency_key sig in
  if negb (String.prefix "OPEN" (action sig)) then (st, None)
  else if negb (str_truthy idem) then (st, None)
  else if bool_decide (kv st !! _done_key idem = Some "1") then (st, None)
  else if opt_str_truthy (kv st !! _pending_key idem) then (st, None)
  else
  let reject_cd := entry_or (trade_reject_cooldown_sec cfg) 15 in
  let last_reject_ts := entry_or (get_kv_float st _reject_ts_key) 0 in
  if (0 <? reject_cd) && (now_reject_check env - last_reject_ts <? reject_cd) then (st, None)
  else
  let cooldown := entry_or (trade_cooldown_sec cfg) 0 in
  let last_trade_ts := entry_or (get_kv_float st "last_trade_ts") 0 in
  if (0 <? cooldown) && (now_cooldown_check env - last_trade_ts <? cooldown) then (st, None)
  else
  let inst_id := strip (text_or (trade_inst_id cfg) "") in
  let td_mode := strip (text_or (account_td_mode cfg) "isolated") in
  if negb (str_truthy inst_id) then (st, None)
  else
  let entry_px := _bar_close bar in
  if entry_px <=? 0 then (st, None)
  else
  match direction (action sig) with
  | None => (st, None)
  | Some (pos_side, side) =>
  let p_long := float_or (pos_long pf) 0 in
  let p_short := float_or (pos_short pf) 0 in
  let max_pos := int_or (trade_max_positions cfg) 1 in
  if (max_pos <=? 1)%Z
     && ((String.eqb (action sig) "OPEN_LONG" && (0 <? p_short))
         || (String.eqb (action sig) "OPEN_SHORT" && (0 <? p_long)))
  then (st, None)
  else
  match calc_size_by_risk ex entry_px with
  | Raise _ => (st, None)
  | Ok raw_sz =>
  let sz := float_or raw_sz 0 in
  if sz <=? 0 then (st, None)
  else if negb (_margin_gate cfg pf ex inst_id entry_px sz) then
    (set_kv (_done_key idem) "1"
       (set_kv _reject_ts_key (str_of_float (now_gate_reject env)) st), None)
  else
  let calc_side := if String.eqb pos_side "long" then "buy" else "sell" in
  match calc_tp_sl ex entry_px calc_side with
  | Raise e => (st, Some e)
  | Ok (tp, sl) =>
  match make_cl_ord_id idem (now_cl_ord_id env) with
  | Raise e => (st, Some e)
  | Ok cl_ord_id =>
  let st1 :=
    set_kv (_pending_ts_key idem) (str_of_float (now_pending env))
      (set_kv (_pending_key idem) cl_ord_id
         (set_kv "pending_current_idem" idem st)) in
  let rq := {| or_inst_id := inst_id; or_td_mode := td_mode; or_side := side;
               or_pos_side := pos_side; or_sz := sz; or_last_px := entry_px;
               or_cl_ord_id := cl_ord_id |} in
  let st2 := issue (Submit idem rq) st1 in
  match place_market_with_tp_sl ex rq with
  | Raise _ =>
      (set_kv (_done_key idem) "1"
         (set_kv _reject_ts_key (str_of_float (now_submit_reject env))
            (_cleanup_pending idem st2)), None)
  | Ok _ =>
      (set_kv "last_trade_ts" (str_of_float (now_trade env))
         (issue (SaveOrder cl_ord_id) st2), None)
  end
  end
  end
  end
  end.

(** *** TP/SL after a fill *)

(** The part of [_after_fill_set_tp_sl] before the conditional order call:
    [Ok None] when it returns early, [Raise] when the [try] block fails. *)
Definition prepare_tp_sl `{Runtime} (ex : exchange) (inst_id td_mode cl_ord_id : string)
    (info : json) (force_sz : option float) : result (option tpsl_request) :=
  a ← get info "avgPx";
  avg_px0 ← to_float (jor a (JFloat 0));
  avg_px ← (if avg_px0 <=? 0 then
              l ← get info "lastPx";
              p ← get info "px";
              to_float (jor (jor l p) (JFloat 0))
            else Ok avg_px0);
  f ← get info "accFillSz";
  acc_fill ← to_float (jor f (JFloat 0));
  let sz := match force_sz with Some s => s | None => acc_fill end in
  if (sz <=? 0) || (avg_px <=? 0) then Ok None
  else
    ps ← get info "posSide";
    ps_lower ← to_lower (jor ps (JStr ""));
    let ps_given := strip ps_lower in
    pos_side ← (if String.eqb ps_given "long" || String.eqb ps_given "short"
                then Ok ps_given
                else
                  sd ← get info "side";
                  open_side ← to_lower (jor sd (JStr ""));
                  Ok (if String.eqb open_side "buy" then "long" else "short"));
    let calc_side := if String.eqb pos_side "long" then "buy" else "sell" in
    prices ← calc_tp_sl ex avg_px calc_side;
    let close_side := if String.eqb pos_side "long" then "sell" else "buy" in
    Ok (Some {| ts_inst_id := inst_id; ts_td_mode := td_mode;
                ts_close_side := close_side; ts_sz := sz;
                ts_tp_trigger := fst prices; ts_sl_trigger := snd prices;
                ts_pos_side := pos_side;
                ts_cl_ord_id := "TPSL_" ++ cl_ord_id |}).

Definition _after_fill_set_tp_sl `{Runtime} (ex : exchange)
    (idem inst_id td_mode cl_ord_id : string) (info : json) (force_sz : option float)
    (st : state) : state :=
  if bool_decide (kv st !! tp_sl_key idem = Some "1") then st
  else
    match prepare_tp_sl ex inst_id td_mode cl_ord_id info force_sz with
    | Raise _ => st
    | Ok None => st
    | Ok (Some rq) =>
        let st1 := issue (TpSl idem rq) st in
        match place_tp_sl_algo ex rq with
        | Raise _ => st1
        | Ok _ => set_kv (tp_sl_key idem) "1" st1
        end
    end.

(** *** Housekeeping *)

Record housekeep_env : Type := {
  he_ex : exchange;
  he_now : float;
}.

(** The [try] block of the timeout check: the order, its state and its
    filled size. *)
Definition query_order `{Runtime} (ex : exchange) (inst_id cl_ord_id : string)
  : result (json * string * float) :=
  od ← get_order_anywhere ex inst_id cl_ord_id;
  data ← get od "data";
  info ← first_item (jor data (JArr [JObj []]));
  st_v ← get info "state";
  state ← to_lower (jor st_v (JStr ""));
  af ← get info "accFillSz";
  acc_fill ← to_float (jor af (JFloat 0));
  Ok (info, state, acc_fill).

Definition housekeep `{Runtime} (cfg : config) (env : housekeep_env) (st : state) : state :=
  let ex := he_ex env in
  match kv st !! "pending_current_idem" with
  | None => st
  | Some idem =>
  if negb (str_truthy idem) then st
  else if bool_decide (kv st !! _done_key idem = Some "1") then _cleanup_pending idem st
  else if negb (opt_str_truthy (kv st !! _pending_key idem)) then _cleanup_pending idem st
  else
  let cl := default "" (kv st !! _pending_key idem) in
  let ts := entry_or (get_kv_float st (_pending_ts_key idem)) 0 in
  if ts <=? 0 then st
  else
  let timeout_sec := entry_or (trade_order_timeout_sec cfg) 60 in
  if he_now env - ts <? timeout_sec then st
  else
  let inst_id := strip (text_or (trade_inst_id cfg) "") in
  let td_mode := strip (text_or (account_td_mode cfg) "isolated") in
  let st1 := issue (Lookup cl) st in
  match query_order ex inst_id cl with
  | Raise _ => _cleanup_pending idem (set_kv (_done_key idem) "1" st1)
  | Ok (info, state, acc_fill) =>
      if String.eqb state "filled" || String.eqb state "canceled" then
        let st2 :=
          if String.eqb state "filled"
          then _after_fill_set_tp_sl ex idem inst_id td_mode cl info None st1
          else st1 in
        _cleanup_pending idem (set_kv (_done_key idem) "1" st2)
      else if String.eqb state "partially_filled" then
        let st2 := issue (Cancel cl) st1 in
        let st3 := _after_fill_set_tp_sl ex idem inst_id td_mode cl info (Some acc_fill) st2 in
        _cleanup_pending idem (set_kv (_done_key idem) "1" st3)
      else if cancel_on_timeout cfg then issue (Cancel cl) st1
      else st1
  end
  end.

(** *** Runs of the control loop *)

Inductive op : Type :=
| Signal (env : signal_env) (sig : signal) (bar : list (string * json))
| Housekeep (env : housekeep_env).

Definition step `{Runtime} (cfg : config) (st : state) (o : op) : state :=
  match o with
  | Signal env sig bar => fst (on_signal cfg env sig bar st)
  | Housekeep env => housekeep cfg env st
  end.

Definition run `{Runtime} (cfg : config) (ops : list op) (st : state) : state :=
  fold_left (step cfg) ops st.

Definition is_submit (idem : string) (ev : event) : bool :=
  match ev with
  | Submit i _ => String.eqb i idem
  | _ => false
  end.

Definition is_tp_sl (idem : string) (ev : event) : bool :=
  match ev with
  | TpSl i _ => String.eqb i idem
  | _ => false
  end.

(** The number of order submissions, and of conditional TP/SL order calls,
    issued for a key. *)
Definition submissions (idem : string) (st : state) : nat :=
  length (List.filter (is_submit idem) (calls st)).

Definition tp_sl_calls (idem : string) (st : state) : nat :=
  length (List.filter (is_tp_sl idem) (calls st)).

(** The key is recorded as done; the key is done or has a pending marker
    (the two tests at the head of [on_signal]). *)
Definition done (st : state) (idem : string) : Prop :=
  kv st !! _done_key idem = Some "1".

Definition gated (st : state) (idem : string) : Prop :=
  done st idem \/ opt_str_truthy (kv st !! _pending_key idem) = true.

(** Every pending marker of the ledger holds a client order id. *)
Definition markers_set (m : gmap string string) : Prop :=
  forall idem v, m !! _pending_key idem = Some v -> v <> "".

(** A call counted [count] times so far was never issued, or was issued
    once and is [sealed] against a second one. *)
Definition at_most_once (count : nat) (sealed : Prop) : Prop :=
  count = 0%nat \/ (count = 1%nat /\ sealed).

End OrderManager.

(** ** The portfolio snapshot ([execution/portfolio.py]) *)

Module Portfolio.

Local Open Scope string_scope.
Local Open Scope float_scope.

(** Where a field of the snapshot comes from in one refresh: the entry the
    account stream pushed into the ledger, a REST pull, the value the
    object already held, or the zero written when nothing can be read. *)
Inductive source : Type :=
| Stream
| Pull
| Previous
| Zeroed.

#[global] Instance source_eq_dec : EqDecision source.
Proof. solve_decision. Defined.

Record snapshot : Type := {
  equity : float;
  avail_usdt : float;
  pos_long : float;
  pos_short : float;
  has_position : bool;
  pos_side : option string;
  pos_sz : float;
}.

(** The source of each of the four fields after a refresh. *)
Record origins : Type := {
  of_equity : source;
  of_avail : source;
  of_long : source;
  of_short : source;
}.

(** What the world answers during one refresh: the ledger, the exchange
    client, [json.loads], and the clock at the two freshness checks. *)
Record refresh_env : Type := {
  store : gmap string string;
  get_account_equity_usd : result float;
  get_balance_usdt : result float;
  get_positions : string -> result json;
  json_loads : string -> option json;
  now_account : float;
  now_positions : float;
}.

Definition get_kv_float `{Runtime} (env : refresh_env) (k : string) : option float :=
  match store env !! k with
  | Some v => float_of_str v
  | None => None
  end.

(** [_ws_fresh(max_age_sec)] when [time.time()] reads [now]. *)
Definition _ws_fresh `{Runtime} (env : refresh_env) (now max_age_sec : float) : bool :=
  match get_kv_float env "ws_private:last_uptime" with
  | None => false
  | Some ts => now - ts <=? max_age_sec
  end.

(** One field of [_refresh_account]: the stream's entry if the ledger
    holds it, a REST pull otherwise. *)
Definition stream_or_pull (ws : option float) (pull : result float) : result (float * source) :=
  match ws with
  | Some v => Ok (v, Stream)
  | None => x ← pull; Ok (float_or x 0, Pull)
  end.

Definition pulled (pull : result float) : result (float * source) :=
  x ← pull; Ok (float_or x 0, Pull).

(** [_refresh_account()]: the equity and the available balance with their
    sources. An exception leaves the fields as they are at that point. *)
Definition _refresh_account `{Runtime} (env : refresh_env) (eq0 av0 : float)
  : (float * source) * (float * source) :=
  let fresh := _ws_fresh env (now_account env) 5 in
  let eq_r :=
    if fresh then stream_or_pull (get_kv_float env "ws:equity_usd") (get_account_equity_usd env)
    else pulled (get_account_equity_usd env) in
  match eq_r with
  | Raise _ => ((float_or eq0 0, Previous), (float_or av0 0, Previous))
  | Ok (e, se) =>
      let av_r :=
        if fresh then stream_or_pull (get_kv_float env "ws:avail_usdt") (get_balance_usdt env)
        else pulled (get_balance_usdt env) in
      match av_r with
      | Raise _ => ((float_or e 0, se), (float_or av0 0, Previous))
      | Ok (a, sa) => ((e, se), (a, sa))
      end
  end.

(** [_set_pos(long_sz, short_sz)]. *)
Definition _set_pos (s : snapshot) (long_sz short_sz : float) : snapshot :=
  let l := float_or long_sz 0 in
  let sh := float_or short_sz 0 in
  let side_sz :=
    if (0 <? l) && (sh <=? 0) then (Some "long", l)
    else if (0 <? sh) && (l <=? 0) then (Some "short", sh)
    else if (l =? 0) && (sh =? 0) then (None, 0)
    else if sh <=? l then (Some "long", l)
    else (Some "short", sh) in
  {| equity := equity s; avail_usdt := avail_usdt s;
     pos_long := l; pos_short := sh;
     has_position := (0 <? l) || (0 <? sh);
     pos_side := fst side_sz; pos_sz := snd side_sz |}.

(** The sizes the stream pushed, if the ledger holds them: the two-sided
    entries first, the one-sided ones of older versions next. *)
Definition stream_positions `{Runtime} (env : refresh_env) : option (float * float) :=
  let pl := get_kv_float env "ws:pos_long" in
  let ps := get_kv_float env "ws:pos_short" in
  match pl, ps with
  | None, None =>
      let sz := entry_or (get_kv_float env "ws:pos_sz") 0 in
      if bool_decide (store env !! "ws:has_pos" = Some "1") then
        if bool_decide (store env !! "ws:pos_side" = Some "long") then Some (sz, 0)
        else if bool_decide (store env !! "ws:pos_side" = Some "short") then Some (0, sz)
        else None
      else None
  | _, _ => Some (entry_or pl 0, entry_or ps 0)
  end.

(** The list of positions in a REST answer. *)
Definition positions_of (env : refresh_env) (resp : json) : list json :=
  let pos_list :=
    match resp with
    | JObj _ => match get resp "data" with Ok d => jor d (JArr []) | Raise _ => JArr [] end
    | JArr _ => resp
    | _ => JArr []
    end in
  let pos_list :=
    match pos_list with
    | JStr text => default (JArr []) (json_loads env text)
    | _ => pos_list
    end in
  match pos_list with
  | JArr items => items
  | _ => []
  end.

(** The loop over the positions: the long and the short sizes summed. *)
Fixpoint sum_positions `{Runtime} (items : list json) (long_sz short_sz : float) : float * float :=
  match items with
  | [] => (long_sz, short_sz)
  | JObj fields :: rest =>
      let sz :=
        match to_float (jor (default (JStr "0") (assoc "pos" fields)) (JStr "0")) with
        | Ok x => x
        | Raise _ => 0
        end in
      let side := strip (lower (str (jor (default JNull (assoc "posSide" fields)) (JStr "")))) in
      if String.eqb side "long" then sum_positions rest (long_sz + sz) short_sz
      else if String.eqb side "short" then sum_positions rest long_sz (short_sz + sz)
      else sum_positions rest long_sz short_sz
  | _ :: rest => sum_positions rest long_sz short_sz
  end.

(** [_refresh_pos()]: the two sizes, with the branch that passed them to
    [_set_pos] (the stream snapshot, the REST pull, or the zeros written
    when there is no instrument or the pull fails). *)
Definition _refresh_pos `{Runtime} (inst_id_cfg : option string) (env : refresh_env)
  : (float * float) * source :=
  let inst_id := strip (OrderManager.text_or inst_id_cfg "") in
  if negb (str_truthy inst_id) then ((0, 0), Zeroed)
  else
    match (if _ws_fresh env (now_positions env) 5 then stream_positions env else None) with
    | Some sizes => (sizes, Stream)
    | None =>
        match get_positions env inst_id with
        | Raise _ => ((0, 0), Zeroed)
        | Ok resp => (sum_positions (positions_of env resp) 0 0, Pull)
        end
    end.

(** [refresh()]: the account, then the positions. *)
Definition refresh `{Runtime} (inst_id_cfg : option string) (env : refresh_env)
    (s : snapshot) : snapshot * origins :=
  let acct := _refresh_account env (equity s) (avail_usdt s) in
  let pos := _refresh_pos inst_id_cfg env in
  let s1 :=
    {| equity := fst (fst acct); avail_usdt := fst (snd acct);
       pos_long := pos_long s; pos_short := pos_short s;
       has_position := has_position s; pos_side := pos_side s; pos_sz := pos_sz s |} in
  (_set_pos s1 (fst (fst pos)) (snd (fst pos)),
   {| of_equity := snd (fst acct); of_avail := snd (snd acct);
      of_long := snd pos; of_short := snd pos |}).

(** The same world with another ledger. *)
Definition with_store (ledger : gmap string string) (env : refresh_env) : refresh_env :=
  {| store := ledger;
     get_account_equity_usd := get_account_equity_usd env;
     get_balance_usdt := get_balance_usdt env;
     get_positions := get_positions env;
     json_loads := json_loads env;
     now_account := now_account env;
     now_positions := now_positions env |}.

(** A row the positions loop passes over: not a dict, or a dict whose
    position side is neither long nor short (a net-mode position). *)
Definition passed_over `{Runtime} (d : json) : Prop :=
  match d with
  | JObj fields =>
      let side := strip (lower (str (jor (default JNull (assoc "posSide" fields)) (JStr "")))) in
      String.eqb side "long" = false /\ String.eqb side "short" = false
  | _ => True
  end.

End Portfolio.

(** ** The account event stream ([exchange/okx_ws_private.py]) *)

Module PrivateWS.

Local Open Scope string_scope.

(** The configuration the stream reads: [max_login_failures], and whether
    the three credentials are all set. *)
Record config : Type := {
  max_login_failures : Z;
  has_credentials : bool;
}.

(** The stream object. [ws_open] tells whether the current connection is
    still running (no [close()] yet), [running] whether the thread of
    [_run_loop] is alive, [attempts] counts the connection attempts
    ([_connect_once]) and [sent] the payloads written to the socket. *)
Record state : Type := {
  login_failures : nat;
  disabled : bool;
  last_error : string;
  connected : bool;
  authed : bool;
  subscribed : bool;
  stopped : bool;
  ws_open : bool;
  running : bool;
  attempts : nat;
  sent : list string;
}.

(** The object [__init__] builds. *)
Definition initial : state :=
  {| login_failures := 0; disabled := false; last_error := "";
     connected := false; authed := false; subscribed := false;
     stopped := false; ws_open := false; running := false;
     attempts := 0; sent := [] |}.

Definition close (st : state) : state :=
  {| login_failures := login_failures st; disabled := disabled st;
     last_error := last_error st; connected := connected st; authed := authed st;
     subscribed := subscribed st; stopped := stopped st; ws_open := false;
     running := running st; attempts := attempts st; sent := sent st |}.

Definition with_error (e : string) (st : state) : state :=
  {| login_failures := login_failures st; disabled := disabled st;
     last_error := e; connected := connected st; authed := authed st;
     subscribed := subscribed st; stopped := stopped st; ws_open := ws_open st;
     running := running st; attempts := attempts st; sent := sent st |}.

Definition with_failures (n : nat) (st : state) : state :=
  {| login_failures := n; disabled := disabled st;
     last_error := last_error st; connected := connected st; authed := authed st;
     subscribed := subscribed st; stopped := stopped st; ws_open := ws_open st;
     running := running st; attempts := attempts st; sent := sent st |}.

Definition write (payload : string) (st : state) : state :=
  {| login_failures := login_failures st; disabled := disabled st;
     last_error := last_error st; connected := connected st; authed := authed st;
     subscribed := subscribed st; stopped := stopped st; ws_open := ws_open st;
     running := running st; attempts := attempts st;
     sent := (sent st ++ [payload])%list |}.

(** [_disable(reason)]. *)
Definition _disable (reason : string) (st : state) : state :=
  close
    {| login_failures := login_failures st; disabled := true;
       last_error := reason; connected := connected st; authed := authed st;
       subscribed := subscribed st; stopped := stopped st; ws_open := ws_open st;
       running := running st; attempts := attempts st; sent := sent st |}.

(** [_login()], once the connection is open. *)
Definition _login (cfg : config) (st : state) : state :=
  if negb (has_credentials cfg)
  then _disable "Missing API credentials (auth.api_key/api_secret/passphrase)" st
  else write "login" st.

(** [_subscribe_after_login()]: the three channels, once per connection. *)
Definition _subscribe_after_login (st : state) : state :=
  if subscribed st then st
  else
    let st := write "subscribe:orders"
                (write "subscribe:positions" (write "subscribe:account" st)) in
    {| login_failures := login_failures st; disabled := disabled st;
       last_error := last_error st; connected := connected st; authed := authed st;
       subscribed := true; stopped := stopped st; ws_open := ws_open st;
       running := running st; attempts := attempts st; sent := sent st |}.

Definition login_ok (st : state) : state :=
  _subscribe_after_login
    {| login_failures := 0; disabled := disabled st;
       last_error := last_error st; connected := connected st; authed := true;
       subscribed := subscribed st; stopped := stopped st; ws_open := ws_open st;
       running := running st; attempts := attempts st; sent := sent st |}.

(** The business codes of a credential or environment mismatch. *)
Definition credential_code (code : string) : bool :=
  String.eqb code "60031" || String.eqb code "60032"
  || String.eqb code "50119" || String.eqb code "50101".

(** The breaker: disable at the threshold, close the connection below it. *)
Definition trip_or_close (cfg : config) (st : state) : state :=
  if (max_login_failures cfg <=? Z.of_nat (login_failures st))%Z
  then _disable (last_error st) st
  else close st.

(** [_handle_message(message)] for a message that parses to [msg]
    ([None]: the text is not JSON and the handler returns). A message that
    is not an object makes the handler raise; the socket library reports
    the exception to [_on_error], which records its text. *)
Definition _handle_message `{Runtime} (cfg : config) (message : option json) (st : state) : state :=
  match message with
  | None => st
  | Some msg =>
      match get msg "event" with
      | Raise e => with_error (str_exn e) st
      | Ok ev_v =>
          let ev := lower (str (jor ev_v (JStr ""))) in
          let code := str (jor (default JNull (field msg "code")) (JStr "")) in
          let err_msg := str (jor (default JNull (field msg "msg")) (JStr "")) in
          if String.eqb ev "login" then
            if String.eqb code "0" then login_ok st
            else
              trip_or_close cfg
                (with_error ("login failed code=" ++ code ++ " msg=" ++ err_msg)
                   (with_failures (S (login_failures st)) st))
          else if String.eqb ev "error" then
            let st := with_error ("event error code=" ++ code ++ " msg=" ++ err_msg) st in
            let st :=
              if credential_code code || contains "API key" err_msg
              then with_failures (S (login_failures st)) st else st in
            trip_or_close cfg st
          else st
      end
  end.

(** What the network does during one connection: whether it opens (and
    the error text if it does not), the messages it delivers, and whether
    [stop()] is called meanwhile. *)
Record session : Type := {
  opens : bool;
  open_error : string;
  messages : list (option json);
  stop_called : bool;
}.

(** The first lines of [_connect_once]: the per-connection flags reset and
    a new socket. *)
Definition reset_connection (st : state) : state :=
  {| login_failures := login_failures st; disabled := disabled st;
     last_error := last_error st; connected := false; authed := false;
     subscribed := false; stopped := stopped st; ws_open := true;
     running := running st; attempts := S (attempts st); sent := sent st |}.

Definition _on_open (cfg : config) (st : state) : state :=
  _login cfg
    {| login_failures := login_failures st; disabled := disabled st;
       last_error := last_error st; connected := true; authed := authed st;
       subscribed := subscribed st; stopped := stopped st; ws_open := ws_open st;
       running := running st; attempts := attempts st; sent := sent st |}.

Definition _on_close (st : state) : state :=
  {| login_failures := login_failures st; disabled := disabled st;
     last_error := last_error st; connected := false; authed := false;
     subscribed := subscribed st; stopped := stopped st; ws_open := false;
     running := running st; attempts := attempts st; sent := sent st |}.

(** [stop()]. *)
Definition stop (st : state) : state :=
  close
    {| login_failures := login_failures st; disabled := disabled st;
       last_error := last_error st; connected := connected st; authed := authed st;
       subscribed := subscribed st; stopped := true; ws_open := ws_open st;
       running := running st; attempts := attempts st; sent := sent st |}.

(** The dispatch of [run_forever]: messages reach the handler while the
    connection has not been closed. *)
Fixpoint deliver `{Runtime} (cfg : config) (msgs : list (option json)) (st : state) : state :=
  match msgs with
  | [] => st
  | m :: rest => if ws_open st then deliver cfg rest (_handle_message cfg m st) else st
  end.

(** [_connect_once()] over one session of the network. *)
Definition _connect_once `{Runtime} (cfg : config) (s : session) (st : state) : state :=
  let st := reset_connection st in
  let st :=
    if opens s then deliver cfg (messages s) (_on_open cfg st)
    else with_error (open_error s) st in
  let st := if stop_called s then stop st else st in
  _on_close st.

Definition exited (st : state) : state :=
  {| login_failures := login_failures st; disabled := disabled st;
     last_error := last_error st; connected := connected st; authed := authed st;
     subscribed := subscribed st; stopped := stopped st; ws_open := ws_open st;
     running := false; attempts := attempts st; sent := sent st |}.

(** [_run_loop()] over the sessions the network offers; when they are
    used up the loop is left waiting ([running] stays set). *)
Fixpoint _run_loop `{Runtime} (cfg : config) (sessions : list session) (st : state) : state :=
  if stopped st then exited st
  else if disabled st then exited st
  else
    match sessions with
    | [] => st
    | s :: rest =>
        let st := _connect_once cfg s st in
        if stopped st || disabled st then exited st
        else _run_loop cfg rest st
    end.

(** [start()]: the thread it starts runs [_run_loop]. *)
Definition start `{Runtime} (cfg : config) (sessions : list session) (st : state) : state :=
  if disabled st then st
  else if running st then st
  else
    _run_loop cfg sessions
      {| login_failures := login_failures st; disabled := disabled st;
         last_error := last_error st; connected := connected st; authed := authed st;
         subscribed := subscribed st; stopped := false; ws_open := ws_open st;
         running := true; attempts := attempts st; sent := sent st |}.

(** The message is a login event with the success code. *)
Definition is_login_ok `{Runtime} (message : option json) : bool :=
  match message with
  | Some msg =>
      match get msg "event" with
      | Ok ev_v =>
          String.eqb (lower (str (jor ev_v (JStr "")))) "login"
          && String.eqb (str (jor (default JNull (field msg "code")) (JStr ""))) "0"
      | Raise _ => false
      end
  | None => false
  end.

(** A login-failure event with business code [code]. *)
Definition login_failure (code : string) : json :=
  JObj [("event", JStr "login"); ("code", JStr code); ("msg", JStr "Login failed.")].

(** A session in which the login is answered by a failure event. *)
Definition failing_session (code : string) : session :=
  {| opens := true; open_error := ""; messages := [Some (login_failure code)];
     stop_called := false |}.

(** The login-success event, and a session in which [k] of them answer
    the login. *)
Definition login_success : json :=
  JObj [("event", JStr "login"); ("code", JStr "0"); ("msg", JStr "")].

Definition welcome_session (k : nat) : session :=
  {| opens := true; open_error := ""; messages := repeat (Some login_success) k;
     stop_called := false |}.

(** An error event, and a session in which one answers the login. *)
Definition error_event (code msg : string) : json :=
  JObj [("event", JStr "error"); ("code", JStr code); ("msg", JStr msg)].

Definition error_session (code msg : string) : session :=
  {| opens := true; open_error := ""; messages := [Some (error_event code msg)];
     stop_called := false |}.

End PrivateWS.

(** ** The operations of the exchange client ([exchange/okx_rest.py]) *)

Module RestOps.

Import Rest.
Local Open Scope string_scope.

(** The world the client talks to: the libraries and the network as they
    are when the request number [k] is sent. *)
Definition world : Type := nat -> Network.

(** An operation of the client: from the requests sent so far to its
    result and the requests sent once it returns or raises. *)
Definition io (A : Type) : Type := list http_request -> result A * list http_request.

#[global] Instance io_ret : MRet io := fun A a sent => (Ok a, sent).
#[global] Instance io_bind : MBind io := fun A B k m sent =>
  match m sent with
  | (Ok a, sent') => k a sent'
  | (Raise e, sent') => (Raise e, sent')
  end.

Definition raise {A : Type} (e : exn) : io A := fun sent => (Raise e, sent).

Definition lift {A : Type} (r : result A) : io A := fun sent => (r, sent).

(** [try: m except Exception as e: handler(e)]. *)
Definition try_except {A : Type} (m : io A) (handler : exn -> io A) : io A :=
  fun sent =>
    match m sent with
    | (Raise e, sent') => handler e sent'
    | done => done
    end.

(** [_request], with the request it sends added to the requests sent. *)
Definition request `{Runtime} (w : world) (c : client) (method path : string)
    (params : list (string * option string)) (data : list (string * json))
    (auth : bool) : io json :=
  fun sent =>
    let net := w (length sent) in
    match @build_request net c method path params data auth with
    | Raise e => (Raise e, sent)
    | Ok rq => (classify c path (@send net rq), (sent ++ [rq])%list)
    end.

(** [a or b or ""] on optional strings. *)
Definition first_text (a b : option string) : string :=
  if opt_str_truthy a then default "" a
  else if opt_str_truthy b then default "" b
  else "".

(** *** Cancelling an order *)

Definition cancel_payload (inst_id _ord _cl : string) : list (string * json) :=
  ("instId", JStr inst_id)
  :: (if str_truthy _ord then [("ordId", JStr _ord)] else [("clOrdId", JStr _cl)]).

Definition cancel_order `{Runtime} (w : world) (c : client)
    (inst_id ord_id cl_ord_id clOrdId : option string) : io json :=
  let inst_id := strip (first_text inst_id None) in
  let _cl := strip (first_text cl_ord_id clOrdId) in
  let _ord := strip (first_text ord_id None) in
  if negb (str_truthy inst_id) then raise (ValueError "cancel_order requires inst_id")
  else if negb (str_truthy _cl) && negb (str_truthy _ord) then
    raise (ValueError "cancel_order requires ord_id or cl_ord_id")
  else
    request w c "POST" "/api/v5/trade/cancel-order" [] (cancel_payload inst_id _ord _cl) true.

(** *** Placing an order *)

(** [pm in ("long_short_mode", "long_short", "hedge", "longshortmode")]
    for [pm = (self.pos_mode or "").lower()]. *)
Definition is_hedge (pos_mode : string) : bool :=
  let pm := lower pos_mode in
  String.eqb pm "long_short_mode" || String.eqb pm "long_short"
  || String.eqb pm "hedge" || String.eqb pm "longshortmode".

Definition has_key (k : string) (data : list (string * json)) : bool :=
  match assoc k data with Some _ => true | None => false end.

(** The payload [place_order] sends: in hedge mode a missing [posSide] is
    filled in from the side. *)
Definition order_payload (pos_mode : string) (data : list (string * json))
  : result (list (string * json)) :=
  if is_hedge pos_mode && negb (has_key "posSide" data) then
    s ← to_lower (jor (default JNull (assoc "side" data)) (JStr ""));
    Ok (if String.eqb s "buy" then (data ++ [("posSide", JStr "long")])%list
        else if String.eqb s "sell" then (data ++ [("posSide", JStr "short")])%list
        else data)
  else Ok data.

Definition place_order `{Runtime} (w : world) (c : client) (pos_mode : string)
    (data : list (string * json)) : io json :=
  payload ← lift (order_payload pos_mode data);
  request w c "POST" "/api/v5/trade/order" [] payload true.

(** The reply a refused order gets without any request. *)
Definition local_reject (msg : string) : json :=
  JObj [("code", JStr "LOCAL_REJECT"); ("msg", JStr msg); ("data", JArr [])].

(** What [place_market_with_tp_sl] takes from the configuration, the clock
    and the [Decimal] formatting of [_fmt_sz]
    ([format(Decimal(str(sz)).normalize(), "f")]). *)
Record placing : Type := {
  cfg_inst_id : option string;
  cfg_td_mode : option string;
  pos_mode : string;
  now : float;
  _fmt_sz : float -> string;
}.

Definition place_market_with_tp_sl `{Runtime} (w : world) (c : client) (p : placing)
    (side : string) (sz : json) (idempotency_key : string)
    (inst_id td_mode pos_side cl_ord_id : option string) : io json :=
  let sz_f := match to_float sz with Ok x => x | Raise _ => 0%float end in
  if (sz_f <=? 0)%float then mret (local_reject ("invalid order size sz=" ++ str sz))
  else
    let inst_id :=
      strip (if opt_str_truthy inst_id then default "" inst_id
             else OrderManager.text_or (cfg_inst_id p) "") in
    if negb (str_truthy inst_id) then mret (local_reject "missing inst_id")
    else
      let td_mode :=
        strip (if opt_str_truthy td_mode then default "" td_mode
               else OrderManager.text_or (cfg_td_mode p) "isolated") in
      let given := strip (first_text cl_ord_id (Some idempotency_key)) in
      clid ← (if str_truthy given then mret given
              else ms ← lift (int_of_float (now p * 1000)%float);
                   mret ("Q" ++ str_of_Z ms));
      let data :=
        ([("instId", JStr inst_id); ("tdMode", JStr td_mode); ("side", JStr (lower side));
          ("ordType", JStr "market"); ("sz", JStr (_fmt_sz p sz_f)); ("clOrdId", JStr clid)]
         ++ (if opt_str_truthy pos_side
             then [("posSide", JStr (strip (lower (default "" pos_side))))] else []))%list in
      place_order w c (pos_mode p) data.


(** *** Leverage *)

Definition leverage_payload (inst_id : string) (lever : Z) (mgn_mode : string)
    (pos_side : option string) : list (string * json) :=
  ([("instId", JStr inst_id); ("lever", JStr (str_of_Z lever)); ("mgnMode", JStr mgn_mode)]
   ++ match pos_side with Some side => [("posSide", JStr side)] | None => [] end)%list.

(** [_call(payload)]. *)
Definition _call `{Runtime} (w : world) (c : client) (payload : list (string * json))
  : io json :=
  request w c "POST" "/api/v5/account/set-leverage" [] payload true.

(** The two calls of the hedge mode, the long side first. *)
Definition both_sides `{Runtime} (w : world) (c : client) (inst_id : string) (lever : Z)
    (mgn_mode : string) : io json :=
  r1 ← _call w c (leverage_payload inst_id lever mgn_mode (Some "long"));
  r2 ← _call w c (leverage_payload inst_id lever mgn_mode (Some "short"));
  d1 ← lift (get r1 "data");
  d2 ← lift (get r2 "data");
  mret (JObj [("code", JStr "0"); ("data", JArr [JObj [("long", d1); ("short", d2)]])]).

Definition set_leverage `{Runtime} (w : world) (c : client) (pos_mode : string)
    (inst_id : option string) (lever : Z) (td_mode : option string) : io json :=
  let inst_id := strip (first_text inst_id None) in
  let mgn_mode := strip (first_text td_mode (Some "isolated")) in
  if is_hedge pos_mode then both_sides w c inst_id lever mgn_mode
  else
    try_except (_call w c (leverage_payload inst_id lever mgn_mode None))
      (fun e =>
         if contains "51000" (str_exn e) && contains "posSide" (str_exn e)
         then both_sides w c inst_id lever mgn_mode
         else raise e).

(** *** The instrument cache *)

(** [_must_spec(inst_id)] over the cache [_spec_cache]; [fetch] is what
    [get_instrument_spec] answers. Beside the result: the cache it leaves
    and the instruments it asked the exchange for. *)
Definition _must_spec (fetch : string -> result OrderManager.InstrumentSpec)
    (cache : gmap string OrderManager.InstrumentSpec) (inst_id : string)
  : result OrderManager.InstrumentSpec * gmap string OrderManager.InstrumentSpec * list string :=
  let inst_id := strip inst_id in
  match cache !! inst_id with
  | Some spec => (Ok spec, cache, [])
  | None =>
      match fetch inst_id with
      | Ok spec => (Ok spec, <[inst_id := spec]> cache, [inst_id])
      | Raise e => (Raise e, cache, [inst_id])
      end
  end.

(** *** The available balance *)

(** The loop of [get_balance_usdt] over the rows of [details]. *)
Fixpoint first_usdt `{Runtime} (rows : list json) : result float :=
  match rows with
  | [] => Ok 0%float
  | d :: rest =>
      ccy ← get d "ccy";
      if String.eqb (upper (str (jor ccy (JStr "")))) "USDT" then
        match (avail ← get d "availBal"; to_float (jor avail (JFloat 0))) with
        | Ok x => Ok x
        | Raise _ => Ok 0%float
        end
      else first_usdt rest
  end.

(** [get_balance_usdt()]; [balance] is what [get_account_balance]
    answers. *)
Definition get_balance_usdt `{Runtime} (balance : result json) : result float :=
  resp ← balance;
  data ← get resp "data";
  info ← first_item (jor data (JArr [JObj []]));
  details ← get info "details";
  rows ← iter_rows (jor details (JArr []));
  first_usdt rows.

(** The rows before the first USDT row: dicts in another currency. *)
Definition other_currency `{Runtime} (d : json) : Prop :=
  exists fields, d = JObj fields /\
    String.eqb (upper (str (jor (default JNull (assoc "ccy" fields)) (JStr "")))) "USDT" = false.

(** *** The conditional TP/SL order *)

(** [x in ("buy", "sell")] and [x in ("long", "short")]. *)
Definition is_side (x : string) : bool := String.eqb x "buy" || String.eqb x "sell".
Definition is_pos_side (x : string) : bool := String.eqb x "long" || String.eqb x "short".

(** What [place_tp_sl_algo] takes from the object and from its other
    methods: the configured margin mode, [_fmt_sz] and [round_to_tick]. *)
Record algo_env : Type := {
  self_td_mode : string;
  fmt_sz : float -> string;
  round_to_tick : float -> string -> io float;
}.

(** The part of [place_tp_sl_algo] after its argument checks. *)
Definition send_tp_sl `{Runtime} (w : world) (c : client) (a : algo_env)
    (inst_id close_side : string) (sz_f : float) (tp_trigger sl_trigger : option float)
    (pos_side : string) (cl_ord_id : option string) (mm : string) : io json :=
  let data :=
    ([("instId", JStr inst_id); ("tdMode", JStr mm); ("side", JStr close_side);
      ("posSide", JStr pos_side); ("ordType", JStr "conditional");
      ("sz", JStr (fmt_sz a sz_f))]
     ++ (if opt_str_truthy cl_ord_id then [("clOrdId", JStr (default "" cl_ord_id))] else []))%list in
  tp_part ← match tp_trigger with
            | Some tp =>
                px ← round_to_tick a tp inst_id;
                mret [("tpTriggerPx", JStr (str_of_float px)); ("tpOrdPx", JStr "-1")]
            | None => mret []
            end;
  sl_part ← match sl_trigger with
            | Some sl =>
                px ← round_to_tick a sl inst_id;
                mret [("slTriggerPx", JStr (str_of_float px)); ("slOrdPx", JStr "-1")]
            | None => mret []
            end;
  request w c "POST" "/api/v5/trade/order-algo" [] (data ++ tp_part ++ sl_part)%list true.

Definition place_tp_sl_algo `{Runtime} (w : world) (c : client) (a : algo_env)
    (inst_id close_side : option string) (sz : float)
    (tp_trigger sl_trigger : option float)
    (pos_side cl_ord_id td_mode mgn_mode : option string) : io json :=
  let inst_id := strip (first_text inst_id None) in
  let close_side := strip (lower (first_text close_side None)) in
  let pos_side := strip (lower (first_text pos_side None)) in
  if negb (is_side close_side) then
    raise (ValueError "place_tp_sl_algo close_side must be buy/sell")
  else if negb (is_pos_side pos_side) then
    raise (ValueError "place_tp_sl_algo pos_side must be long/short")
  else
    let mm :=
      strip (if opt_str_truthy mgn_mode then default "" mgn_mode
             else if opt_str_truthy td_mode then default "" td_mode
             else if str_truthy (self_td_mode a) then self_td_mode a
             else "isolated") in
    if (sz <=? 0)%float then raise (ValueError "place_tp_sl_algo invalid sz")
    else send_tp_sl w c a inst_id close_side sz tp_trigger sl_trigger pos_side cl_ord_id mm.

(** *** Whitespace *)

Definition not_space (c : ascii) : bool :=
  negb (is_space c) && (nat_of_ascii c <? 128)%nat.

End RestOps.

(** ** The main loop's helpers ([main.py]) *)

Module Main.

Local Open Scope string_scope.
Local Open Scope float_scope.

(** What [main.py] takes from the Python runtime as it is, beside
    [Runtime]: the parsing of an integer by [int] and the rendering of a
    float with four decimals by the format [:.4f]. *)
Class Formats : Type := {
  int_of_str : string -> option Z;
  fixed4 : float -> string;
}.

(** [safe_int(x, default)] on a string. *)
Definition safe_int `{Formats} (x : string) (default : Z) : Z :=
  match int_of_str x with
  | Some n => n
  | None => default
  end.

(** [make_idem(action, candle_ts_ms, ema_fast, ema_slow)]. *)
Definition make_idem `{Formats} (action : string) (candle_ts_ms : Z)
    (ema_fast ema_slow : float) : string :=
  "SIG_" ++ action ++ "_" ++ str_of_Z candle_ts_ms ++ "_" ++ fixed4 ema_fast
  ++ "_" ++ fixed4 ema_slow.

Definition rel_key (inst_id : string) : string := "ema_rel:" ++ inst_id.
Definition last_ts_key (inst_id : string) : string := "ema_last_ts:" ++ inst_id.

(** [store.get_kv(k) or d]. *)
Definition kv_or (store : gmap string string) (k d : string) : string :=
  match store !! k with
  | Some v => if str_truthy v then v else d
  | None => d
  end.

(** [generate_signal_from_ema(store, inst_id, candle_ts_ms, ema_fast,
    ema_slow)]: the ledger it leaves and the signal it returns. *)
Definition generate_signal_from_ema `{Formats} (store : gmap string string)
    (inst_id : string) (candle_ts_ms : Z) (ema_fast ema_slow : float)
  : gmap string string * option OrderManager.signal :=
  if (candle_ts_ms <=? 0)%Z || (ema_fast <=? 0) || (ema_slow <=? 0) then (store, None)
  else
    let prev_rel := kv_or store (rel_key inst_id) "" in
    let rel := if ema_slow <? ema_fast then "GT" else "LT" in
    if negb (str_truthy prev_rel) then
      (<[last_ts_key inst_id := str_of_Z candle_ts_ms]> (<[rel_key inst_id := rel]> store), None)
    else
      let last_ts := safe_int (kv_or store (last_ts_key inst_id) "0") 0 in
      if (candle_ts_ms =? last_ts)%Z then (store, None)
      else
        let store := <[last_ts_key inst_id := str_of_Z candle_ts_ms]> store in
        if String.eqb prev_rel "LT" && String.eqb rel "GT" then
          (<[rel_key inst_id := rel]> store,
           Some {| OrderManager.action := "OPEN_LONG";
                   OrderManager.idempotency_key :=
                     make_idem "LONG" candle_ts_ms ema_fast ema_slow;
                   OrderManager.reason := "EMA golden cross" |})
        else if String.eqb prev_rel "GT" && String.eqb rel "LT" then
          (<[rel_key inst_id := rel]> store,
           Some {| OrderManager.action := "OPEN_SHORT";
                   OrderManager.idempotency_key :=
                     make_idem "SHORT" candle_ts_ms ema_fast ema_slow;
                   OrderManager.reason := "EMA dead cross" |})
        else (<[rel_key inst_id := rel]> store, None).

(** One observation of the main loop: a candle time and the two
    averages. *)
Record observation : Type := {
  candle_ts_ms : Z;
  ema_fast : float;
  ema_slow : float;
}.

(** The signals a sequence of observations produces, in order. *)
Fixpoint signals `{Formats} (store : gmap string string) (inst_id : string)
    (obs : list observation) : list OrderManager.signal :=
  match obs with
  | [] => []
  | o :: rest =>
      let r := generate_signal_from_ema store inst_id (candle_ts_ms o) (ema_fast o) (ema_slow o) in
      match snd r with
      | Some sig => sig :: signals (fst r) inst_id rest
      | None => signals (fst r) inst_id rest
      end
  end.

(** No two neighbours of the list have the same action. *)
Fixpoint alternate (sigs : list OrderManager.signal) : bool :=
  match sigs with
  | a :: (b :: _) as rest =>
      negb (String.eqb (OrderManager.action a) (OrderManager.action b)) && alternate rest
  | _ => true
  end.

(** *** The handler of the account stream *)

(** [_sf(x)]: [0.0] for [None], for a blank string and for anything
    [float] refuses. *)
Definition _sf `{Runtime} (x : json) : float :=
  match x with
  | JNull => 0
  | _ =>
      if match x with JStr s => String.eqb (strip s) "" | _ => false end then 0
      else match to_float x with Ok v => v | Raise _ => 0 end
  end.

(** The sums of the positions loop. *)
Record totals : Type := {
  long_sz : float;
  short_sz : float;
  long_upl : float;
  short_upl : float;
  long_upl_ratio : float;
  short_upl_ratio : float;
}.

Definition no_totals : totals :=
  {| long_sz := 0; short_sz := 0; long_upl := 0; short_upl := 0;
     long_upl_ratio := 0; short_upl_ratio := 0 |}.

(** The loop over the rows of a positions push; [inst_cfg] is the
    configured instrument. *)
Fixpoint add_rows `{Runtime} (inst_cfg : string) (rows : list json) (t : totals) : totals :=
  match rows with
  | [] => t
  | JObj fields :: rest =>
      let inst_id := strip (str (jor (default JNull (assoc "instId" fields)) (JStr ""))) in
      if str_truthy inst_cfg && str_truthy inst_id && negb (String.eqb inst_id inst_cfg)
      then add_rows inst_cfg rest t
      else
        let pos_side :=
          strip (lower (str (jor (default JNull (assoc "posSide" fields)) (JStr "")))) in
        let pos := _sf (default JNull (assoc "pos" fields)) in
        let upl := _sf (default JNull (assoc "upl" fields)) in
        let upl_ratio := _sf (default JNull (assoc "uplRatio" fields)) in
        if String.eqb pos_side "long" then
          add_rows inst_cfg rest
            {| long_sz := long_sz t + abs pos; short_sz := short_sz t;
               long_upl := long_upl t + upl; short_upl := short_upl t;
               long_upl_ratio := upl_ratio; short_upl_ratio := short_upl_ratio t |}
        else if String.eqb pos_side "short" then
          add_rows inst_cfg rest
            {| long_sz := long_sz t; short_sz := short_sz t + abs pos;
               long_upl := long_upl t; short_upl := short_upl t + upl;
               long_upl_ratio := long_upl_ratio t; short_upl_ratio := upl_ratio |}
        else add_rows inst_cfg rest t
  | _ :: rest => add_rows inst_cfg rest t
  end.

(** The side and the size of the one-sided entries. *)
Definition one_sided `{Runtime} (t : totals) : string * string :=
  let has_pos := (0 <? long_sz t) || (0 <? short_sz t) in
  if (0 <? long_sz t) && (short_sz t =? 0) then ("long", str_of_float (long_sz t))
  else if (0 <? short_sz t) && (long_sz t =? 0) then ("short", str_of_float (short_sz t))
  else if negb has_pos then ("", "0")
  else if short_sz t <=? long_sz t then ("long", str_of_float (long_sz t))
  else ("short", str_of_float (short_sz t)).

(** The entries a positions push writes, in the order of the writes. *)
Definition position_entries `{Runtime} (t : totals) (now : float) : list (string * string) :=
  [ ("ws:pos_long", str_of_float (long_sz t));
    ("ws:pos_short", str_of_float (short_sz t));
    ("ws:upl_long", str_of_float (long_upl t));
    ("ws:upl_short", str_of_float (short_upl t));
    ("ws:upl_ratio_long", str_of_float (long_upl_ratio t));
    ("ws:upl_ratio_short", str_of_float (short_upl_ratio t));
    ("ws:has_pos", if (0 <? long_sz t) || (0 <? short_sz t) then "1" else "0");
    ("ws:pos_side", fst (one_sided t));
    ("ws:pos_sz", snd (one_sided t));
    ("ws_private:uptime", str_of_float now) ].

Definition write_all (entries : list (string * string)) (store : gmap string string)
  : gmap string string :=
  fold_left (fun st kv => <[fst kv := snd kv]> st) entries store.

(** [on_private_event(msg)] when [time.time()] reads [now]: the ledger it
    leaves. An exception is logged and swallowed. *)
Definition on_private_event `{Runtime} (inst_cfg : string) (now : float) (msg : json)
    (store : gmap string string) : gmap string string :=
  match get msg "arg" with
  | Raise _ => store
  | Ok arg =>
      match get (jor arg (JObj [])) "channel" with
      | Raise _ => store
      | Ok channel =>
          let ch := str (jor channel (JStr "")) in
          if String.eqb ch "orders" then store
          else if String.eqb ch "positions" then
            let data := jor (default JNull (field msg "data")) (JArr []) in
            let rows := match data with JArr items => items | _ => [] end in
            write_all (position_entries (add_rows inst_cfg rows no_totals) now) store
          else store
      end
  end.

(** The pushes of the stream, each with the time it is handled at. *)
Definition private_events `{Runtime} (inst_cfg : string) (events : list (float * json))
    (store : gmap string string) : gmap string string :=
  fold_left (fun st ev => on_private_event inst_cfg (fst ev) (snd ev) st) events store.

(** The entries the positions handler writes. *)
Definition stream_keys : list string :=
  [ "ws:pos_long"; "ws:pos_short"; "ws:upl_long"; "ws:upl_short"; "ws:upl_ratio_long";
    "ws:upl_ratio_short"; "ws:has_pos"; "ws:pos_side"; "ws:pos_sz"; "ws_private:uptime" ].

End Main.

(** ** The daily loss limit ([risk/risk_manager.py]) *)

Module Risk.

Local Open Scope string_scope.
Local Open Scope float_scope.

(** [ensure_daily_reset(portfolio)] on the day [today] (Singapore time),
    with the portfolio's equity. *)
Definition ensure_daily_reset `{Runtime} (today : string) (equity : float)
    (store : gmap string string) : gmap string string :=
  if bool_decide (store !! "daily_base_date" = Some today) then store
  else
    delete "halted"
      (<["daily_base_equity" := str_of_float equity]>
         (<["daily_base_date" := today]> store)).

Definition get_kv_float `{Runtime} (store : gmap string string) (k : string) : option float :=
  match store !! k with
  | Some v => float_of_str v
  | None => None
  end.

(** [refresh_daily_baseline(portfolio)]. *)
Definition refresh_daily_baseline `{Runtime} (today : string) (equity : float)
    (store : gmap string string) : gmap string string :=
  let store := ensure_daily_reset today equity store in
  match get_kv_float store "daily_base_equity" with
  | Some base =>
      if base <=? 0 then <["daily_base_equity" := str_of_float equity]> store else store
  | None => <["daily_base_equity" := str_of_float equity]> store
  end.

(** [max(a, b)] on floats: [b] only when it is greater. *)
Definition py_max (a b : float) : float := if a <? b then b else a.

(** [is_halted(portfolio)]; [limit] is what
    [float(self.cfg["risk"]["daily_loss_limit_pct"])] evaluates to. *)
Definition is_halted `{Runtime} (limit : result float) (today : string) (equity : float)
    (store : gmap string string) : gmap string string * result bool :=
  let store := ensure_daily_reset today equity store in
  if bool_decide (store !! "halted" = Some "1") then (store, Ok true)
  else
    let base := entry_or (get_kv_float store "daily_base_equity") equity in
    let dd := (base - equity) / py_max base 1e-9 in
    match limit with
    | Raise e => (store, Raise e)
    | Ok l =>
        if l <=? dd then (<["halted" := "1"]> store, Ok true)
        else (store, Ok false)
    end.

End Risk.

(** ** A runtime and a world for the examples *)

(** The examples below run the model on concrete inputs. They use a small
    runtime that agrees with CPython where they need it: on the [repr] of a
    plain ASCII string, on the rendering of an integral float below
    [10^16], and on the parsing of a decimal literal of at most 15 digits. *)
Module Sample.

Local Open Scope string_scope.

(** The digits at the head of [s]: their value, their number, the rest. *)
Fixpoint digits (s : string) (acc : Z) (count : nat) : Z * nat * string :=
  match s with
  | String c s' =>
      if is_digit c
      then digits s' (10 * acc + Z.of_nat (nat_of_ascii c - 48))%Z (S count)
      else (acc, count, s)
  | EmptyString => (acc, count, s)
  end.

Definition parse_unsigned (s : string) : option float :=
  let '(ip, n1, rest) := digits s 0%Z 0%nat in
  match rest with
  | EmptyString =>
      if (0 <? n1)%nat && (n1 <=? 15)%nat then Some (float_of_Z ip) else None
  | String "." frac =>
      let '(m, n2, rest') := digits frac ip 0%nat in
      match rest' with
      | EmptyString =>
          if (0 <? n1)%nat && (n1 + n2 <=? 15)%nat
          then Some (float_of_Z m / float_of_Z (10 ^ Z.of_nat n2))%float
          else None
      | _ => None
      end
  | _ => None
  end.

Definition parse_float (s : string) : option float :=
  match s with
  | String "-" s' => option_map PrimFloat.opp (parse_unsigned s')
  | _ => parse_unsigned s
  end.

Definition render_float (x : float) : string :=
  match Prim2SF x with
  | S754_zero false => "0.0"
  | S754_zero true => "-0.0"
  | S754_infinity false => "inf"
  | S754_infinity true => "-inf"
  | S754_nan => "nan"
  | S754_finite _ _ _ =>
      match int_of_float x with
      | Ok n => str_of_Z n ++ ".0"
      | Raise _ => "nan"
      end
  end.

#[global] Instance runtime : Runtime :=
  {| repr_str := fun s => "'" ++ s ++ "'";
     str_of_float := render_float;
     float_of_str := parse_float |}.

(** A runtime whose [str] is CPython's on the floats of the rounding
    examples as well. *)
Definition render_more (x : float) : string :=
  if (x =? 27123.456)%float then "27123.456"
  else if (x =? 0.1)%float then "0.1"
  else if (x =? -1.5)%float then "-1.5"
  else if (x =? 123456789012345.67)%float then "123456789012345.67"
  else if (x =? 0.0078125)%float then "0.0078125"
  else if (x =? 1e-05)%float then "1e-05"
  else render_float x.

Definition rounding_runtime : Runtime :=
  {| repr_str := fun s => "'" ++ s ++ "'";
     str_of_float := render_more;
     float_of_str := parse_float |}.

(** A configuration with no entry set but the instrument, and one with a
    leverage of 10. *)
Definition cfg : OrderManager.config :=
  {| OrderManager.trade_inst_id := Some "BTC-USDT-SWAP";
     OrderManager.trade_reject_cooldown_sec := None;
     OrderManager.trade_cooldown_sec := None;
     OrderManager.trade_max_positions := None;
     OrderManager.trade_order_timeout_sec := None;
     OrderManager.trade_cancel_on_timeout := None;
     OrderManager.trade_min_avail_usdt := None;
     OrderManager.trade_margin_buffer_ratio := None;
     OrderManager.account_td_mode := None;
     OrderManager.account_leverage := None |}.

Definition cfg_lev (lev : float) : OrderManager.config :=
  {| OrderManager.trade_inst_id := Some "BTC-USDT-SWAP";
     OrderManager.trade_reject_cooldown_sec := None;
     OrderManager.trade_cooldown_sec := None;
     OrderManager.trade_max_positions := None;
     OrderManager.trade_order_timeout_sec := None;
     OrderManager.trade_cancel_on_timeout := None;
     OrderManager.trade_min_avail_usdt := None;
     OrderManager.trade_margin_buffer_ratio := None;
     OrderManager.account_td_mode := None;
     OrderManager.account_leverage := Some lev |}.

Definition spec (ct : float) : OrderManager.InstrumentSpec :=
  {| OrderManager.spec_inst_id := "BTC-USDT-SWAP"; OrderManager.ct_val := ct;
     OrderManager.lot_sz := 1; OrderManager.min_sz := 1; OrderManager.tick_sz := 0.1 |}.

Definition unavailable {A : Type} : result A := Raise (RuntimeError "unavailable").

(** An exchange client that knows the instrument, sizes every order at
    [sz], accepts orders, and reports the order [order] to every lookup. *)
Definition exchange (ct sz : float) (order : result json) : OrderManager.exchange :=
  {| OrderManager.calc_size_by_risk := fun _ => Ok sz;
     OrderManager._must_spec := fun _ => Ok (spec ct);
     OrderManager.calc_tp_sl := fun px _ => Ok (px * 1.02, px * 0.99)%float;
     OrderManager.place_market_with_tp_sl := fun _ => Ok (JObj [("code", JStr "0")]);
     OrderManager.get_order_anywhere := fun _ _ => order;
     OrderManager.cancel_order := fun _ _ => Ok (JObj [("code", JStr "0")]);
     OrderManager.place_tp_sl_algo := fun _ => Ok (JObj [("code", JStr "0")]) |}.

Definition portfolio (avail : float) : OrderManager.portfolio :=
  {| OrderManager.avail_usdt := avail; OrderManager.pos_long := 0;
     OrderManager.pos_short := 0 |}.

(** [urlencode] and [json.dumps(separators=(",", ":"))] on plain
    alphanumeric text. *)
Definition encode_query (params : list (string * string)) : string :=
  join "&" (map (fun kv => fst kv ++ "=" ++ snd kv) params).

Definition quote : string := String (ascii_of_nat 34) EmptyString.

Fixpoint dumps (v : json) : string :=
  match v with
  | JNull => "null"
  | JBool true => "true"
  | JBool false => "false"
  | JInt n => str_of_Z n
  | JFloat x => render_float x
  | JStr s => quote ++ s ++ quote
  | JArr items => "[" ++ join "," (map dumps items) ++ "]"
  | JObj fields =>
      "{" ++ join "," (map (fun kv => quote ++ fst kv ++ quote ++ ":" ++ dumps (snd kv)) fields)
      ++ "}"
  end.

(** A network that answers every request with [answer]. *)
Definition network (answer : Rest.http_request -> string + Rest.http_response) : Rest.Network :=
  {| Rest.urlencode := encode_query;
     Rest.json_dumps := dumps;
     Rest.iso_ts := "2020-12-08T09:08:57.715Z";
     Rest.send := answer |}.

Definition client : Rest.client :=
  {| Rest.demo := false; Rest.base_url := "https://www.okx.com";
     Rest.api_key := "key"; Rest.api_secret := "secret"; Rest.passphrase := "pass" |}.

(** The answer 200 with the JSON document [body]. *)
Definition response_json (body : json) : Rest.http_response :=
  {| Rest.status_code := 200; Rest.reason := "OK"; Rest.url := "";
     Rest.text := ""; Rest.json_body := Some body |}.

Definition answer_json (body : json) : string + Rest.http_response :=
  inr (response_json body).

(** The lookup scenario: every live-order query is answered with the
    business code 51603, the first page of the order history holds two
    other orders, and the second page, asked for after order 101, holds
    [Q1] between two other orders. *)
Definition order_row (cl_ord_id ord_id state : string) : json :=
  JObj [("clOrdId", JStr cl_ord_id); ("ordId", JStr ord_id); ("state", JStr state);
        ("accFillSz", JStr "1"); ("avgPx", JStr "50000"); ("posSide", JStr "long")].

(** The no-break space U+00A0, in UTF-8. *)
Definition nbsp : string := String (ascii_of_nat 194) (String (ascii_of_nat 160) "").

Definition scenario_answer (rq : Rest.http_request) : string + Rest.http_response :=
  let u := Rest.rq_url rq in
  if String.prefix "https://www.okx.com/api/v5/trade/order?" u
  then answer_json (JObj [("code", JStr "51603"); ("msg", JStr "Order does not exist");
                          ("data", JArr [])])
  else if String.eqb u
    "https://www.okx.com/api/v5/trade/orders-history?instType=SWAP&instId=BTC-USDT-SWAP&limit=100"
  then answer_json (JObj [("code", JStr "0"); ("msg", JStr "");
                          ("data", JArr [order_row "Q5" "103" "filled";
                                         order_row "Q0" "101" "canceled"])])
  else if String.eqb u
    "https://www.okx.com/api/v5/trade/orders-history?instType=SWAP&instId=BTC-USDT-SWAP&limit=100&after=101"
  then answer_json (JObj [("code", JStr "0"); ("msg", JStr "");
                          ("data", JArr [order_row "Q8" "100" "canceled";
                                         order_row "Q1" "99" "filled";
                                         order_row "Q3" "98" "filled"])])
  else answer_json (JObj [("code", JStr "0"); ("msg", JStr ""); ("data", JArr [])]).

(** An envelope with top-level code [code] and rows [rows]. *)
Definition envelope_of (code : string) (rows : list json) : json :=
  JObj [("code", JStr code); ("msg", JStr ""); ("data", JArr rows)].

(** The timeout scenario: an empty ledger; a long signal for the key [k1]
    at T0 = 1700000000, sized and accepted; housekeeping passes at T0+30,
    T0+61 and T0+62, the exchange reporting the order filled; the same
    signal once more at T0+63. *)
Definition empty_ledger : OrderManager.state :=
  {| OrderManager.kv := ∅; OrderManager.calls := [] |}.

Definition long_signal (idem : string) : OrderManager.signal :=
  {| OrderManager.action := "OPEN_LONG"; OrderManager.idempotency_key := idem;
     OrderManager.reason := "ema cross" |}.

Definition bar (close : float) : list (string * json) :=
  [("close", JFloat close); ("ts", JInt 1700000000000)].

Definition signal_at (now : float) : OrderManager.signal_env :=
  {| OrderManager.se_ex := exchange 0.01 1 unavailable;
     OrderManager.se_portfolio := portfolio 1000;
     OrderManager.now_reject_check := now;
     OrderManager.now_cooldown_check := now;
     OrderManager.now_gate_reject := now;
     OrderManager.now_cl_ord_id := now;
     OrderManager.now_pending := now;
     OrderManager.now_submit_reject := now;
     OrderManager.now_trade := now |}.

Definition tick_at (now : float) (order : result json) : OrderManager.housekeep_env :=
  {| OrderManager.he_ex := exchange 0.01 1 order; OrderManager.he_now := now |}.

Definition filled_order : result json :=
  Ok (envelope_of "0" [order_row "Qa2ab1959c1c3bfa295b000000" "100" "filled"]).

Definition timeout_run : list OrderManager.op :=
  [ OrderManager.Signal (signal_at 1700000000) (long_signal "k1") (bar 50000);
    OrderManager.Housekeep (tick_at 1700000030 unavailable);
    OrderManager.Housekeep (tick_at 1700000061 filled_order);
    OrderManager.Housekeep (tick_at 1700000062 filled_order);
    OrderManager.Signal (signal_at 1700000063) (long_signal "k1") (bar 50020) ].

(** The ledger after the first [n] steps of the scenario. *)
Definition ledger_after (n : nat) : OrderManager.state :=
  OrderManager.run cfg (firstn n timeout_run) empty_ledger.

End Sample.

(** ** The retry decorator ([utils/retry.py]) *)

Module Retry.

Local Open Scope float_scope.

(** What one use of a decorated function does: its result, the number of
    calls of the function, and the pauses slept between them. *)
Record outcome (A : Type) : Type := {
  returned : result A;
  calls : nat;
  sleeps : list float;
}.
Arguments returned {A} o.
Arguments calls {A} o.
Arguments sleeps {A} o.

(** The loop of [wrapper], with [left] tries left, [made] calls made and
    the current pause [delay]; [fn k] is what the call number [k] of the
    function does, [sleep] is [time.sleep], which may raise, and
    [exceptions] tells the exceptions the [except] clause catches. An
    exception that is not caught, the last exception caught and an
    exception of [time.sleep] all leave the wrapper. Leaving the loop with
    no exception caught is [raise None]. *)
Fixpoint attempts {A : Type} (sleep : float -> result unit) (exceptions : exn -> bool)
    (left made : nat) (delay backoff : float) (fn : nat -> result A) : outcome A :=
  match left with
  | O => {| returned := Raise (TypeError "exceptions must derive from BaseException");
            calls := made; sleeps := [] |}
  | S left' =>
      match fn made with
      | Ok a => {| returned := Ok a; calls := S made; sleeps := [] |}
      | Raise e =>
          if negb (exceptions e) then {| returned := Raise e; calls := S made; sleeps := [] |}
          else
            match left' with
            | O => {| returned := Raise e; calls := S made; sleeps := [] |}
            | S _ =>
                match sleep delay with
                | Raise e' => {| returned := Raise e'; calls := S made; sleeps := [] |}
                | Ok _ =>
                    let o := attempts sleep exceptions left' (S made) (delay * backoff)
                               backoff fn in
                    {| returned := returned o; calls := calls o; sleeps := delay :: sleeps o |}
                end
            end
      end
  end.

(** [retry(tries, delay, backoff, exceptions)(fn)()]. *)
Definition retry {A : Type} (sleep : float -> result unit) (exceptions : exn -> bool)
    (tries : Z) (delay backoff : float) (fn : nat -> result A) : outcome A :=
  attempts sleep exceptions (Z.to_nat tries) 0 delay backoff fn.

(** The default [exceptions=(Exception,)]: every exception of the
    embedding. *)
Definition Exception (e : exn) : bool := true.

(** The pause before the call number [k + 1]. *)
Fixpoint pause (k : nat) (delay backoff : float) : float :=
  match k with
  | O => delay
  | S k' => pause k' (delay * backoff) backoff
  end.

(** The call fails with an exception the wrapper catches. *)
Definition caught {A : Type} (exceptions : exn -> bool) (r : result A) : Prop :=
  match r with Raise e => exceptions e = true | Ok _ => False end.

End Retry.

(** ** More of the world for the examples *)

Module Scenario.

Import OrderManager.
Local Open Scope string_scope.

(** An exchange client that sizes every order at one contract and raises
    on every placement, lookup and cancellation. *)
Definition refusing_exchange : exchange :=
  {| calc_size_by_risk := fun _ => Ok 1%float;
     _must_spec := fun _ => Ok (Sample.spec 0.01);
     calc_tp_sl := fun px _ => Ok (px * 1.02, px * 0.99)%float;
     place_market_with_tp_sl :=
       fun _ => Raise (RuntimeError "OKX TRADE OP FAILED: sCode=51008");
     get_order_anywhere := fun _ _ => Sample.unavailable;
     cancel_order := fun _ _ => Sample.unavailable;
     place_tp_sl_algo := fun _ => Sample.unavailable |}.

Definition refused_at (now : float) : signal_env :=
  {| se_ex := refusing_exchange;
     se_portfolio := Sample.portfolio 1000;
     now_reject_check := now; now_cooldown_check := now; now_gate_reject := now;
     now_cl_ord_id := now; now_pending := now; now_submit_reject := now;
     now_trade := now |}.

(** The order the first signal of the timeout scenario submits. *)
Definition first_order : order_request :=
  {| or_inst_id := "BTC-USDT-SWAP"; or_td_mode := "isolated"; or_side := "buy";
     or_pos_side := "long"; or_sz := 1; or_last_px := 50000;
     or_cl_ord_id := "Qa2ab1959c1c3bfa295b000000" |}.

Definition close_signal : signal :=
  {| action := "CLOSE_LONG"; idempotency_key := "k9"; reason := "exit" |}.

(** A function that fails twice with a timeout and then returns 7. *)
Definition flaky (k : nat) : result Z :=
  if (k <? 2)%nat then Raise (RuntimeError "timeout") else Ok 7%Z.

(** A function that fails every time, with the number of the call. *)
Definition failing (k : nat) : result Z :=
  Raise (RuntimeError ("timeout " ++ str_of_Z (Z.of_nat k))).

(** CPython's [time.sleep] on a float: a NaN and a negative length are
    refused with a [ValueError], a length beyond the range of the clock (in
    nanoseconds, a signed 64-bit integer) with an [OverflowError]. *)
Definition time_sleep (secs : float) : result unit :=
  if is_nan secs then Raise (ValueError "Invalid value NaN (not a number)")
  else if ((secs * 1e9 <? -9223372036854775808)
           || (9223372036854775808 <=? secs * 1e9))%float
  then Raise (OverflowError "timestamp too large to convert to C _PyTime_t")
  else if (secs <? 0)%float then Raise (ValueError "sleep length must be non-negative")
  else Ok tt.

Definition stream_cfg : PrivateWS.config :=
  {| PrivateWS.max_login_failures := 3; PrivateWS.has_credentials := true |}.

Definition anonymous_cfg : PrivateWS.config :=
  {| PrivateWS.max_login_failures := 3; PrivateWS.has_credentials := false |}.

(** A network that accepts every request, the client's libraries with
    it, and what the client's other methods answer. *)
Definition accepting (rq : Rest.http_request) : string + Rest.http_response :=
  Sample.answer_json (Sample.envelope_of "0" [JObj [("lever", JStr "10")]]).

Definition world : RestOps.world := fun _ => Sample.network accepting.

Definition algo : RestOps.algo_env :=
  {| RestOps.self_td_mode := "isolated";
     RestOps.fmt_sz := Sample.render_float;
     RestOps.round_to_tick := fun px _ => mret px |}.

Definition placing_cfg : RestOps.placing :=
  {| RestOps.cfg_inst_id := Some "BTC-USDT-SWAP"; RestOps.cfg_td_mode := None;
     RestOps.pos_mode := "long_short_mode"; RestOps.now := 1700000000;
     RestOps._fmt_sz := Sample.render_float |}.

(** An account balance with a BTC row and two USDT rows. *)
Definition btc_row : json := JObj [("ccy", JStr "BTC"); ("availBal", JStr "1")].
Definition usdt_fields : list (string * json) :=
  [("ccy", JStr "usdt"); ("availBal", JStr "12.5")].
Definition account_info : json :=
  JObj [("totalEq", JStr "1500");
        ("details", JArr ([btc_row] ++ JObj usdt_fields
                            :: [JObj [("ccy", JStr "USDT"); ("availBal", JStr "99")]]))].
Definition balance : json := Sample.envelope_of "0" [account_info].

(** The conditional order the timeout scenario attaches. *)
Definition first_tp_sl : tpsl_request :=
  {| ts_inst_id := "BTC-USDT-SWAP"; ts_td_mode := "isolated"; ts_close_side := "sell";
     ts_sz := 1; ts_tp_trigger := 51000; ts_sl_trigger := 49500; ts_pos_side := "long";
     ts_cl_ord_id := "TPSL_Qa2ab1959c1c3bfa295b000000" |}.

(** The formats of the examples: decimal digits for [int], and [:.4f] on
    the integral floats the examples use. *)
#[global] Instance formats : Main.Formats :=
  {| Main.int_of_str := fun s =>
       match Sample.digits s 0%Z 0%nat with
       | (n, S _, EmptyString) => Some n
       | _ => None
       end;
     Main.fixed4 := fun x =>
       match int_of_float x with
       | Ok n => str_of_Z n ++ ".0000"
       | Raise _ => "nan"
       end |}.

(** Four candles: the fast average below the slow one, above it twice,
    below it again. *)
Definition candles : list Main.observation :=
  [ {| Main.candle_ts_ms := 1700000000000; Main.ema_fast := 99; Main.ema_slow := 100 |};
    {| Main.candle_ts_ms := 1700000060000; Main.ema_fast := 101; Main.ema_slow := 100 |};
    {| Main.candle_ts_ms := 1700000120000; Main.ema_fast := 102; Main.ema_slow := 100 |};
    {| Main.candle_ts_ms := 1700000180000; Main.ema_fast := 98; Main.ema_slow := 100 |} ].

(** A positions push of the account stream, and a portfolio refresh over
    the ledger the push leaves. *)
Definition positions_push : json :=
  JObj [("arg", JObj [("channel", JStr "positions")]);
        ("data", JArr [JObj [("instId", JStr "BTC-USDT-SWAP"); ("posSide", JStr "long");
                             ("pos", JStr "3"); ("upl", JStr "12"); ("uplRatio", JStr "1")]])].

Definition pushed : gmap string string :=
  Main.private_events "BTC-USDT-SWAP" [(1700000000%float, positions_push)] ∅.

Definition refresh_after_push : Portfolio.refresh_env :=
  {| Portfolio.store := pushed;
     Portfolio.get_account_equity_usd := Ok 1500%float;
     Portfolio.get_balance_usdt := Ok 1000%float;
     Portfolio.get_positions := fun _ => Sample.unavailable;
     Portfolio.json_loads := fun _ => None;
     Portfolio.now_account := 1700000001;
     Portfolio.now_positions := 1700000001 |}.

(** The same ledger, with an exchange that reports five contracts long
    over REST. *)
Definition pulled_after_push : Portfolio.refresh_env :=
  {| Portfolio.store := pushed;
     Portfolio.get_account_equity_usd := Ok 1500%float;
     Portfolio.get_balance_usdt := Ok 1000%float;
     Portfolio.get_positions :=
       fun _ => Ok (JObj [("data", JArr [JObj [("instId", JStr "BTC-USDT-SWAP");
                                               ("posSide", JStr "long");
                                               ("pos", JStr "5")]])]);
     Portfolio.json_loads := fun _ => None;
     Portfolio.now_account := 1700000001;
     Portfolio.now_positions := 1700000001 |}.

Definition flat : Portfolio.snapshot :=
  {| Portfolio.equity := 0; Portfolio.avail_usdt := 0; Portfolio.pos_long := 0;
     Portfolio.pos_short := 0; Portfolio.has_position := false;
     Portfolio.pos_side := None; Portfolio.pos_sz := 0 |}.

(** A ledger with the day's baseline at 1000. *)
Definition baseline : gmap string string :=
  <["daily_base_equity" := "1000.0"]> (<["daily_base_date" := "2026-01-05"]> ∅).

(** The answer of a net-mode account to the positions query, and a
    portfolio refresh that pulls it. *)
Definition net_row : json := JObj [("posSide", JStr "net"); ("pos", JStr "3")].

Definition net_answer : json := JObj [("data", JArr [net_row; JStr "x"])].

Definition net_account : Portfolio.refresh_env :=
  {| Portfolio.store := ∅;
     Portfolio.get_account_equity_usd := Ok 1500%float;
     Portfolio.get_balance_usdt := Ok 1000%float;
     Portfolio.get_positions := fun _ => Ok net_answer;
     Portfolio.json_loads := fun _ => None;
     Portfolio.now_account := 1700000001;
     Portfolio.now_positions := 1700000001 |}.

End Scenario.

(** * Properties *)


Example floor_ex :
  @Rest._floor_to_step Sample.rounding_runtime 27123.456 0.1 = Ok 27123.4%float
  /\ Rest._floor_to_step 10 3 = Ok 9%float
  /\ Rest._floor_to_step 1 3 = Ok 0%float
  /\ @Rest._floor_to_step Sample.rounding_runtime (-1.5) 1 = Ok (-1)%float
  /\ @Rest._floor_to_step Sample.rounding_runtime 2.5 (-1) = Ok 2.5%float
  /\ @Rest._floor_to_step Sample.rounding_runtime 123456789012345.67 0.0078125
     = Ok 123456789012345.65625%float
  /\ Rest._floor_to_step infinity 3 = Ok infinity
  /\ Rest._floor_to_step 3 infinity = Raise (Dec.signal "InvalidOperation")
  /\ Prim2SF (default 1%float (match Rest._floor_to_step (-0) 3 with Ok r => Some r | _ => None end))
     = S754_zero true
  /\ Dec.of_str "1e-05" = Ok (Dec.Fin false (inject_Z 1 * Dec.pow10 (-5)))
  /\ Dec.of_str "-12.50" = Ok (Dec.Fin true (inject_Z 1250 * Dec.pow10 (-2)))
  /\ Dec.of_str "1.2.3" = Raise (Dec.signal "ConversionSyntax")
  /\ Dec.float_of_Q (1 # 10) = 0.1%float
  /\ Dec.float_of_Q (inject_Z (2 ^ 53 + 1)) = 9007199254740992%float
  /\ Dec.float_of_Q (inject_Z (2 ^ 53 + 3)) = 9007199254740996%float
  /\ Dec.float_of_Q (Qmake 3 (10 ^ 324)) = 5e-324%float
  /\ Dec.float_of_Q (Qmake 2 (10 ^ 324)) = 0%float
  /\ Dec.float_of_Q (inject_Z (10 ^ 400)) = infinity
  /\ Qeq_bool (Dec.round_ctx (1 # 3)) (3333333333333333333333333333 # 10000000000000000000000000000) = true
  /\ Qeq_bool (Dec.round_ctx (2 # 3)) (6666666666666666666666666667 # 10000000000000000000000000000) = true
  /\ Qeq_bool (Dec.round_ctx (inject_Z (10^28 + 5))) (inject_Z (10^28)) = true
  /\ Qeq_bool (Dec.round_ctx (inject_Z (10^28 + 15))) (inject_Z (10^28 + 20)) = true
  /\ Dec.adjusted (999 # 1000) = (-1)%Z /\ Dec.adjusted 1000 = 3%Z /\ Dec.adjusted (1#1000) = (-3)%Z.
Proof. vm_compute. repeat split. Qed.

Example sha1_ex :
  Sha1.hexdigest "abc" = "a9993e364706816aba3e25717850c26c9cd0d89d"%string
  /\ Sha1.hexdigest "" = "da39a3ee5e6b4b0d3255bfef95601890afd80709"%string
  /\ Sha1.hexdigest "abcdbcdecdefdefgefghfghighijhijkijkljklmklmnlmnomnopnopq"
     = "84983e441c3bd26ebaae4aa1f95129e5e54670f1"%string
  /\ Sha1.hexdigest "The quick brown fox jumps over the lazy dog"
     = "2fd4e1c67a2d28fced849ee1bb76e7391b93eb12"%string.
Proof. vm_compute. repeat split. Qed.

Example sha256_ex :
  Sha256.hexdigest "abc" = "ba7816bf8f01cfea414140de5dae2223b00361a396177a9cb410ff61f20015ad"%string
  /\ Sha256.hexdigest "" = "e3b0c44298fc1c149afbf4c8996fb92427ae41e4649b934ca495991b7852b855"%string
  /\ Base64.b64encode (Sha256.hmac "secret" "2020-12-08T09:08:57.715ZGET/api/v5/account/balance")
     = "5ktoTKif8DCJlIPb/3Kfd1A17bIRye6jpS9QBWj+9AU="%string
  /\ Base64.b64encode (Sha256.hmac
       "kkkkkkkkkkkkkkkkkkkkkkkkkkkkkkkkkkkkkkkkkkkkkkkkkkkkkkkkkkkkkkkkkkkkkkkkkkkkkkkkkkkkkkkkkkkkkkkkkkkk"
       "msg") = "vVaheCwoMOirxu2GalehIwZh5lC4TGL37jrMxfpa9JE="%string
  /\ Base64.b64encode "a" = "YQ=="%string /\ Base64.b64encode "ab" = "YWI="%string
  /\ Base64.b64encode "abc" = "YWJj"%string.
Proof. vm_compute. repeat split. Qed.

Example sha256_constants_ex :
  length Sha256.K = 64%nat /\ nth 0 Sha256.K 0%Z = 0x428a2f98%Z
  /\ nth 63 Sha256.K 0%Z = 0xc67178f2%Z
  /\ Sha256.initial = (0x6a09e667, 0xbb67ae85, 0x3c6ef372, 0xa54ff53a,
                       0x510e527f, 0x9b05688c, 0x1f83d9ab, 0x5be0cd19)%Z.
Proof. vm_compute. repeat split. Qed.

Example json_ex : float_of_Z 3 = 3%float /\ float_of_Z (-10) = (-10)%float /\ float_of_Z (2^53+1) = 9007199254740992%float.
Proof. vm_compute. repeat split. Qed.

Example str_of_Z_ex : str_of_Z 51603 = "51603"%string /\ str_of_Z (-7) = "-7"%string
  /\ str_of_Z 0 = "0"%string /\ zfill 5 (str_of_Z 42) = "00042"%string
  /\ strip "  a b  " = "a b"%string /\ upper "get" = "GET"%string
  /\ contains "51603" "code=51603 msg" = true
  /\ int_of_float (1700000000.1234 * 1000)%float = Ok 1700000000123%Z.
Proof. vm_compute. repeat split. Qed.

Example sample_runtime_ex :
  Sample.parse_float "100" = Some 100%float /\ Sample.parse_float "0.95" = Some 0.95%float
  /\ Sample.parse_float "-12.5" = Some (-12.5)%float /\ Sample.parse_float "abc" = None
  /\ Sample.parse_float "1700000000.0" = Some 1700000000%float
  /\ Sample.render_float 1700000000 = "1700000000.0"%string
  /\ Sample.render_float 0 = "0.0"%string /\ Sample.parse_float "" = None.
Proof. vm_compute. repeat split. Qed.

(** ** Comparison of binary64 values *)

Section FloatOrder.

Local Open Scope float_scope.

Lemma SFcompare_antisym (x y : spec_float) :
  SFcompare y x = option_map CompOpp (SFcompare x y).
Proof.
  destruct x as [sx | sx | | sx mx ex], y as [sy | sy | | sy my ey];
    simpl; try reflexivity;
    try (destruct sx; reflexivity); try (destruct sy; reflexivity);
    try (destruct sx, sy; reflexivity).
  destruct sx, sy; simpl; try reflexivity.
  - rewrite (Z.compare_antisym ey ex).
    destruct (ey ?= ex)%Z; simpl; try reflexivity.
    rewrite (Pos.compare_cont_antisym mx my Eq). reflexivity.
  - rewrite (Z.compare_antisym ey ex).
    destruct (ey ?= ex)%Z; simpl; try reflexivity.
    rewrite (Pos.compare_cont_antisym mx my Eq). reflexivity.
Qed.

Lemma SFcompare_None (x y : spec_float) :
  SFcompare x y = None -> x = S754_nan \/ y = S754_nan.
Proof.
  destruct x as [sx | sx | | sx mx ex], y as [sy | sy | | sy my ey];
    simpl; intros E; try discriminate E; auto.
Qed.

Lemma is_nan_false (x : float) : is_nan x = false -> Prim2SF x <> S754_nan.
Proof.
  unfold is_nan. rewrite FloatAxioms.eqb_spec. unfold SFeqb. intros E Hx.
  rewrite Hx in E. simpl in E. discriminate E.
Qed.

(** Python's [not (a > b)] is [a <= b] unless one side is a NaN. *)
Lemma not_gt_le (a b : float) :
  is_nan a = false -> is_nan b = false -> negb (b <? a) = (a <=? b).
Proof.
  intros Ha Hb. rewrite ltb_spec, leb_spec. unfold SFltb, SFleb.
  rewrite (SFcompare_antisym (Prim2SF a) (Prim2SF b)).
  destruct (SFcompare (Prim2SF a) (Prim2SF b)) as [[ | | ] | ] eqn:E;
    simpl; try reflexivity.
  apply SFcompare_None in E.
  destruct E as [E | E];
    [apply is_nan_false in Ha | apply is_nan_false in Hb]; contradiction.
Qed.

(** Equal values are not ordered strictly. *)
Lemma eqb_not_gt (a b : float) : (a =? b) = true -> (b <? a) = false.
Proof.
  rewrite FloatAxioms.eqb_spec, ltb_spec. unfold SFeqb, SFltb.
  rewrite (SFcompare_antisym (Prim2SF a) (Prim2SF b)).
  destruct (SFcompare (Prim2SF a) (Prim2SF b)) as [[ | | ] | ];
    simpl; intros E; try discriminate E; reflexivity.
Qed.

Lemma Prim2SF_zero : Prim2SF 0 = S754_zero false.
Proof. reflexivity. Qed.

(** A positive value is truthy and is not [<= 0]. *)
Lemma positive_float (x : float) :
  (0 <? x) = true -> (x =? 0) = false /\ (x <=? 0) = false.
Proof.
  rewrite ltb_spec, FloatAxioms.eqb_spec, leb_spec.
  unfold SFltb, SFeqb, SFleb.
  rewrite (SFcompare_antisym (Prim2SF 0) (Prim2SF x)).
  destruct (SFcompare (Prim2SF 0) (Prim2SF x)) as [[ | | ] | ];
    simpl; intros E; try discriminate E; split; reflexivity.
Qed.

Lemma float_or_positive (x d : float) : (0 <? x) = true -> float_or x d = x.
Proof.
  intros Hx. unfold float_or, float_truthy.
  destruct (positive_float x Hx) as [-> _]. reflexivity.
Qed.

End FloatOrder.

(** ** The margin gate *)

Section MarginGate.

Import OrderManager.
Local Open Scope float_scope.

Variables (cfg : config) (pf : portfolio) (ex : exchange).
Variables (inst_id : string) (spec : InstrumentSpec).
Variables (last_px sz leverage : float).

Hypothesis balance_positive : (0 <? avail_usdt pf) = true.
Hypothesis spec_known : _must_spec ex inst_id = Ok spec.
Hypothesis ct_val_positive : (0 <? ct_val spec) = true.
Hypothesis leverage_set : account_leverage cfg = Some leverage.
Hypothesis leverage_positive : (0 <? leverage) = true.

Let M : float := required_margin last_px (ct_val spec) sz leverage.
Let R : float := buffered_balance cfg (avail_usdt pf).

(** The gate blocks exactly when the required margin exceeds the buffered
    balance. *)
Lemma margin_gate_blocks_above :
  _margin_gate cfg pf ex inst_id last_px sz = negb (R <? M).
Proof.
  unfold M, R, _margin_gate, required_margin, buffered_balance.
  rewrite (float_or_positive _ 0 balance_positive).
  destruct (positive_float _ balance_positive) as [_ ->].
  rewrite leverage_set. simpl entry_or.
  rewrite (float_or_positive _ 1 leverage_positive).
  destruct (positive_float _ leverage_positive) as [_ ->].
  rewrite spec_known.
  rewrite (float_or_positive _ 0 ct_val_positive).
  destruct (positive_float _ ct_val_positive) as [Hne ->].
  unfold float_truthy. rewrite Hne. simpl.
  destruct (_ <? _); reflexivity.
Qed.

(** C7 (as amended): with a positive balance [B], a known positive
    contract value, a leverage [L > 0] and the required margin
    [M = p * ct * s / L], the gate blocks exactly when [M > B * r]; when
    neither [M] nor [B * r] is a NaN it passes if and only if
    [M <= B * r], and the boundary [M = B * r] passes. *)
Theorem margin_gate_threshold :
  _margin_gate cfg pf ex inst_id last_px sz = negb (R <? M)
  /\ (is_nan M = false -> is_nan R = false ->
      _margin_gate cfg pf ex inst_id last_px sz = (M <=? R))
  /\ ((M =? R) = true -> _margin_gate cfg pf ex inst_id last_px sz = true).
Proof.
  split; [apply margin_gate_blocks_above | split].
  - intros HM HR. rewrite margin_gate_blocks_above. apply not_gt_le; assumption.
  - intros E. rewrite margin_gate_blocks_above.
    rewrite (eqb_not_gt _ _ E). reflexivity.
Qed.

End MarginGate.

(** A balance of 1000, a contract value of 0.01, a leverage of 10, a price
    of 50000 and a size of 1: the required margin 50 is under the buffered
    balance 950. *)
Lemma margin_gate_threshold_witness :
  let cfg := Sample.cfg_lev 10 in
  let pf := Sample.portfolio 1000 in
  let ex := Sample.exchange 0.01 1 Sample.unavailable in
  let M := OrderManager.required_margin 50000 0.01 1 10 in
  let R := OrderManager.buffered_balance cfg 1000 in
  (OrderManager._margin_gate cfg pf ex "BTC-USDT-SWAP" 50000 1 = negb (R <? M)%float
   /\ (is_nan M = false -> is_nan R = false ->
       OrderManager._margin_gate cfg pf ex "BTC-USDT-SWAP" 50000 1 = (M <=? R)%float)
   /\ ((M =? R)%float = true ->
       OrderManager._margin_gate cfg pf ex "BTC-USDT-SWAP" 50000 1 = true))
  /\ OrderManager._margin_gate cfg pf ex "BTC-USDT-SWAP" 50000 1 = true.
Proof.
  split; [| reflexivity].
  exact (margin_gate_threshold (Sample.cfg_lev 10) (Sample.portfolio 1000)
           (Sample.exchange 0.01 1 Sample.unavailable) "BTC-USDT-SWAP"
           (Sample.spec 0.01) 50000 1 10
           eq_refl eq_refl eq_refl eq_refl eq_refl).
Defined.

(** C7 (as stated) fails when the required margin is not a number: with a
    price of 1e308, a contract value of 10 and a size of 0 the product
    overflows and [M] is a NaN; [M <= B * r] is false and the gate
    passes. *)
Lemma margin_gate_nan_passes :
  let cfg := Sample.cfg_lev 1 in
  let pf := Sample.portfolio 100 in
  let ex := Sample.exchange 10 0 Sample.unavailable in
  let M := OrderManager.required_margin 1e308 10 0 1 in
  let R := OrderManager.buffered_balance cfg 100 in
  (0 <? OrderManager.avail_usdt pf)%float = true
  /\ (0 <? 10)%float = true /\ (0 <? 1)%float = true
  /\ (M <=? R)%float = false
  /\ OrderManager._margin_gate cfg pf ex "BTC-USDT-SWAP" 1e308 0 = true.
Proof. vm_compute. repeat split. Qed.

(** ** Client order ids *)

Section ClientOrderId.

Import OrderManager.
Local Open Scope string_scope.

Lemma all_chars_app (p : ascii -> bool) (s t : string) :
  all_chars p (s ++ t) = all_chars p s && all_chars p t.
Proof.
  induction s as [| c s IH]; simpl; [reflexivity |].
  rewrite IH. apply andb_assoc.
Qed.

Lemma length_app (s t : string) :
  String.length (s ++ t) = (String.length s + String.length t)%nat.
Proof. induction s as [| c s IH]; simpl; [reflexivity | rewrite IH; reflexivity]. Qed.

Lemma take_app (s t : string) : take (String.length s) (s ++ t) = s.
Proof.
  unfold take. induction s as [| c s IH]; simpl.
  - destruct t; reflexivity.
  - rewrite IH. reflexivity.
Qed.

Lemma digit_char_is_digit (d : Z) :
  (0 <= d < 10)%Z -> is_digit (digit_char d) = true.
Proof.
  intros Hd.
  assert (H : (d = 0 \/ d = 1 \/ d = 2 \/ d = 3 \/ d = 4 \/ d = 5 \/ d = 6
               \/ d = 7 \/ d = 8 \/ d = 9)%Z) by lia.
  repeat (destruct H as [-> | H]; [reflexivity |]). subst d. reflexivity.
Qed.

Lemma hex_char_is_hex (d : Z) :
  (0 <= d < 16)%Z -> is_hex_digit (Sha1.hex_char d) = true.
Proof.
  intros Hd.
  assert (H : (d = 0 \/ d = 1 \/ d = 2 \/ d = 3 \/ d = 4 \/ d = 5 \/ d = 6
               \/ d = 7 \/ d = 8 \/ d = 9 \/ d = 10 \/ d = 11 \/ d = 12
               \/ d = 13 \/ d = 14 \/ d = 15)%Z) by lia.
  repeat (destruct H as [-> | H]; [reflexivity |]). subst d. reflexivity.
Qed.

Lemma nibble_is_hex (x i : Z) : is_hex_digit (Sha1.nibble x i) = true.
Proof.
  unfold Sha1.nibble. apply hex_char_is_hex.
  apply Z.mod_pos_bound. lia.
Qed.

Opaque Sha1.nibble Sha1.digest digit_char str_of_Z.

Lemma hex8_is_hex (x : Z) : all_chars is_hex_digit (Sha1.hex8 x) = true.
Proof. unfold Sha1.hex8. cbn [all_chars]. rewrite !nibble_is_hex. reflexivity. Qed.

(** The digest has 40 characters, all of them hexadecimal digits. *)
Lemma hexdigest_length (msg : string) : String.length (Sha1.hexdigest msg) = 40%nat.
Proof.
  unfold Sha1.hexdigest. destruct (Sha1.digest msg) as [[[[h0 h1] h2] h3] h4].
  reflexivity.
Qed.

Lemma hexdigest_is_hex (msg : string) :
  all_chars is_hex_digit (Sha1.hexdigest msg) = true.
Proof.
  unfold Sha1.hexdigest. destruct (Sha1.digest msg) as [[[[h0 h1] h2] h3] h4].
  rewrite !all_chars_app, !hex8_is_hex. reflexivity.
Qed.

Lemma take20_hexdigest (msg : string) :
  String.length (take 20 (Sha1.hexdigest msg)) = 20%nat
  /\ all_chars is_hex_digit (take 20 (Sha1.hexdigest msg)) = true.
Proof.
  unfold Sha1.hexdigest. destruct (Sha1.digest msg) as [[[[h0 h1] h2] h3] h4].
  split; [reflexivity |].
  unfold take, Sha1.hex8. simpl.
  rewrite !nibble_is_hex. reflexivity.
Qed.

(** The decimal rendering of [n < 10^k] has at most [k] digits. *)
Lemma digits_fuel_length (fuel : nat) :
  forall (k : nat) (n : Z) (acc : string),
    (0 <= n < 10 ^ Z.of_nat (S k))%Z ->
    (String.length (digits_fuel fuel n acc) <= S k + String.length acc)%nat.
Proof.
  induction fuel as [| fuel IH]; intros k n acc Hn; simpl; [lia |].
  destruct (n <? 10)%Z eqn:E; simpl; [lia |].
  apply Z.ltb_ge in E.
  destruct k as [| k].
  - change (10 ^ Z.of_nat 1)%Z with 10%Z in Hn. lia.
  - specialize (IH k (n / 10)%Z (String (digit_char (n mod 10)) acc)).
    simpl String.length in IH.
    assert (Hq : (0 <= n / 10 < 10 ^ Z.of_nat (S k))%Z).
    { split; [apply Z.div_pos; lia |].
      apply Z.div_lt_upper_bound; [lia |].
      replace (10 * 10 ^ Z.of_nat (S k))%Z with (10 ^ Z.of_nat (S (S k)))%Z; [lia |].
      rewrite (Nat2Z.inj_succ (S k)), Z.pow_succ_r; lia. }
    specialize (IH Hq). lia.
Qed.

Lemma digits_fuel_digits (fuel : nat) :
  forall (n : Z) (acc : string),
    (0 <= n)%Z -> all_chars is_digit acc = true ->
    all_chars is_digit (digits_fuel fuel n acc) = true.
Proof.
  induction fuel as [| fuel IH]; intros n acc Hn Hacc; simpl; [exact Hacc |].
  assert (Hd : all_chars is_digit (String (digit_char (n mod 10)) acc) = true).
  { simpl. rewrite digit_char_is_digit, Hacc; [reflexivity |].
    apply Z.mod_pos_bound. lia. }
  destruct (n <? 10)%Z; [exact Hd |].
  apply IH; [apply Z.div_pos; lia | exact Hd].
Qed.

Lemma zeros_length (k : nat) : String.length (zeros k) = k.
Proof. induction k as [| k IH]; simpl; [reflexivity | rewrite IH; reflexivity]. Qed.

Lemma zeros_digits (k : nat) : all_chars is_digit (zeros k) = true.
Proof. induction k as [| k IH]; simpl; [reflexivity | exact IH]. Qed.

(** The time suffix: exactly five decimal digits, whatever the clock. *)
Lemma suffix_shape (ms : Z) :
  let suffix := zfill 5 (str_of_Z (ms mod 100000)) in
  String.length suffix = 5%nat /\ all_chars is_digit suffix = true.
Proof.
  intros suffix. subst suffix.
  pose proof (Z.mod_pos_bound ms 100000 ltac:(lia)) as Hm.
  Transparent str_of_Z.
  unfold str_of_Z. replace (ms mod 100000 <? 0)%Z with false by (symmetry; apply Z.ltb_ge; lia).
  unfold str_of_nonneg, zfill.
  set (fuel := S (Z.to_nat (Z.log2 (ms mod 100000)))).
  pose proof (digits_fuel_length fuel 4 (ms mod 100000) EmptyString ltac:(simpl; lia)) as Hlen.
  pose proof (digits_fuel_digits fuel (ms mod 100000) EmptyString ltac:(lia) eq_refl) as Hdig.
  change (String.length EmptyString) with 0%nat in Hlen.
  rewrite length_app, zeros_length, all_chars_app, zeros_digits, Hdig.
  split; [lia | reflexivity].
Qed.

Opaque str_of_Z.

(** C10: [make_cl_ord_id] returns 26 characters: the letter Q, the first
    20 hexadecimal characters of the SHA-1 digest of the key, and the five
    decimal digits of [int(time.time() * 1000) % 100000], padded with zeros
    on the left; two calls with the same key agree on their first 21
    characters. *)
Theorem make_cl_ord_id_shape (key : string) (now : float) (ms : Z) :
  int_of_float (now * 1000)%float = Ok ms ->
  make_cl_ord_id key now
  = Ok ("Q" ++ take 20 (Sha1.hexdigest key) ++ zfill 5 (str_of_Z (ms mod 100000)))
  /\ String.length (take 20 (Sha1.hexdigest key)) = 20%nat
  /\ all_chars is_hex_digit (take 20 (Sha1.hexdigest key)) = true
  /\ (0 <= ms mod 100000 < 100000)%Z
  /\ String.length (zfill 5 (str_of_Z (ms mod 100000))) = 5%nat
  /\ all_chars is_digit (zfill 5 (str_of_Z (ms mod 100000))) = true
  /\ String.length
       ("Q" ++ take 20 (Sha1.hexdigest key) ++ zfill 5 (str_of_Z (ms mod 100000))) = 26%nat
  /\ (forall now' id', make_cl_ord_id key now' = Ok id' ->
        take 21 id' = "Q" ++ take 20 (Sha1.hexdigest key)).
Proof.
  intros Hms.
  destruct (suffix_shape ms) as [Hlen Hdig].
  destruct (take20_hexdigest key) as [Hh Hhex].
  pose proof (Z.mod_pos_bound ms 100000 ltac:(lia)) as Hm.
  repeat split; try assumption; try lia.
  - unfold make_cl_ord_id. rewrite Hms. reflexivity.
  - rewrite !length_app, Hh, Hlen. reflexivity.
  - intros now' id' Hid. unfold make_cl_ord_id in Hid.
    destruct (int_of_float (now' * 1000)%float) as [ms' |]; [| discriminate Hid].
    unfold mbind, result_bind in Hid. injection Hid as <-.
    change (take 21 ("Q" ++ take 20 (Sha1.hexdigest key) ++ zfill 5 (str_of_Z (ms' mod 100000))))
      with (String "Q" (take 20 (take 20 (Sha1.hexdigest key)
                                 ++ zfill 5 (str_of_Z (ms' mod 100000))))).
    rewrite <- Hh at 1. rewrite take_app. reflexivity.
Qed.

Transparent Sha1.nibble Sha1.digest digit_char str_of_Z.

End ClientOrderId.

(** The id made for the key [ema:BTC-USDT-SWAP:1700000000000] at
    1700000000.123 seconds: the clock reads 1700000000123 milliseconds and
    the id ends in 00123. *)
Lemma make_cl_ord_id_shape_witness :
  int_of_float (1700000000.123 * 1000)%float = Ok 1700000000123%Z
  /\ OrderManager.make_cl_ord_id "ema:BTC-USDT-SWAP:1700000000000" 1700000000.123
     = Ok ("Q" ++ take 20 (Sha1.hexdigest "ema:BTC-USDT-SWAP:1700000000000")
           ++ zfill 5 (str_of_Z (1700000000123 mod 100000)))%string
  /\ zfill 5 (str_of_Z (1700000000123 mod 100000)) = "00123"%string.
Proof.
  assert (Hms : int_of_float (1700000000.123 * 1000)%float = Ok 1700000000123%Z)
    by (vm_compute; reflexivity).
  split; [exact Hms |].
  split; [| vm_compute; reflexivity].
  exact (proj1 (make_cl_ord_id_shape "ema:BTC-USDT-SWAP:1700000000000" 1700000000.123
                  1700000000123%Z Hms)).
Defined.

Example make_cl_ord_id_ex :
  OrderManager.make_cl_ord_id "abc" 1700000000.042 = Ok "Qa9993e364706816aba3e00042"%string
  /\ OrderManager.make_cl_ord_id "abc" (-0.5) = Ok "Qa9993e364706816aba3e99500"%string
  /\ OrderManager.make_cl_ord_id "abc" infinity
     = Raise (OverflowError "cannot convert float infinity to integer").
Proof. vm_compute. repeat split. Qed.

(** ** Rounding to a step *)

Section FloorToStep.

Import Rest.
Local Open Scope Q_scope.

Context `{Runtime}.

Lemma to_integral_down_nonneg (q : Q) :
  0 <= q -> Dec.to_integral_down q = inject_Z (Qfloor q).
Proof.
  intros Hq. unfold Dec.to_integral_down, Qfloor. destruct q as [n d]. simpl.
  f_equal. apply Z.quot_div_nonneg; [| reflexivity].
  unfold Qle in Hq. simpl in Hq. lia.
Qed.

Lemma Qfloor_greatest (q : Q) (m : Z) : inject_Z m <= q -> (m <= Qfloor q)%Z.
Proof.
  intros H0. apply Qfloor_resp_le in H0. rewrite Qfloor_Z in H0. exact H0.
Qed.

(** [float] gives one result for one number, however it is written. *)
Lemma to_float_compat (neg : bool) (q q' : Q) :
  q == q' -> Dec.to_float (Dec.Fin neg q) = Dec.to_float (Dec.Fin neg q').
Proof.
  intros E. unfold Dec.to_float, Dec.float_of_Q.
  assert (E0 : Qeq_bool q 0 = Qeq_bool q' 0).
  { destruct (Qeq_bool q 0) eqn:E1; destruct (Qeq_bool q' 0) eqn:E2; try reflexivity.
    - apply Qeq_bool_iff in E1. rewrite E in E1. apply Qeq_bool_iff in E1.
      rewrite E1 in E2. discriminate E2.
    - apply Qeq_bool_iff in E2. rewrite <- E in E2. apply Qeq_bool_iff in E2.
      rewrite E2 in E1. discriminate E1. }
  rewrite E0. destruct (Qeq_bool q' 0); [reflexivity |].
  destruct neg.
  - rewrite (Qred_complete (- q) (- q')) by (rewrite E; reflexivity). reflexivity.
  - rewrite (Qred_complete q q' E). reflexivity.
Qed.

Variables (x step : float) (xd sd : Q).

(** The quotient of the two decimals and the multiple of the step below
    it. *)
Let quotient : Q := xd / sd.
Let multiple : Q := inject_Z (Qfloor quotient) * sd.

(** With a step that is not positive the argument comes back. *)
Lemma floor_to_step_no_step : (step <=? 0)%float = true -> _floor_to_step x step = Ok x.
Proof. intros E. unfold _floor_to_step. rewrite E. reflexivity. Qed.

(** The decimal the method converts back with [float]. *)
Lemma floor_to_step_value :
  0 < sd -> 0 <= xd -> Dec.exact quotient -> Dec.exact multiple ->
  Dec.mul (Dec.to_integral_down (Dec.div xd sd)) sd == multiple.
Proof.
  intros Hs Hx Hq Hm. unfold Dec.exact in Hq, Hm.
  assert (Hq0 : 0 <= Dec.div xd sd).
  { unfold Dec.div. fold quotient. rewrite Hq. unfold quotient.
    apply Qle_shift_div_l; [exact Hs |]. rewrite Qmult_0_l. exact Hx. }
  rewrite (to_integral_down_nonneg _ Hq0).
  assert (Hf : Qfloor (Dec.div xd sd) = Qfloor quotient).
  { apply Qfloor_comp. exact Hq. }
  rewrite Hf. exact Hm.
Qed.

(** C8 (as amended): with [step <= 0] the argument comes back unchanged.
    With [step > 0] and [x >= 0], write [xd] and [sd] for the decimals of
    [str(x)] and [str(step)]: when the quotient [xd / sd] and the product
    of its integer part by [sd] fit the 28 significant digits of the
    decimal context, the result is [float(m)], the binary64 value nearest
    to [m], where [m] is the greatest multiple of [sd] that is at most
    [xd]. *)
Theorem floor_to_step_greatest_multiple :
  ((step <=? 0)%float = true -> _floor_to_step x step = Ok x)
  /\ ((step <=? 0)%float = false ->
      Dec.of_str (str_of_float x) = Ok (Dec.Fin false xd) ->
      Dec.of_str (str_of_float step) = Ok (Dec.Fin false sd) ->
      0 < sd -> 0 <= xd -> Dec.exact quotient -> Dec.exact multiple ->
      _floor_to_step x step
      = Ok (Dec.to_float (Dec.Fin false (inject_Z (Qfloor (xd / sd)) * sd)))
      /\ inject_Z (Qfloor (xd / sd)) * sd <= xd
      /\ forall m : Z, inject_Z m * sd <= xd ->
           inject_Z m * sd <= inject_Z (Qfloor (xd / sd)) * sd).
Proof.
  split; [apply floor_to_step_no_step |].
  intros Hstep Hxd Hsd Hs Hx Hq Hm.
  pose proof (floor_to_step_value Hs Hx Hq Hm) as Hv.
  assert (Hxq : xd == quotient * sd).
  { unfold quotient. field. intros E. rewrite E in Hs. apply (Qlt_irrefl 0 Hs). }
  fold quotient. fold multiple.
  split; [| split].
  - assert (Hnz : Qeq_bool sd 0 = false).
    { destruct (Qeq_bool sd 0) eqn:E; [| reflexivity].
      apply Qeq_bool_iff in E. rewrite E in Hs. exfalso. apply (Qlt_irrefl 0 Hs). }
    unfold _floor_to_step, mbind, result_bind. rewrite Hstep, Hxd, Hsd.
    unfold Dec.divide. rewrite Hnz.
    cbn [Dec.to_integral_value Dec.multiply xorb].
    f_equal. apply to_float_compat. exact Hv.
  - unfold multiple.
    apply Qle_trans with (quotient * sd); [| rewrite <- Hxq; apply Qle_refl].
    apply Qmult_le_compat_r; [apply Qfloor_le | apply Qlt_le_weak; exact Hs].
  - intros m Hmx. unfold multiple.
    apply Qmult_le_compat_r; [| apply Qlt_le_weak; exact Hs].
    rewrite <- Zle_Qle. apply Qfloor_greatest. unfold quotient.
    apply Qle_shift_div_l; [exact Hs | exact Hmx].
Qed.

End FloorToStep.

(** [_floor_to_step(27123.456, 0.1)] is [27123.4]. *)
Lemma floor_to_step_greatest_multiple_witness :
  (0.1 <=? 0)%float = false
  /\ Dec.of_str (@str_of_float Sample.rounding_runtime 27123.456)
     = Ok (Dec.Fin false (inject_Z 27123456 * Dec.pow10 (0 - 3)))
  /\ Dec.of_str (@str_of_float Sample.rounding_runtime 0.1)
     = Ok (Dec.Fin false (inject_Z 1 * Dec.pow10 (0 - 1)))
  /\ @Rest._floor_to_step Sample.rounding_runtime 27123.456 0.1 = Ok 27123.4%float
  /\ Qeq_bool (inject_Z (Qfloor ((inject_Z 27123456 * Dec.pow10 (0 - 3))
                                  / (inject_Z 1 * Dec.pow10 (0 - 1))))
               * (inject_Z 1 * Dec.pow10 (0 - 1))) (271234 # 10) = true.
Proof.
  pose (xd := (inject_Z 27123456 * Dec.pow10 (0 - 3))%Q).
  pose (sd := (inject_Z 1 * Dec.pow10 (0 - 1))%Q).
  assert (Hstep : (0.1 <=? 0)%float = false) by (vm_compute; reflexivity).
  assert (Hxd : Dec.of_str (@str_of_float Sample.rounding_runtime 27123.456)
                = Ok (Dec.Fin false xd)) by (vm_compute; reflexivity).
  assert (Hsd : Dec.of_str (@str_of_float Sample.rounding_runtime 0.1)
                = Ok (Dec.Fin false sd)) by (vm_compute; reflexivity).
  assert (Hs : (0 < sd)%Q) by reflexivity.
  assert (Hx : (0 <= xd)%Q) by (unfold Qle; vm_compute; discriminate).
  assert (Hq : Dec.exact (xd / sd)).
  { unfold Dec.exact. apply Qeq_bool_iff. vm_compute. reflexivity. }
  assert (Hm : Dec.exact (inject_Z (Qfloor (xd / sd)) * sd)).
  { unfold Dec.exact. apply Qeq_bool_iff. vm_compute. reflexivity. }
  destruct (proj2 (@floor_to_step_greatest_multiple Sample.rounding_runtime
                     27123.456 0.1 xd sd) Hstep Hxd Hsd Hs Hx Hq Hm) as [Hv _].
  split; [exact Hstep |]. split; [exact Hxd |]. split; [exact Hsd |].
  split; [rewrite Hv; vm_compute; reflexivity | vm_compute; reflexivity].
Defined.

(** C8 (as stated) fails below zero: [ROUND_DOWN] truncates toward zero,
    so [_floor_to_step(-1.5, 1.0)] is [-1.0], which is above [-1.5], while
    the multiple [-2.0] is below it. No rounding is involved: the decimals
    and the floats of the example are exact. *)
Lemma floor_to_step_negative :
  @Rest._floor_to_step Sample.rounding_runtime (-1.5) 1 = Ok (-1)%float
  /\ (-1.5 <? -1)%float = true
  /\ (-2 * 1 =? -2)%float = true
  /\ (-2 <=? -1.5)%float = true
  /\ (0 <? 1)%float = true.
Proof. vm_compute. repeat split. Qed.

(** ** Response classification *)

Section Classification.

Import Rest.
Local Open Scope string_scope.

Context `{Runtime} `{Network}.

Variables (c : client) (path : string) (r : http_response).
Variables (fields : list (string * json)) (row0 : list (string * json)) (rows : list json).

Hypothesis transport_ok : (status_code r < 400)%Z.
Hypothesis body_parsed : json_body r = Some (JObj fields).
Hypothesis envelope_ok : assoc "code" fields = Some (JStr "0").
Hypothesis trade_path : String.prefix "/api/v5/trade/" path = true.
Hypothesis first_row : assoc "data" fields = Some (JArr (JObj row0 :: rows)).

(** What [rows[0].get("sCode")] evaluates to: [None] when the row has no
    [sCode]. *)
Let s_code : json := default JNull (assoc "sCode" row0).

(** The error the trade check raises. *)
Let failure : exn :=
  RuntimeError ("OKX TRADE OP FAILED: sCode=" ++ str s_code ++ " sMsg="
                ++ str (jor (default JNull (assoc "sMsg" row0)) (JStr ""))
                ++ " resp=" ++ repr (JObj fields)).

Lemma check_envelope_trade_row :
  check_envelope c path (JObj fields) =
  if String.eqb (str (jor s_code (JStr "0"))) "0" then Ok (JObj fields)
  else Raise (RuntimeError ("OKX TRADE OP FAILED: sCode=" ++ str (jor s_code (JStr "0"))
                            ++ " sMsg="
                            ++ str (jor (default JNull (assoc "sMsg" row0)) (JStr ""))
                            ++ " resp=" ++ repr (JObj fields))).
Proof.
  unfold check_envelope, get, mbind, result_bind.
  rewrite envelope_ok. simpl default. simpl jor. simpl str.
  simpl (negb (String.eqb "0" "0")). cbv iota.
  rewrite trade_path, first_row. simpl default.
  change (jor (JArr (JObj row0 :: rows)) (JArr [])) with (JArr (JObj row0 :: rows)).
  cbv iota. fold s_code.
  destruct (String.eqb (str (jor s_code (JStr "0"))) "0"); reflexivity.
Qed.

Lemma check_envelope_sub_status :
  truthy s_code = true -> str s_code <> "0" ->
  check_envelope c path (JObj fields) = Raise failure.
Proof.
  intros Hset Hfailed. rewrite check_envelope_trade_row.
  assert (Hs : jor s_code (JStr "0") = s_code) by (unfold jor; rewrite Hset; reflexivity).
  rewrite Hs. destruct (String.eqb (str s_code) "0") eqn:E; [| reflexivity].
  apply String.eqb_eq in E. contradiction.
Qed.

Lemma check_envelope_no_sub_status :
  truthy s_code = false -> check_envelope c path (JObj fields) = Ok (JObj fields).
Proof.
  intros Hunset. rewrite check_envelope_trade_row.
  assert (Hs : jor s_code (JStr "0") = JStr "0") by (unfold jor; rewrite Hunset; reflexivity).
  rewrite Hs. reflexivity.
Qed.

Lemma classify_answered :
  classify c path (inr r) = check_envelope c path (JObj fields).
Proof.
  unfold classify. replace (400 <=? status_code r)%Z with false
    by (symmetry; apply Z.leb_gt; exact transport_ok).
  rewrite body_parsed. reflexivity.
Qed.

(** C1 (as amended): on a trade path, take a response with a status below
    400 and the top-level code "0" whose first row is a dict. If the row
    carries a non-empty (truthy) [sCode] that does not read "0",
    [_request] raises the error [OKX TRADE OP FAILED], whatever the request
    was. If the row's [sCode] is missing, null, empty or otherwise falsy,
    [_request] returns the response as a success. *)
Theorem trade_sub_status_raises :
  (truthy s_code = true -> str s_code <> "0" ->
   classify c path (inr r) = Raise failure
   /\ forall method params data auth rq,
        build_request c method path params data auth = Ok rq ->
        send rq = inr r ->
        _request c method path params data auth = Raise failure)
  /\ (truthy s_code = false ->
      classify c path (inr r) = Ok (JObj fields)
      /\ forall method params data auth rq,
           build_request c method path params data auth = Ok rq ->
           send rq = inr r ->
           _request c method path params data auth = Ok (JObj fields)).
Proof.
  split.
  - intros Hset Hfailed.
    assert (Hc : classify c path (inr r) = Raise failure)
      by (rewrite classify_answered; apply check_envelope_sub_status; assumption).
    split; [exact Hc |].
    intros method params data auth rq Hrq Hsend.
    unfold _request. rewrite Hrq. unfold mbind, result_bind. rewrite Hsend. exact Hc.
  - intros Hunset.
    assert (Hc : classify c path (inr r) = Ok (JObj fields))
      by (rewrite classify_answered; apply check_envelope_no_sub_status; assumption).
    split; [exact Hc |].
    intros method params data auth rq Hrq Hsend.
    unfold _request. rewrite Hrq. unfold mbind, result_bind. rewrite Hsend. exact Hc.
Qed.

End Classification.

(** A placed order refused with [sCode] 51008 (insufficient margin), and
    the row of a query answer, which carries no [sCode]. *)
Lemma trade_sub_status_raises_witness :
  let row := [("clOrdId", JStr "Q1"); ("sCode", JStr "51008"); ("sMsg", JStr "Insufficient margin")] in
  let fields := [("code", JStr "0"); ("msg", JStr ""); ("data", JArr [JObj row])] in
  let answer := Sample.answer_json (JObj fields) in
  let net := Sample.network (fun _ => answer) in
  let failure :=
    RuntimeError
      ("OKX TRADE OP FAILED: sCode=51008 sMsg=Insufficient margin resp="
       ++ repr (JObj fields))%string in
  let plain := [("code", JStr "0"); ("msg", JStr "");
                ("data", JArr [JObj [("clOrdId", JStr "Q1"); ("state", JStr "live")]])] in
  @Rest.classify Sample.runtime Sample.client "/api/v5/trade/order" answer = Raise failure
  /\ @Rest._request Sample.runtime net Sample.client "POST" "/api/v5/trade/order" []
       [("instId", JStr "BTC-USDT-SWAP")] true = Raise failure
  /\ @Rest.classify Sample.runtime Sample.client "/api/v5/trade/order"
       (Sample.answer_json (JObj plain)) = Ok (JObj plain).
Proof.
  cbv zeta.
  pose (row := [("clOrdId", JStr "Q1"); ("sCode", JStr "51008");
                ("sMsg", JStr "Insufficient margin")]).
  pose (fields := [("code", JStr "0"); ("msg", JStr ""); ("data", JArr [JObj row])]).
  pose (plain_row := [("clOrdId", JStr "Q1"); ("state", JStr "live")]).
  pose (plain := [("code", JStr "0"); ("msg", JStr ""); ("data", JArr [JObj plain_row])]).
  assert (Hlt : (Rest.status_code (Sample.response_json (JObj fields)) < 400)%Z)
    by (simpl; lia).
  assert (Hlt' : (Rest.status_code (Sample.response_json (JObj plain)) < 400)%Z)
    by (simpl; lia).
  destruct (proj1 (@trade_sub_status_raises Sample.runtime
                     (Sample.network (fun _ => Sample.answer_json (JObj fields)))
                     Sample.client "/api/v5/trade/order"
                     (Sample.response_json (JObj fields)) fields row []
                     Hlt eq_refl eq_refl eq_refl eq_refl)
              eq_refl ltac:(simpl; discriminate)) as [Hc Hr].
  split; [exact Hc |].
  split; [vm_compute; reflexivity |].
  exact (proj1 (proj2 (@trade_sub_status_raises Sample.runtime
                         (Sample.network (fun _ => Sample.answer_json (JObj plain)))
                         Sample.client "/api/v5/trade/order"
                         (Sample.response_json (JObj plain)) plain plain_row []
                         Hlt' eq_refl eq_refl eq_refl eq_refl)
                  eq_refl)).
Defined.

(** C1 (as stated) fails for a sub-status code that is falsy: the first
    row of this answer carries the [sCode] [""], which is not ["0"], and
    [_request] returns the answer as a success. *)
Lemma trade_empty_sub_status_passes :
  let resp := Sample.envelope_of "0" [JObj [("clOrdId", JStr "Q1"); ("sCode", JStr "")]] in
  let net := Sample.network (fun _ => Sample.answer_json resp) in
  String.prefix "/api/v5/trade/" "/api/v5/trade/order" = true
  /\ field resp "code" = Some (JStr "0")
  /\ String.eqb "" "0" = false
  /\ @Rest._request Sample.runtime net Sample.client "POST" "/api/v5/trade/order" []
       [("instId", JStr "BTC-USDT-SWAP")] true = Ok resp.
Proof. vm_compute. repeat split. Qed.

(** ** Base64 is injective *)

Section Base64Facts.

Import Base64.

Lemma sextet_of_char_of (s : sextet) : sextet_of (char_of s) = s.
Proof.
  destruct s as [[[[[b5 b4] b3] b2] b1] b0].
  destruct b5, b4, b3, b2, b1, b0; reflexivity.
Qed.

Lemma char_of_inj (s t : sextet) : char_of s = char_of t -> s = t.
Proof.
  intros E. rewrite <- (sextet_of_char_of s), <- (sextet_of_char_of t), E.
  reflexivity.
Qed.

Lemma char_of_not_pad (s : sextet) : char_of s <> pad_char.
Proof.
  destruct s as [[[[[b5 b4] b3] b2] b1] b0].
  destruct b5, b4, b3, b2, b1, b0; discriminate.
Qed.

Ltac sextets :=
  repeat match goal with
         | E : String _ _ = String _ _ |- _ => injection E; clear E; intros
         | E : char_of _ = pad_char |- _ => exfalso; exact (char_of_not_pad _ E)
         | E : pad_char = char_of _ |- _ => exfalso; exact (char_of_not_pad _ (eq_sym E))
         | E : char_of _ = char_of _ |- _ =>
             apply char_of_inj in E; injection E; clear E; intros; subst
         end.

Lemma b64encode_inj_bounded (n : nat) :
  forall x y : string,
    (String.length x <= n)%nat -> b64encode x = b64encode y -> x = y.
Proof.
  induction n as [| n IH]; intros x y Hn E.
  - destruct x; [| simpl in Hn; lia].
    destruct y as [| [? ? ? ? ? ? ? ?] [| [? ? ? ? ? ? ? ?] [| [? ? ? ? ? ? ? ?] ?]]];
      [reflexivity | discriminate E ..].
  - destruct x as [| [a0 a1 a2 a3 a4 a5 a6 a7]
                     [| [b0 b1 b2 b3 b4 b5 b6 b7] [| [c0 c1 c2 c3 c4 c5 c6 c7] x']]];
    destruct y as [| [d0 d1 d2 d3 d4 d5 d6 d7]
                     [| [e0 e1 e2 e3 e4 e5 e6 e7] [| [f0 f1 f2 f3 f4 f5 f6 f7] y']]];
    simpl in E; try discriminate E; try reflexivity; sextets; try reflexivity.
    f_equal. f_equal. f_equal. apply IH; [simpl in Hn; lia | assumption].
Qed.

Lemma b64encode_inj (x y : string) : b64encode x = b64encode y -> x = y.
Proof. apply (b64encode_inj_bounded (String.length x)). lia. Qed.

End Base64Facts.

(** ** Request signing *)

Section Signing.

Import Rest.
Local Open Scope string_scope.

Lemma append_inv_head (s a b : string) : s ++ a = s ++ b -> a = b.
Proof.
  induction s as [| ch s IH]; simpl; intros E; [exact E |].
  injection E as E. apply IH. exact E.
Qed.

Lemma append_length (s t : string) :
  String.length (s ++ t) = (String.length s + String.length t)%nat.
Proof. induction s as [| ch s IH]; simpl; [reflexivity | rewrite IH; reflexivity]. Qed.

Lemma append_inv_tail (t a b : string) : a ++ t = b ++ t -> a = b.
Proof.
  revert b. induction a as [| ch a IH]; intros [| ch' b] E; simpl in E.
  - reflexivity.
  - apply (f_equal String.length) in E.
    change (String.length t = S (String.length (b ++ t))) in E.
    rewrite append_length in E. lia.
  - apply (f_equal String.length) in E.
    change (S (String.length (a ++ t)) = String.length t) in E.
    rewrite append_length in E. lia.
  - injection E as -> E. f_equal. apply IH. exact E.
Qed.

Lemma upper_ascii_idem (ch : ascii) : upper_ascii (upper_ascii ch) = upper_ascii ch.
Proof. destruct ch as [[] [] [] [] [] [] [] []]; reflexivity. Qed.

Lemma upper_idem (s : string) : upper (upper s) = upper s.
Proof.
  unfold upper. induction s as [| ch s IH]; simpl; [reflexivity |].
  rewrite upper_ascii_idem, IH. reflexivity.
Qed.

(** The signed path tells two query strings apart. *)
Lemma request_path_inj (path q1 q2 : string) :
  request_path_of path q1 = request_path_of path q2 -> q1 = q2.
Proof.
  unfold request_path_of. intros E. apply append_inv_head in E.
  destruct q1 as [| c1 q1], q2 as [| c2 q2]; simpl in E;
    try reflexivity; try discriminate E.
  injection E as -> ->. reflexivity.
Qed.

Lemma prehash_inj_path (ts method body p1 p2 : string) :
  prehash ts method p1 body = prehash ts method p2 body -> p1 = p2.
Proof.
  unfold prehash. intros E.
  apply append_inv_head in E. apply append_inv_head in E.
  apply append_inv_tail in E. exact E.
Qed.

Context `{Network}.

Variables (c : client) (method path : string).

(** The header of an authenticated request carries the signature of the
    timestamp, the upper-case method, the path with its query string, and
    the body. *)
Lemma signed_header (params : list (string * option string))
    (data : list (string * json)) (rq : http_request) :
  build_request c method path params data true = Ok rq ->
  header "OK-ACCESS-SIGN" (rq_headers rq)
  = Some (Base64.b64encode
            (Sha256.hmac (api_secret c)
               (prehash iso_ts method
                  (request_path_of path (urlencode (present_params params)))
                  (body_of (upper method) data)))).
Proof.
  unfold build_request.
  destruct (str_truthy (api_key c) && str_truthy (api_secret c)
            && str_truthy (passphrase c)); simpl; intros E; [| discriminate E].
  injection E as <-. simpl. unfold _sign, prehash. rewrite upper_idem. reflexivity.
Qed.

(** C3: the signature of an authenticated request is the Base64 text of
    the HMAC-SHA256 of timestamp + upper-case method + path with query
    string + body; two requests that differ in their query string only
    sign different prehash strings, and their signatures differ unless
    HMAC-SHA256 maps the two prehash strings to one digest. *)
Theorem signature_covers_query (params1 params2 : list (string * option string))
    (data : list (string * json)) (rq1 rq2 : http_request) :
  let q1 := urlencode (present_params params1) in
  let q2 := urlencode (present_params params2) in
  let body := body_of (upper method) data in
  let p1 := prehash iso_ts method (request_path_of path q1) body in
  let p2 := prehash iso_ts method (request_path_of path q2) body in
  q1 <> q2 ->
  build_request c method path params1 data true = Ok rq1 ->
  build_request c method path params2 data true = Ok rq2 ->
  header "OK-ACCESS-SIGN" (rq_headers rq1)
    = Some (Base64.b64encode (Sha256.hmac (api_secret c) p1))
  /\ header "OK-ACCESS-SIGN" (rq_headers rq2)
     = Some (Base64.b64encode (Sha256.hmac (api_secret c) p2))
  /\ p1 = iso_ts ++ upper method
          ++ (path ++ (if str_truthy q1 then "?" ++ q1 else "")) ++ body
  /\ p1 <> p2
  /\ (Sha256.hmac (api_secret c) p1 <> Sha256.hmac (api_secret c) p2 ->
      header "OK-ACCESS-SIGN" (rq_headers rq1)
      <> header "OK-ACCESS-SIGN" (rq_headers rq2)).
Proof.
  intros q1 q2 body p1 p2 Hq H1 H2.
  pose proof (signed_header params1 data rq1 H1) as S1.
  pose proof (signed_header params2 data rq2 H2) as S2.
  fold q1 body p1 in S1. fold q2 body p2 in S2.
  split; [exact S1 | split; [exact S2 | split; [reflexivity | split]]].
  - intros E. apply Hq.
    apply (request_path_inj path). apply (prehash_inj_path _ _ _ _ _ E).
  - intros Hd E. rewrite S1, S2 in E. injection E as E.
    apply Hd. apply b64encode_inj. exact E.
Qed.

End Signing.

(** Two order queries that differ in the client order id of their query
    string; the signatures are the ones CPython computes. *)
Lemma signature_covers_query_witness :
  let net := Sample.network (fun _ => inl "offline"%string) in
  let c := Sample.client in
  let params1 := [("instId", Some "BTC-USDT-SWAP"); ("clOrdId", Some "Q1")]%string in
  let params2 := [("instId", Some "BTC-USDT-SWAP"); ("clOrdId", Some "Q2")]%string in
  let p1 := "2020-12-08T09:08:57.715ZGET/api/v5/trade/order?instId=BTC-USDT-SWAP&clOrdId=Q1"%string in
  let p2 := "2020-12-08T09:08:57.715ZGET/api/v5/trade/order?instId=BTC-USDT-SWAP&clOrdId=Q2"%string in
  exists rq1 rq2,
    @Rest.build_request net c "get" "/api/v5/trade/order" params1 [] true = Ok rq1
    /\ @Rest.build_request net c "get" "/api/v5/trade/order" params2 [] true = Ok rq2
    /\ Rest.header "OK-ACCESS-SIGN" (Rest.rq_headers rq1)
       = Some "Qvh9upSuL7YQhHE006ak9L4k4jkYbJqE6EtYBTbky+0="%string
    /\ Rest.header "OK-ACCESS-SIGN" (Rest.rq_headers rq2)
       = Some "0tyVszn7jCaTDCLLhEuEv2UYgaSXyhiLL9C0h52bxQE="%string
    /\ (Rest.header "OK-ACCESS-SIGN" (Rest.rq_headers rq1)
        = Some (Base64.b64encode (Sha256.hmac (Rest.api_secret c) p1))
        /\ Rest.header "OK-ACCESS-SIGN" (Rest.rq_headers rq2)
           = Some (Base64.b64encode (Sha256.hmac (Rest.api_secret c) p2))
        /\ p1 = ("2020-12-08T09:08:57.715Z" ++ "GET"
                 ++ ("/api/v5/trade/order" ++ "?" ++ "instId=BTC-USDT-SWAP&clOrdId=Q1") ++ "")%string
        /\ p1 <> p2
        /\ (Sha256.hmac (Rest.api_secret c) p1 <> Sha256.hmac (Rest.api_secret c) p2 ->
            Rest.header "OK-ACCESS-SIGN" (Rest.rq_headers rq1)
            <> Rest.header "OK-ACCESS-SIGN" (Rest.rq_headers rq2))).
Proof.
  intros net c params1 params2 p1 p2.
  destruct (@Rest.build_request net c "get" "/api/v5/trade/order" params1 [] true)
    as [rq1 |] eqn:E1; [| vm_compute in E1; discriminate E1].
  destruct (@Rest.build_request net c "get" "/api/v5/trade/order" params2 [] true)
    as [rq2 |] eqn:E2; [| vm_compute in E2; discriminate E2].
  exists rq1, rq2.
  split; [reflexivity | split; [reflexivity |]].
  assert (Hq : @Rest.urlencode net (Rest.present_params params1)
               <> @Rest.urlencode net (Rest.present_params params2))
    by (vm_compute; discriminate).
  pose proof (@signature_covers_query net c "get" "/api/v5/trade/order"
                params1 params2 [] rq1 rq2 Hq E1 E2) as W.
  vm_compute in E1, E2. injection E1 as <-. injection E2 as <-.
  split; [vm_compute; reflexivity | split; [vm_compute; reflexivity |]].
  exact W.
Defined.

Example lookup_scenario_ex :
  @Rest.get_order_anywhere Sample.runtime (Sample.network Sample.scenario_answer)
    Sample.client " BTC-USDT-SWAP" ("Q1 " ++ Sample.nbsp)
  = Ok (JObj [("code", JStr "0"); ("data", JArr [Sample.order_row "Q1" "99" "filled"])])
  /\ @Rest.pages_searched Sample.runtime (Sample.network Sample.scenario_answer)
       Sample.client Rest.history_path "BTC-USDT-SWAP" "Q1" 10 100
     = [JArr [Sample.order_row "Q5" "103" "filled"; Sample.order_row "Q0" "101" "canceled"];
        JArr [Sample.order_row "Q8" "100" "canceled"; Sample.order_row "Q1" "99" "filled";
              Sample.order_row "Q3" "98" "filled"]]
  /\ @Rest.get_order_anywhere Sample.runtime (Sample.network Sample.scenario_answer)
       Sample.client "BTC-USDT-SWAP" "Q7"
     = Raise (Rest.not_found "Q7").
Proof. vm_compute. repeat split. Qed.

(** ** The exhaustive order lookup *)

Section Lookup.

Import Rest.
Local Open Scope string_scope.

Context `{Runtime} `{Network}.

Lemma prefix_append (s t : string) : String.prefix s (s ++ t) = true.
Proof.
  induction s as [| ch s IH]; simpl; [destruct t; reflexivity |].
  destruct (ascii_dec ch ch) as [_ | N]; [exact IH | contradiction].
Qed.

Lemma contains_prefix (needle hay : string) :
  String.prefix needle hay = true -> contains needle hay = true.
Proof. intros E. destruct hay; simpl in *; rewrite E; reflexivity. Qed.

Lemma contains_append (pre needle rest : string) :
  contains needle (pre ++ needle ++ rest) = true.
Proof.
  induction pre as [| ch pre IH].
  - change ("" ++ needle ++ rest) with (needle ++ rest).
    apply contains_prefix. apply prefix_append.
  - change (contains needle (String ch (pre ++ needle ++ rest)) = true).
    simpl. rewrite IH. apply orb_true_r.
Qed.

(** An answer with the business code 51603 makes the request raise an
    error whose text holds the code. *)
Lemma classify_business_code (c : client) (path : string) (r : http_response)
    (fields : list (string * json)) :
  (status_code r < 400)%Z ->
  json_body r = Some (JObj fields) ->
  assoc "code" fields = Some (JStr "51603") ->
  exists e, classify c path (inr r) = Raise e /\ contains "51603" (str_exn e) = true.
Proof.
  intros Hs Hb Hc. unfold classify.
  replace (400 <=? status_code r)%Z with false by (symmetry; apply Z.leb_gt; exact Hs).
  rewrite Hb. unfold check_envelope, get, mbind, result_bind. rewrite Hc.
  simpl default. simpl jor. simpl str.
  change (negb (String.eqb "51603" "0")) with true.
  change (String.eqb "51603" "50119") with false. cbv iota.
  eexists. split; [reflexivity |].
  apply (contains_append "OKX API error: code=" "51603").
Qed.

(** No error of the request layer is the not-found error of the lookup. *)
Lemma check_envelope_not_not_found (c : client) (path : string) (resp : json) (e : exn) :
  check_envelope c path resp = Raise e -> is_not_found e = false.
Proof.
  unfold check_envelope, get, mbind, result_bind, no_attribute.
  destruct resp; try (intros E; injection E as <-; reflexivity).
  destruct (negb _).
  - destruct (String.eqb _ "50119"); intros E; injection E as <-; reflexivity.
  - destruct (String.prefix _ path); [| discriminate].
    destruct (jor _ _) as [| | | | | [| row0 rows] |]; try discriminate.
    destruct row0; try (intros E; injection E as <-; reflexivity).
    destruct (negb _); [| discriminate].
    intros E; injection E as <-; reflexivity.
Qed.

Lemma request_not_not_found (c : client) (method path : string)
    (params : list (string * option string)) (data : list (string * json))
    (auth : bool) (e : exn) :
  _request c method path params data auth = Raise e -> is_not_found e = false.
Proof.
  unfold _request, build_request, mbind, result_bind.
  destruct auth; [destruct (_ && _) |]; simpl;
    try (intros E; injection E as <-; reflexivity);
    unfold classify;
    (destruct (send _) as [err | r]; [intros E; injection E as <-; reflexivity |]);
    (destruct (400 <=? status_code r)%Z; [intros E; injection E as <-; reflexivity |]);
    (destruct (json_body r); [apply check_envelope_not_not_found
                             | intros E; injection E as <-; reflexivity]).
Qed.

Lemma fetch_page_not_not_found (c : client) (path inst_id : string) (limit : Z)
    (after : json) (e : exn) :
  fetch_page c path inst_id limit after = Raise e -> is_not_found e = false.
Proof.
  unfold fetch_page, mbind, result_bind.
  destruct (_request _ _ _ _ _ _) as [resp | e'] eqn:E.
  - unfold get, no_attribute. destruct resp; try discriminate;
      intros E'; injection E' as <-; reflexivity.
  - intros E'. injection E' as <-. exact (request_not_not_found _ _ _ _ _ _ _ E).
Qed.

Lemma find_order_not_not_found (cl : string) (items : list json) (e : exn) :
  find_order cl items = Raise e -> is_not_found e = false.
Proof.
  induction items as [| od items IH]; simpl; [discriminate |].
  unfold client_order_id, get, mbind, result_bind, no_attribute.
  destruct od; try (intros E; injection E as <-; reflexivity).
  destruct (String.eqb _ cl); [discriminate | exact IH].
Qed.

Lemma scan_page_not_not_found (cl : string) (rows : json) (e : exn) :
  scan_page cl rows = Raise e -> is_not_found e = false.
Proof.
  unfold scan_page, mbind, result_bind.
  destruct (iter_rows rows) as [items | e'] eqn:Ei.
  - destruct (find_order cl items) as [[od |] | e''] eqn:Ef.
    + discriminate.
    + destruct (negb (truthy rows)); [discriminate |].
      unfold last_item. destruct rows; try (intros E; injection E as <-; reflexivity).
      destruct (last items0) as [x |]; [| intros E; injection E as <-; reflexivity].
      unfold get, no_attribute.
      destruct x; try (intros E; injection E as <-; reflexivity); discriminate.
    + intros E. injection E as <-. exact (find_order_not_not_found _ _ _ Ef).
  - intros E. injection E as <-.
    destruct rows; simpl in Ei; try discriminate Ei; injection Ei as <-; reflexivity.
Qed.

(** The first match of a page is one of its rows and carries the
    requested id. *)
Lemma find_order_found (cl : string) (items : list json) (od : json) :
  find_order cl items = Ok (Some od) ->
  In od items /\ client_order_id od = Ok cl.
Proof.
  induction items as [| x items IH]; simpl; [discriminate |].
  unfold mbind, result_bind. destruct (client_order_id x) as [id |] eqn:Ex; [| discriminate].
  destruct (String.eqb id cl) eqn:E.
  - intros E'. injection E' as <-. apply String.eqb_eq in E. subst id. auto.
  - intros E'. destruct (IH E') as [Hin Hid]. auto.
Qed.

(** On a page of orders, the first row that carries the requested id is
    the match, wherever it stands. *)
Lemma find_order_first (cl : string) (before after : list json)
    (fields : list (string * json)) :
  str_truthy cl = true ->
  Forall (other_order cl) before ->
  assoc "clOrdId" fields = Some (JStr cl) ->
  find_order cl (before ++ JObj fields :: after) = Ok (Some (JObj fields)).
Proof.
  intros Hcl Hbefore Hid.
  induction Hbefore as [| x before (f & -> & Hx) _ IH].
  - change (find_order cl ([] ++ JObj fields :: after))
      with (if String.eqb (str (jor (default JNull (assoc "clOrdId" fields)) (JStr ""))) cl
            then Ok (Some (JObj fields)) else find_order cl after).
    assert (Hj : jor (default JNull (Some (JStr cl))) (JStr "") = JStr cl)
      by (unfold jor; cbn; rewrite Hcl; reflexivity).
    rewrite Hid, Hj. cbn [str]. rewrite String.eqb_refl. reflexivity.
  - change (find_order cl ((JObj f :: before) ++ JObj fields :: after))
      with (if String.eqb (str (jor (default JNull (assoc "clOrdId" f)) (JStr ""))) cl
            then Ok (Some (JObj f)) else find_order cl (before ++ JObj fields :: after)).
    apply String.eqb_neq in Hx. rewrite Hx. exact IH.
Qed.

Lemma scan_page_first (cl : string) (before after : list json)
    (fields : list (string * json)) :
  str_truthy cl = true ->
  Forall (other_order cl) before ->
  assoc "clOrdId" fields = Some (JStr cl) ->
  scan_page cl (JArr (before ++ JObj fields :: after)) = Ok (Found (JObj fields)).
Proof.
  intros Hcl Hbefore Hid. unfold scan_page. cbn [iter_rows].
  change (mbind ?f (Ok ?a)) with (f a). cbv beta.
  rewrite (find_order_first cl before after fields Hcl Hbefore Hid). reflexivity.
Qed.

(** A page scanned without a match holds no order with the requested
    id. *)
Lemma find_order_none (cl : string) (items : list json) :
  find_order cl items = Ok None ->
  forall fields, In (JObj fields) items ->
    str (jor (default JNull (assoc "clOrdId" fields)) (JStr "")) <> cl.
Proof.
  induction items as [| x items IH]; intros E fields Hin; [destruct Hin |].
  cbn [find_order] in E. unfold mbind, result_bind in E.
  destruct (client_order_id x) as [id |] eqn:Ex; [| discriminate E].
  destruct (String.eqb id cl) eqn:Eid; [discriminate E |].
  destruct Hin as [-> | Hin]; [| exact (IH E fields Hin)].
  cbn in Ex. injection Ex as <-. apply String.eqb_neq. exact Eid.
Qed.

Lemma scan_page_no_match (cl : string) (rows : json) :
  (scan_page cl rows = Ok Exhausted \/ exists after, scan_page cl rows = Ok (Next after)) ->
  forall items fields, rows = JArr items -> In (JObj fields) items ->
    str (jor (default JNull (assoc "clOrdId" fields)) (JStr "")) <> cl.
Proof.
  intros Hs items fields -> Hin. apply (find_order_none cl items); [| exact Hin].
  unfold scan_page in Hs. cbn [iter_rows] in Hs.
  change (mbind ?f (Ok items)) with (f items) in Hs. cbv beta in Hs.
  destruct (find_order cl items) as [[od |] | e]; [| reflexivity |].
  - destruct Hs as [Hs | [a Hs]]; discriminate Hs.
  - destruct Hs as [Hs | [a Hs]]; discriminate Hs.
Qed.

Variables (c : client) (path inst_id cl : string) (limit : Z).

(** The paging loop: at most [n] pages; a page with a match ends the
    search with the envelope of its first match; a search that ends
    without a result has met no match. *)
Lemma search_pages_spec (n : nat) :
  forall after : json,
    let r := search_pages c path inst_id cl limit n after in
    (length (snd r) <= n)%nat
    /\ (forall rows od, In rows (snd r) -> scan_page cl rows = Ok (Found od) ->
          fst r = Ok (Some (envelope od)))
    /\ (forall found, fst r = Ok (Some found) ->
          exists rows od, In rows (snd r) /\ scan_page cl rows = Ok (Found od)
                          /\ found = envelope od)
    /\ (forall e, fst r = Raise e -> is_not_found e = false).
Proof.
  induction n as [| n IH]; intros after; simpl.
  - repeat split; try (intros; try contradiction; discriminate). lia.
  - destruct (fetch_page c path inst_id limit after) as [rows | e] eqn:Ef; simpl.
    + destruct (scan_page cl rows) as [[od | | after'] | e] eqn:Es; simpl.
      * repeat split; [lia | | |].
        -- intros rows' od' [<- | []] E. rewrite Es in E. injection E as <-. reflexivity.
        -- intros found E. injection E as <-. exists rows, od. auto.
        -- discriminate.
      * repeat split; [lia | | |]; try discriminate.
        intros rows' od' [<- | []] E. rewrite Es in E. discriminate E.
      * destruct (IH after') as [Hlen [Hfound [Hsome Herr]]].
        repeat split; [lia | | |].
        -- intros rows' od' [<- | Hin] E; [rewrite Es in E; discriminate E |].
           exact (Hfound _ _ Hin E).
        -- intros found E. destruct (Hsome _ E) as [rows' [od' [Hin [Hs ->]]]].
           exists rows', od'. auto.
        -- exact Herr.
      * repeat split; [lia | | |]; try discriminate.
        -- intros rows' od' [<- | []] E. rewrite Es in E. discriminate E.
        -- intros e' E. injection E as <-. exact (scan_page_not_not_found _ _ _ Es).
    + repeat split; [lia | | |]; try discriminate.
      * intros rows' od' [].
      * intros e' E. injection E as <-. exact (fetch_page_not_not_found _ _ _ _ _ _ Ef).
Qed.

(** A search that ends without a result has met no match on the pages it
    fetched. *)
Lemma search_pages_none (n : nat) :
  forall after : json,
    fst (search_pages c path inst_id cl limit n after) = Ok None ->
    forall items fields,
      In (JArr items) (snd (search_pages c path inst_id cl limit n after)) ->
      In (JObj fields) items ->
      str (jor (default JNull (assoc "clOrdId" fields)) (JStr "")) <> cl.
Proof.
  induction n as [| n IH]; intros after; cbn [search_pages].
  - intros _ items fields [].
  - destruct (fetch_page c path inst_id limit after) as [rows | e] eqn:Ef; cbn [fst snd].
    + destruct (scan_page cl rows) as [[od | | after'] | e] eqn:Es; cbn [fst snd].
      * discriminate.
      * intros _ items fields [Hp | []] Hin.
        exact (scan_page_no_match cl _ (or_introl Es) items fields Hp Hin).
      * intros E items fields [Hp | Hp] Hin.
        -- exact (scan_page_no_match cl _ (or_intror (ex_intro _ after' Es))
                    items fields Hp Hin).
        -- exact (IH after' E items fields Hp Hin).
      * discriminate.
    + discriminate.
Qed.

End Lookup.

Section ExhaustiveLookup.

Import Rest.
Local Open Scope string_scope.

Context `{Runtime} `{Network}.

Variables (c : client) (inst_id cl_ord_id : string).
Variables (rq : http_request) (r : http_response) (fields : list (string * json)).

Let inst : string := strip inst_id.
Let cl : string := strip cl_ord_id.
Let history := search_pages c history_path inst cl 100 10 JNull.
Let archive := search_pages c archive_path inst cl 100 10 JNull.

Hypothesis inst_given : str_truthy inst = true.
Hypothesis cl_given : str_truthy cl = true.

(** The live-order query is answered with the business code 51603. *)
Hypothesis direct_query :
  build_request c "GET" "/api/v5/trade/order"
    [("instId", Some (strip inst)); ("clOrdId", Some (strip cl))] [] true = Ok rq.
Hypothesis direct_answer : send rq = inr r.
Hypothesis direct_status : (status_code r < 400)%Z.
Hypothesis direct_body : json_body r = Some (JObj fields).
Hypothesis direct_code : assoc "code" fields = Some (JStr "51603").

Lemma lookup_falls_back :
  get_order_anywhere c inst_id cl_ord_id
  = match fst history with
    | Raise e => Raise e
    | Ok (Some found) => Ok found
    | Ok None =>
        match fst archive with
        | Raise e => Raise e
        | Ok (Some found) => Ok found
        | Ok None => Raise (not_found cl)
        end
    end.
Proof.
  unfold get_order_anywhere. fold inst cl. rewrite inst_given, cl_given. simpl negb.
  cbv iota.
  destruct (classify_business_code c "/api/v5/trade/order" r fields
              direct_status direct_body direct_code) as [e [He Hc]].
  unfold get_order_by_clordid, _request. rewrite direct_query.
  unfold mbind at 1, result_bind at 1. rewrite direct_answer, He, Hc. simpl negb. cbv iota.
  unfold _search_history_paged. fold history archive.
  unfold mbind, result_bind.
  destruct (fst history) as [[found |] | e1]; reflexivity.
Qed.


End ExhaustiveLookup.


(** ** Sources of the portfolio snapshot *)

Section SnapshotSources.

Import Portfolio.
Local Open Scope string_scope.

Context `{Runtime}.

Variables (inst_id_cfg : option string) (env : refresh_env) (s : snapshot).

Let fresh_account : bool := _ws_fresh env (now_account env) 5.
Let fresh_positions : bool := _ws_fresh env (now_positions env) 5.
Let o : origins := snd (refresh inst_id_cfg env s).

Lemma stale_account_sources :
  fresh_account = false -> of_equity o <> Stream /\ of_avail o <> Stream.
Proof.
  unfold o, refresh, fresh_account. simpl. unfold _refresh_account. intros ->.
  unfold pulled, mbind, result_bind.
  destruct (get_account_equity_usd env); simpl; [| split; discriminate].
  destruct (get_balance_usdt env); simpl; split; discriminate.
Qed.

Lemma stale_positions_source : fresh_positions = false -> of_long o <> Stream.
Proof.
  unfold o, refresh, fresh_positions. simpl. unfold _refresh_pos. intros ->.
  destruct (negb _); simpl; [discriminate |].
  destruct (get_positions env _); simpl; discriminate.
Qed.

(** The freshness test fails on a ledger without the entry it reads. *)
Lemma never_stamped_stale (e : refresh_env) (now max_age : float) :
  store e !! "ws_private:last_uptime" = None -> _ws_fresh e now max_age = false.
Proof. intros E. unfold _ws_fresh, get_kv_float. rewrite E. reflexivity. Qed.

(** A refresh with a stale snapshot reads nothing else in the ledger. *)
Lemma stale_refresh_ledger (ledger : gmap string string) :
  fresh_account = false -> fresh_positions = false ->
  _ws_fresh (with_store ledger env) (now_account env) 5 = false ->
  _ws_fresh (with_store ledger env) (now_positions env) 5 = false ->
  refresh inst_id_cfg (with_store ledger env) s = refresh inst_id_cfg env s.
Proof.
  unfold fresh_account, fresh_positions. intros Ha Hp Ha' Hp'.
  unfold refresh, _refresh_account, _refresh_pos.
  cbn [now_account now_positions with_store get_account_equity_usd get_balance_usdt
       get_positions json_loads].
  rewrite Ha, Hp, Ha', Hp'. reflexivity.
Qed.


End SnapshotSources.


(** ** The login breaker of the account stream *)

Section LoginBreaker.

Import PrivateWS.
Local Open Scope string_scope.

Context `{Runtime}.

Variable cfg : config.

Lemma trip_or_close_failures (st : state) :
  login_failures (trip_or_close cfg st) = login_failures st.
Proof. unfold trip_or_close. destruct (_ <=? _)%Z; reflexivity. Qed.

Lemma trip_or_close_disabled (st : state) :
  disabled (trip_or_close cfg st)
  = disabled st || (max_login_failures cfg <=? Z.of_nat (login_failures st))%Z.
Proof.
  unfold trip_or_close. destruct (_ <=? _)%Z; simpl;
    [rewrite orb_true_r | rewrite orb_false_r]; reflexivity.
Qed.

Lemma subscribe_keeps (st : state) :
  login_failures (_subscribe_after_login st) = login_failures st
  /\ disabled (_subscribe_after_login st) = disabled st.
Proof. unfold _subscribe_after_login. destruct (subscribed st); split; reflexivity. Qed.

(** The handler never clears [disabled]. *)
Lemma handle_message_disabled (m : option json) (st : state) :
  disabled st = true -> disabled (_handle_message cfg m st) = true.
Proof.
  intros Hd. unfold _handle_message.
  destruct m as [msg |]; [| exact Hd].
  destruct (get msg "event") as [ev_v | e]; [| exact Hd].
  destruct (String.eqb _ "login").
  - destruct (String.eqb _ "0").
    + unfold login_ok. destruct (subscribe_keeps
        {| login_failures := 0; disabled := disabled st;
           last_error := last_error st; connected := connected st; authed := true;
           subscribed := subscribed st; stopped := stopped st; ws_open := ws_open st;
           running := running st; attempts := attempts st; sent := sent st |}) as [_ ->].
      exact Hd.
    + rewrite trip_or_close_disabled. simpl. rewrite Hd. reflexivity.
  - destruct (String.eqb _ "error"); [| exact Hd].
    rewrite trip_or_close_disabled.
    destruct (credential_code _ || contains _ _); simpl; rewrite Hd; reflexivity.
Qed.

(** A failure that brings the counter to the threshold disables the
    stream. *)
Lemma handle_message_trips (m : option json) (st : state) :
  login_failures (_handle_message cfg m st) = S (login_failures st) ->
  (max_login_failures cfg <= Z.of_nat (S (login_failures st)))%Z ->
  disabled (_handle_message cfg m st) = true.
Proof.
  unfold _handle_message.
  destruct m as [msg |]; [| intros E; lia].
  destruct (get msg "event") as [ev_v | e]; [| simpl; intros E; lia].
  destruct (String.eqb _ "login").
  - destruct (String.eqb _ "0").
    + unfold login_ok. intros E. rewrite (proj1 (subscribe_keeps _)) in E. discriminate E.
    + intros _ Hmax. rewrite trip_or_close_disabled. simpl.
      apply orb_true_iff. right. apply Z.leb_le. exact Hmax.
  - destruct (String.eqb _ "error"); [| intros E; lia].
    rewrite trip_or_close_failures, trip_or_close_disabled.
    destruct (credential_code _ || contains _ _); simpl.
    + intros _ Hmax. apply orb_true_iff. right. apply Z.leb_le. exact Hmax.
    + intros E. lia.
Qed.

(** Only a successful login lowers the counter. *)
Lemma handle_message_counter (m : option json) (st : state) :
  is_login_ok m = false ->
  (login_failures st <= login_failures (_handle_message cfg m st))%nat.
Proof.
  unfold _handle_message, is_login_ok.
  destruct m as [msg |]; [| intros _; lia].
  destruct (get msg "event") as [ev_v | e]; [| intros _; simpl; lia].
  destruct (String.eqb _ "login").
  - destruct (String.eqb _ "0"); [discriminate |].
    intros _. rewrite trip_or_close_failures. simpl. lia.
  - intros _. destruct (String.eqb _ "error"); [| lia].
    rewrite trip_or_close_failures.
    destruct (credential_code _ || contains _ _); simpl; lia.
Qed.

Lemma deliver_disabled (msgs : list (option json)) :
  forall st, disabled st = true -> disabled (deliver cfg msgs st) = true.
Proof.
  induction msgs as [| m msgs IH]; intros st Hd; simpl; [exact Hd |].
  destruct (ws_open st); [| exact Hd].
  apply IH. apply handle_message_disabled. exact Hd.
Qed.

Lemma deliver_counter (msgs : list (option json)) :
  forallb (fun m => negb (is_login_ok m)) msgs = true ->
  forall st, (login_failures st <= login_failures (deliver cfg msgs st))%nat.
Proof.
  induction msgs as [| m msgs IH]; simpl; intros Hm st; [lia |].
  apply andb_true_iff in Hm. destruct Hm as [Hm Hrest].
  apply negb_true_iff in Hm.
  destruct (ws_open st); [| lia].
  pose proof (handle_message_counter m st Hm).
  pose proof (IH Hrest (_handle_message cfg m st)). lia.
Qed.

Lemma connect_once_disabled (s : session) (st : state) :
  disabled st = true -> disabled (_connect_once cfg s st) = true.
Proof.
  intros Hd. unfold _connect_once.
  assert (H1 : disabled (if opens s
                         then deliver cfg (messages s) (_on_open cfg (reset_connection st))
                         else with_error (open_error s) (reset_connection st)) = true).
  { destruct (opens s); [| exact Hd].
    apply deliver_disabled. unfold _on_open, _login.
    destruct (negb (has_credentials cfg)); [reflexivity | exact Hd]. }
  destruct (stop_called s); simpl; exact H1.
Qed.

(** A reconnection keeps the counter unless a login succeeds. *)
Lemma connect_once_counter (s : session) (st : state) :
  forallb (fun m => negb (is_login_ok m)) (messages s) = true ->
  (login_failures st <= login_failures (_connect_once cfg s st))%nat.
Proof.
  intros Hm. unfold _connect_once.
  assert (H1 : (login_failures st
                <= login_failures (if opens s
                     then deliver cfg (messages s) (_on_open cfg (reset_connection st))
                     else with_error (open_error s) (reset_connection st)))%nat).
  { destruct (opens s); [| simpl; lia].
    pose proof (deliver_counter _ Hm (_on_open cfg (reset_connection st))) as Hd.
    assert (login_failures (_on_open cfg (reset_connection st)) = login_failures st)
      by (unfold _on_open, _login; destruct (negb (has_credentials cfg)); reflexivity).
    lia. }
  destruct (stop_called s); simpl; exact H1.
Qed.

(** Once disabled, the loop returns without connecting. *)
Lemma run_loop_disabled (sessions : list session) (st : state) :
  disabled st = true -> _run_loop cfg sessions st = exited st.
Proof.
  intros Hd. destruct sessions; simpl; rewrite Hd; destruct (stopped st); reflexivity.
Qed.

Lemma start_disabled (sessions : list session) (st : state) :
  disabled st = true -> start cfg sessions st = st.
Proof. intros Hd. unfold start. rewrite Hd. reflexivity. Qed.

(** One session in which the login fails. *)
Lemma failing_session_step (code : string) (st : state) :
  has_credentials cfg = true -> code <> "0" ->
  let st' := _connect_once cfg (failing_session code) st in
  login_failures st' = S (login_failures st)
  /\ attempts st' = S (attempts st)
  /\ stopped st' = stopped st
  /\ running st' = running st
  /\ disabled st'
     = disabled st || (max_login_failures cfg <=? Z.of_nat (S (login_failures st)))%Z.
Proof.
  intros Hc Hcode. unfold _connect_once, failing_session. simpl.
  unfold _on_open, _login. rewrite Hc. simpl.
  assert (Hs : str (jor (JStr code) (JStr "")) = code)
    by (destruct code; reflexivity).
  unfold _handle_message. simpl get.
  change (lower (str (jor (JStr "login") (JStr "")))) with "login".
  change (String.eqb "login" "login") with true. cbv iota.
  simpl field. simpl default. rewrite Hs.
  destruct (String.eqb code "0") eqn:E; [apply String.eqb_eq in E; contradiction |].
  rewrite trip_or_close_failures, trip_or_close_disabled.
  unfold trip_or_close. destruct (_ <=? _)%Z; simpl; repeat split; reflexivity.
Qed.

Lemma run_loop_step (s : session) (rest : list session) (st : state) :
  stopped st = false -> disabled st = false ->
  _run_loop cfg (s :: rest) st
  = if stopped (_connect_once cfg s st) || disabled (_connect_once cfg s st)
    then exited (_connect_once cfg s st)
    else _run_loop cfg rest (_connect_once cfg s st).
Proof. intros Hs Hd. simpl. rewrite Hs, Hd. reflexivity. Qed.

(** As many failing sessions as the threshold allows: the stream ends
    disabled, having connected that many times and no more. *)
Lemma failing_sessions_trip (code : string) (k : nat) :
  has_credentials cfg = true -> code <> "0" ->
  forall (st : state) (more : list session),
    disabled st = false -> stopped st = false ->
    (0 < k)%nat ->
    max_login_failures cfg = Z.of_nat (login_failures st + k) ->
    let st' := _run_loop cfg (repeat (failing_session code) k ++ more)%list st in
    disabled st' = true /\ attempts st' = (attempts st + k)%nat
    /\ running st' = false.
Proof.
  intros Hc Hcode. induction k as [| k IH]; intros st more Hd Hs Hk Hmax; [lia |].
  change (repeat (failing_session code) (S k) ++ more)%list
    with (failing_session code :: (repeat (failing_session code) k ++ more))%list.
  cbv zeta. rewrite (run_loop_step _ _ _ Hs Hd).
  destruct (failing_session_step code st Hc Hcode) as (Hf & Ha & Hst & Hr & Hdis).
  rewrite Hd in Hdis. simpl orb in Hdis.
  remember (_connect_once cfg (failing_session code) st) as st1 eqn:Hst1.
  clear Hst1. rewrite Hst, Hs, Hdis. simpl orb.
  destruct (max_login_failures cfg <=? Z.of_nat (S (login_failures st)))%Z eqn:E.
  - apply Z.leb_le in E. assert (k = 0%nat) by lia. subst k.
    simpl. repeat split; [exact Hdis | rewrite Ha; lia].
  - apply Z.leb_gt in E.
    assert (Hs1 : stopped st1 = false) by (rewrite Hst; exact Hs).
    assert (Hk1 : (0 < k)%nat) by lia.
    assert (Hmax1 : max_login_failures cfg = Z.of_nat (login_failures st1 + k))
      by (rewrite Hf, Hmax; f_equal; lia).
    destruct (IH st1 more Hdis Hs1 Hk1 Hmax1) as (H1 & H2 & H3).
    repeat split; [exact H1 | rewrite H2, Ha; lia | exact H3].
Qed.

(** C6: a failure event that brings the counter to the configured maximum
    disables the stream; a disabled stream stays disabled, its reconnect
    loop returns without a connection attempt and [start()] does nothing;
    a reconnection clears the connected, authenticated and subscribed
    flags and keeps the failure counter, which only a successful login
    lowers; as many consecutive login failures as the maximum, from a new
    stream, leave it disabled after exactly that many connections. *)
Theorem login_breaker :
  (forall m st,
     login_failures (_handle_message cfg m st) = S (login_failures st) ->
     (max_login_failures cfg <= Z.of_nat (S (login_failures st)))%Z ->
     disabled (_handle_message cfg m st) = true)
  /\ (forall st, disabled st = true ->
        (forall m, disabled (_handle_message cfg m st) = true)
        /\ (forall s, disabled (_connect_once cfg s st) = true)
        /\ (forall sessions,
              _run_loop cfg sessions st = exited st
              /\ attempts (_run_loop cfg sessions st) = attempts st
              /\ disabled (_run_loop cfg sessions st) = true)
        /\ (forall sessions, start cfg sessions st = st))
  /\ (forall st,
        connected (reset_connection st) = false
        /\ authed (reset_connection st) = false
        /\ subscribed (reset_connection st) = false
        /\ login_failures (reset_connection st) = login_failures st)
  /\ (forall s st,
        forallb (fun m => negb (is_login_ok m)) (messages s) = true ->
        (login_failures st <= login_failures (_connect_once cfg s st))%nat)
  /\ (forall code more,
        has_credentials cfg = true -> code <> "0" ->
        (0 < max_login_failures cfg)%Z ->
        let n := Z.to_nat (max_login_failures cfg) in
        let st' := start cfg (repeat (failing_session code) n ++ more)%list initial in
        disabled st' = true /\ attempts st' = n /\ running st' = false
        /\ forall sessions, start cfg sessions st' = st').
Proof.
  split; [exact handle_message_trips | split; [| split; [| split]]].
  - intros st Hd. split; [| split; [| split]].
    + intros m. apply handle_message_disabled. exact Hd.
    + intros s. apply connect_once_disabled. exact Hd.
    + intros sessions. rewrite (run_loop_disabled sessions st Hd).
      repeat split. exact Hd.
    + intros sessions. apply start_disabled. exact Hd.
  - intros st. repeat split.
  - exact connect_once_counter.
  - intros code more Hc Hcode Hmax n st'.
    assert (Hrun : disabled st' = true /\ attempts st' = n /\ running st' = false).
    { unfold st', start. simpl.
      destruct (failing_sessions_trip code n Hc Hcode
                  {| login_failures := 0; disabled := false; last_error := "";
                     connected := false; authed := false; subscribed := false;
                     stopped := false; ws_open := false; running := true;
                     attempts := 0; sent := [] |} more eq_refl eq_refl)
        as (H1 & H2 & H3); [unfold n; lia | simpl; unfold n; lia |].
      repeat split; assumption. }
    destruct Hrun as (H1 & H2 & H3). repeat split; try assumption.
    intros sessions. apply start_disabled. exact H1.
Qed.

End LoginBreaker.

(** The breaker scenario of the specification: three login failures in a
    row with a maximum of three; a fourth session is on offer and is not
    used. *)
Lemma login_breaker_witness :
  let cfg := {| PrivateWS.max_login_failures := 3; PrivateWS.has_credentials := true |} in
  let offered :=
    (repeat (PrivateWS.failing_session "60009") 3 ++ [PrivateWS.failing_session "60009"])%list in
  let st' := @PrivateWS.start Sample.runtime cfg offered PrivateWS.initial in
  (PrivateWS.disabled st' = true /\ PrivateWS.attempts st' = 3%nat
   /\ PrivateWS.running st' = false
   /\ forall sessions, @PrivateWS.start Sample.runtime cfg sessions st' = st')
  /\ PrivateWS.login_failures st' = 3%nat
  /\ PrivateWS.last_error st' = "login failed code=60009 msg=Login failed."%string.
Proof.
  intros cfg offered st'. split; [| vm_compute; split; reflexivity].
  destruct (@login_breaker Sample.runtime cfg) as (_ & _ & _ & _ & Htrip).
  apply (Htrip "60009"%string [PrivateWS.failing_session "60009"] eq_refl).
  - discriminate.
  - simpl. lia.
Defined.

(** ** The keys of the ledger *)

Section LedgerKeys.

Import OrderManager.
Local Open Scope string_scope.

Lemma last_char_append (s t : string) (c d : ascii) :
  last_char (s ++ String c t) d = last_char t c.
Proof.
  revert d. induction s as [| x s IH]; intros d; simpl; [reflexivity | apply IH].
Qed.

Lemma done_key_inj (a b : string) : _done_key a = _done_key b -> a = b.
Proof. unfold _done_key. apply append_inv_head. Qed.

Lemma pending_key_inj (a b : string) : _pending_key a = _pending_key b -> a = b.
Proof.
  unfold _pending_key. intros E. apply append_inv_head in E.
  apply append_inv_tail in E. exact E.
Qed.

Lemma pending_ts_key_inj (a b : string) : _pending_ts_key a = _pending_ts_key b -> a = b.
Proof.
  unfold _pending_ts_key. intros E. apply append_inv_head in E.
  apply append_inv_tail in E. exact E.
Qed.

Lemma tp_sl_key_inj (a b : string) : tp_sl_key a = tp_sl_key b -> a = b.
Proof. unfold tp_sl_key. apply append_inv_head. Qed.

(** A marker key and a timestamp key differ in their last character. *)
Lemma pending_key_not_ts (a b : string) : _pending_key a <> _pending_ts_key b.
Proof.
  unfold _pending_key, _pending_ts_key. intros E. apply append_inv_head in E.
  apply (f_equal (fun s => last_char s "x"%char)) in E.
  change (a ++ ":clOrdId") with (a ++ String ":" "clOrdId") in E.
  change (b ++ ":ts") with (b ++ String ":" "ts") in E.
  rewrite !last_char_append in E. discriminate E.
Qed.

End LedgerKeys.

(** ** The order ledger: idempotent signals and one-shot TP/SL *)

Section OrderLedger.

Import OrderManager.
Local Open Scope string_scope.

Context `{Runtime}.
Variable cfg : config.

Lemma lookup_set_kv (k v : string) (st : state) (j : string) :
  kv (set_kv k v st) !! j = if decide (k = j) then Some v else kv st !! j.
Proof. unfold set_kv. simpl. apply lookup_insert. Qed.

Lemma lookup_del_kv (k : string) (st : state) (j : string) :
  kv (del_kv k st) !! j = if decide (k = j) then None else kv st !! j.
Proof. unfold del_kv. simpl. apply lookup_delete. Qed.

Lemma lookup_issue (ev : event) (st : state) (j : string) :
  kv (issue ev st) !! j = kv st !! j.
Proof. reflexivity. Qed.

Ltac key_clash E :=
  first
    [ apply done_key_inj in E
    | apply pending_key_inj in E
    | apply pending_ts_key_inj in E
    | apply tp_sl_key_inj in E
    | exfalso; exact (pending_key_not_ts _ _ E)
    | exfalso; exact (pending_key_not_ts _ _ (eq_sym E))
    | exfalso;
      unfold _done_key, _pending_key, _pending_ts_key, tp_sl_key, _reject_ts_key in E;
      simpl in E; discriminate E ].

Ltac ledger :=
  unfold _cleanup_pending;
  repeat (rewrite lookup_set_kv || rewrite lookup_del_kv || rewrite lookup_issue);
  repeat match goal with
         | |- context [decide (?a = ?b)] =>
             let E := fresh "E" in
             let N := fresh "N" in
             destruct (decide (a = b)) as [E | N];
             [try key_clash E | try (exfalso; exact (N eq_refl))]
         end.

Lemma make_cl_ord_id_truthy (idem : string) (now : float) (cl : string) :
  make_cl_ord_id idem now = Ok cl -> str_truthy cl = true.
Proof.
  unfold make_cl_ord_id. destruct (int_of_float _) as [ms | e]; intros E.
  - change (mbind ?f (Ok ms)) with (f ms) in E. cbv beta in E.
    injection E as <-. reflexivity.
  - discriminate E.
Qed.

(** The states [on_signal] can leave. *)
Lemma on_signal_shape (env : signal_env) (sig : signal) (bar : list (string * json))
    (st : state) :
  let idem := idempotency_key sig in
  let st' := fst (on_signal cfg env sig bar st) in
  st' = st \/
  (~ gated st idem /\
   ((exists v, st' = set_kv (_done_key idem) "1" (set_kv _reject_ts_key v st)) \/
    (exists cl rq t, str_truthy cl = true /\
       let st2 := issue (Submit idem rq)
                    (set_kv (_pending_ts_key idem) t
                       (set_kv (_pending_key idem) cl
                          (set_kv "pending_current_idem" idem st))) in
       (exists v, st' = set_kv (_done_key idem) "1"
                          (set_kv _reject_ts_key v (_cleanup_pending idem st2))) \/
       (exists v, st' = set_kv "last_trade_ts" v (issue (SaveOrder cl) st2))))).
Proof.
  intros idem st'. subst st'. unfold on_signal. fold idem.
  destruct (negb (String.prefix "OPEN" (action sig))); [left; reflexivity |].
  destruct (negb (str_truthy idem)); [left; reflexivity |].
  destruct (bool_decide (kv st !! _done_key idem = Some "1")) eqn:Hd; [left; reflexivity |].
  destruct (opt_str_truthy (kv st !! _pending_key idem)) eqn:Hp; [left; reflexivity |].
  assert (Hg : ~ gated st idem).
  { intros [Hg | Hg].
    - apply bool_decide_eq_false in Hd. exact (Hd Hg).
    - rewrite Hp in Hg. discriminate Hg. }
  repeat match goal with
         | |- context [if ?b then (st, None) else _] => destruct b; [left; reflexivity |]
         end.
  destruct (direction (action sig)) as [[pos_side side] |]; [| left; reflexivity].
  repeat match goal with
         | |- context [if ?b then (st, None) else _] => destruct b; [left; reflexivity |]
         end.
  destruct (calc_size_by_risk _ _) as [raw_sz | e]; [| left; reflexivity].
  repeat match goal with
         | |- context [if ?b then (st, None) else _] => destruct b; [left; reflexivity |]
         end.
  destruct (negb (_margin_gate _ _ _ _ _ _)).
  { right. split; [exact Hg |]. left. eexists. reflexivity. }
  destruct (calc_tp_sl _ _ _) as [[tp sl] | e]; [| left; reflexivity].
  destruct (make_cl_ord_id idem (now_cl_ord_id env)) as [cl | e] eqn:Hcl; [| left; reflexivity].
  apply make_cl_ord_id_truthy in Hcl.
  right. split; [exact Hg |]. right.
  destruct (place_market_with_tp_sl _ _) as [r | e].
  - eexists cl, _, _. split; [exact Hcl |]. right. eexists. reflexivity.
  - eexists cl, _, _. split; [exact Hcl |]. left. eexists. reflexivity.
Qed.


Lemma filter_snoc {A : Type} (f : A -> bool) (l : list A) (x : A) :
  length (List.filter f (l ++ [x])) =
  (length (List.filter f l) + (if f x then 1 else 0))%nat.
Proof.
  rewrite List.filter_app, List.length_app. simpl. destruct (f x); reflexivity.
Qed.

Lemma submissions_issue (a : string) (ev : event) (st : state) :
  submissions a (issue ev st) =
  (submissions a st + (if is_submit a ev then 1 else 0))%nat.
Proof. unfold submissions, issue. simpl. apply filter_snoc. Qed.

Lemma tp_sl_calls_issue (a : string) (ev : event) (st : state) :
  tp_sl_calls a (issue ev st) =
  (tp_sl_calls a st + (if is_tp_sl a ev then 1 else 0))%nat.
Proof. unfold tp_sl_calls, issue. simpl. apply filter_snoc. Qed.

Lemma submissions_set_kv (a k v : string) (st : state) :
  submissions a (set_kv k v st) = submissions a st.
Proof. reflexivity. Qed.

Lemma submissions_cleanup (a idem : string) (st : state) :
  submissions a (_cleanup_pending idem st) = submissions a st.
Proof. reflexivity. Qed.

Lemma tp_sl_calls_set_kv (a k v : string) (st : state) :
  tp_sl_calls a (set_kv k v st) = tp_sl_calls a st.
Proof. reflexivity. Qed.

Lemma tp_sl_calls_cleanup (a idem : string) (st : state) :
  tp_sl_calls a (_cleanup_pending idem st) = tp_sl_calls a st.
Proof. reflexivity. Qed.

Ltac count :=
  repeat (rewrite submissions_set_kv || rewrite submissions_cleanup
          || rewrite tp_sl_calls_set_kv || rewrite tp_sl_calls_cleanup
          || rewrite submissions_issue || rewrite tp_sl_calls_issue);
  cbn [is_submit is_tp_sl].

(** [on_signal] issues no conditional order and leaves the flags alone. *)
Lemma on_signal_tp_sl_calls (env : signal_env) (sig : signal) (bar : list (string * json))
    (st : state) (a : string) :
  tp_sl_calls a (fst (on_signal cfg env sig bar st)) = tp_sl_calls a st.
Proof.
  destruct (on_signal_shape env sig bar st)
    as [-> | [_ [[v ->] | (cl & rq & t & _ & [[v ->] | [v ->]])]]];
    count; lia.
Qed.

Lemma on_signal_flag (env : signal_env) (sig : signal) (bar : list (string * json))
    (st : state) (a : string) :
  kv (fst (on_signal cfg env sig bar st)) !! tp_sl_key a = kv st !! tp_sl_key a.
Proof.
  destruct (on_signal_shape env sig bar st)
    as [-> | [_ [[v ->] | (cl & rq & t & _ & [[v ->] | [v ->]])]]];
    ledger; reflexivity.
Qed.

Lemma on_signal_done (env : signal_env) (sig : signal) (bar : list (string * json))
    (st : state) (a : string) :
  done st a -> done (fst (on_signal cfg env sig bar st)) a.
Proof.
  unfold done. intros Hd.
  destruct (on_signal_shape env sig bar st)
    as [-> | [_ [[v ->] | (cl & rq & t & _ & [[v ->] | [v ->]])]]];
    ledger; try reflexivity; exact Hd.
Qed.


Lemma on_signal_gated (env : signal_env) (sig : signal) (bar : list (string * json))
    (st : state) :
  gated st (idempotency_key sig) -> on_signal cfg env sig bar st = (st, None).
Proof.
  intros Hg. unfold on_signal.
  destruct (negb (String.prefix "OPEN" (action sig))); [reflexivity |].
  destruct (negb (str_truthy (idempotency_key sig))); [reflexivity |].
  destruct Hg as [Hd | Hp].
  - rewrite (bool_decide_eq_true_2 _ Hd). reflexivity.
  - rewrite Hp. destruct (bool_decide _); reflexivity.
Qed.

Lemma on_signal_keeps_gated (env : signal_env) (sig : signal) (bar : list (string * json))
    (st : state) (a : string) :
  gated st a -> gated (fst (on_signal cfg env sig bar st)) a.
Proof.
  intros Hg.
  destruct (on_signal_shape env sig bar st)
    as [-> | [Hn [[v ->] | (cl & rq & t & Hcl & [[v ->] | [v ->]])]]];
    [exact Hg | | |].
  - destruct Hg as [Hd | Hp]; [left | right]; unfold done in *; ledger;
      try reflexivity; assumption.
  - destruct (decide (a = idempotency_key sig)) as [-> | Hne]; [contradiction |].
    destruct Hg as [Hd | Hp]; [left | right]; unfold done in *; ledger;
      try reflexivity; try assumption; congruence.
  - destruct (decide (a = idempotency_key sig)) as [-> | Hne]; [contradiction |].
    destruct Hg as [Hd | Hp]; [left | right]; unfold done in *; ledger;
      try reflexivity; try assumption; congruence.
Qed.

Lemma on_signal_markers (env : signal_env) (sig : signal) (bar : list (string * json))
    (st : state) :
  markers_set (kv st) -> markers_set (kv (fst (on_signal cfg env sig bar st))).
Proof.
  intros Hm.
  destruct (on_signal_shape env sig bar st)
    as [-> | [Hn [[v ->] | (cl & rq & t & Hcl & [[v ->] | [v ->]])]]];
    [exact Hm | | |]; intros a w; ledger; try discriminate; try apply Hm.
  intros [= <-] ->. discriminate Hcl.
Qed.

(** A submission is issued only for a key that was not gated, and leaves
    it gated. *)
Lemma on_signal_submissions (env : signal_env) (sig : signal) (bar : list (string * json))
    (st : state) (a : string) :
  let st' := fst (on_signal cfg env sig bar st) in
  submissions a st' = submissions a st \/
  (~ gated st a /\ gated st' a /\ submissions a st' = S (submissions a st)).
Proof.
  intros st'. subst st'.
  destruct (on_signal_shape env sig bar st)
    as [-> | [Hn [[v ->] | (cl & rq & t & Hcl & [[v ->] | [v ->]])]]].
  - left. reflexivity.
  - left. reflexivity.
  - count. destruct (String.eqb_spec (idempotency_key sig) a) as [<- | Hne].
    + right. split; [exact Hn |]. split; [| lia].
      left. unfold done. ledger. reflexivity.
    + left. lia.
  - count. destruct (String.eqb_spec (idempotency_key sig) a) as [<- | Hne].
    + right. split; [exact Hn |]. split; [| lia].
      right. ledger; try congruence. exact Hcl.
    + left. lia.
Qed.


(** The states [_after_fill_set_tp_sl] can leave. *)
Lemma after_fill_shape (ex : exchange) (idem inst_id td_mode cl : string) (info : json)
    (force_sz : option float) (st : state) :
  let st' := _after_fill_set_tp_sl ex idem inst_id td_mode cl info force_sz st in
  st' = st \/
  (kv st !! tp_sl_key idem <> Some "1" /\
   exists rq, prepare_tp_sl ex inst_id td_mode cl info force_sz = Ok (Some rq) /\
     ((st' = issue (TpSl idem rq) st /\ exists e, place_tp_sl_algo ex rq = Raise e) \/
      (st' = set_kv (tp_sl_key idem) "1" (issue (TpSl idem rq) st) /\
       exists r, place_tp_sl_algo ex rq = Ok r))).
Proof.
  intros st'. subst st'. unfold _after_fill_set_tp_sl.
  destruct (bool_decide (kv st !! tp_sl_key idem = Some "1")) eqn:Hf; [left; reflexivity |].
  apply bool_decide_eq_false in Hf.
  destruct (prepare_tp_sl ex inst_id td_mode cl info force_sz) as [[rq |] | e];
    [| left; reflexivity | left; reflexivity].
  right. split; [exact Hf |]. exists rq. split; [reflexivity |].
  destruct (place_tp_sl_algo ex rq) as [r | e].
  - right. split; [reflexivity | exists r; reflexivity].
  - left. split; [reflexivity | exists e; reflexivity].
Qed.

(** The states [housekeep] can leave. *)
Lemma housekeep_shape (env : housekeep_env) (st : state) :
  let st' := housekeep cfg env st in
  st' = st \/
  exists idem, kv st !! "pending_current_idem" = Some idem /\
    ((st' = _cleanup_pending idem st /\
      (done st idem \/ opt_str_truthy (kv st !! _pending_key idem) = false)) \/
     (exists cl, st' = issue (Lookup cl) st \/ st' = issue (Cancel cl) (issue (Lookup cl) st)) \/
     (~ done st idem /\
      exists cl st1 st2,
        (st1 = issue (Lookup cl) st \/ st1 = issue (Cancel cl) (issue (Lookup cl) st)) /\
        (st2 = st1 \/
         exists inst_id td_mode info force_sz,
           st2 = _after_fill_set_tp_sl (he_ex env) idem inst_id td_mode cl info force_sz st1) /\
        st' = _cleanup_pending idem (set_kv (_done_key idem) "1" st2))).
Proof.
  intros st'. subst st'. unfold housekeep.
  destruct (kv st !! "pending_current_idem") as [idem |] eqn:Hcur; [| left; reflexivity].
  destruct (negb (str_truthy idem)); [left; reflexivity |].
  destruct (bool_decide (kv st !! _done_key idem = Some "1")) eqn:Hd.
  { right. exists idem. split; [reflexivity |]. left. split; [reflexivity |].
    left. apply bool_decide_eq_true in Hd. exact Hd. }
  apply bool_decide_eq_false in Hd.
  destruct (opt_str_truthy (kv st !! _pending_key idem)) eqn:Hp; cbn [negb].
  2: { right. exists idem. split; [reflexivity |]. left. split; [reflexivity |].
       right. exact Hp. }
  repeat match goal with
         | |- context [if ?b then st else _] => destruct b; [left; reflexivity |]
         end.
  right. exists idem. split; [reflexivity |].
  set (cl := default "" (kv st !! _pending_key idem)).
  destruct (query_order _ _ _) as [[[info state] acc_fill] | e].
  2: { right. right. split; [exact Hd |]. exists cl, (issue (Lookup cl) st), (issue (Lookup cl) st).
       split; [left; reflexivity |]. split; [left; reflexivity | reflexivity]. }
  destruct (String.eqb state "filled") eqn:Hfilled.
  { cbn [orb]. right. right. split; [exact Hd |].
    exists cl, (issue (Lookup cl) st). eexists.
    split; [left; reflexivity |]. split; [| reflexivity].
    right. do 4 eexists. reflexivity. }
  destruct (String.eqb state "canceled") eqn:Hcanceled.
  { cbn [orb]. right. right. split; [exact Hd |].
    exists cl, (issue (Lookup cl) st), (issue (Lookup cl) st).
    split; [left; reflexivity |]. split; [left; reflexivity | reflexivity]. }
  cbn [orb].
  destruct (String.eqb state "partially_filled").
  { right. right. split; [exact Hd |].
    exists cl, (issue (Cancel cl) (issue (Lookup cl) st)). eexists.
    split; [right; reflexivity |]. split; [| reflexivity].
    right. do 4 eexists. reflexivity. }
  right. left. exists cl.
  destruct (cancel_on_timeout cfg); [right | left]; reflexivity.
Qed.


Lemma after_fill_lookup (ex : exchange) (idem inst_id td_mode cl : string) (info : json)
    (force_sz : option float) (st : state) (j : string) :
  j <> tp_sl_key idem ->
  kv (_after_fill_set_tp_sl ex idem inst_id td_mode cl info force_sz st) !! j = kv st !! j.
Proof.
  intros Hj.
  destruct (after_fill_shape ex idem inst_id td_mode cl info force_sz st)
    as [-> | (_ & rq & _ & [[-> _] | [-> _]])]; ledger; try reflexivity.
  symmetry in E. contradiction.
Qed.

Lemma after_fill_submissions (ex : exchange) (idem inst_id td_mode cl : string) (info : json)
    (force_sz : option float) (st : state) (a : string) :
  submissions a (_after_fill_set_tp_sl ex idem inst_id td_mode cl info force_sz st) =
  submissions a st.
Proof.
  destruct (after_fill_shape ex idem inst_id td_mode cl info force_sz st)
    as [-> | (_ & rq & _ & [[-> _] | [-> _]])]; count; lia.
Qed.

Lemma after_fill_tp_sl_calls (ex : exchange) (idem inst_id td_mode cl : string) (info : json)
    (force_sz : option float) (st : state) (a : string) :
  let st' := _after_fill_set_tp_sl ex idem inst_id td_mode cl info force_sz st in
  tp_sl_calls a st' = tp_sl_calls a st \/
  (a = idem /\ tp_sl_calls a st' = S (tp_sl_calls a st)).
Proof.
  intros st'. subst st'.
  destruct (after_fill_shape ex idem inst_id td_mode cl info force_sz st)
    as [-> | (_ & rq & _ & [[-> _] | [-> _]])]; [left; reflexivity | |];
    count; (destruct (String.eqb_spec idem a) as [<- | Hne];
            [right; split; [reflexivity | lia] | left; lia]).
Qed.

Lemma housekeep_submissions (env : housekeep_env) (st : state) (a : string) :
  submissions a (housekeep cfg env st) = submissions a st.
Proof.
  destruct (housekeep_shape env st)
    as [-> | (idem & _ & [[-> _] | [[cl [-> | ->]] | (_ & cl & st1 & st2 & H1 & H2 & ->)]])];
    try (count; lia).
  count.
  destruct H2 as [-> | (i & t & info & f & ->)]; [| rewrite after_fill_submissions];
    destruct H1 as [-> | ->]; count; lia.
Qed.

Lemma housekeep_done (env : housekeep_env) (st : state) (a : string) :
  done st a -> done (housekeep cfg env st) a.
Proof.
  unfold done. intros Hd.
  destruct (housekeep_shape env st)
    as [-> | (idem & _ & [[-> _] | [[cl [-> | ->]] | (_ & cl & st1 & st2 & H1 & H2 & ->)]])];
    ledger; try reflexivity; try exact Hd.
  destruct H2 as [-> | (i & t & info & f & ->)];
    [| rewrite after_fill_lookup by (intros E; key_clash E)];
    destruct H1 as [-> | ->]; exact Hd.
Qed.

Lemma housekeep_keeps_gated (env : housekeep_env) (st : state) (a : string) :
  gated st a -> gated (housekeep cfg env st) a.
Proof.
  intros Hg.
  destruct (decide (kv st !! _done_key a = Some "1")) as [Hd | Hn].
  { left. apply housekeep_done. exact Hd. }
  destruct Hg as [Hd | Hp]; [contradiction |].
  destruct (housekeep_shape env st)
    as [-> | (idem & _ & [[-> Hc] | [[cl [-> | ->]] | (_ & cl & st1 & st2 & H1 & H2 & ->)]])].
  - right. exact Hp.
  - right. ledger; try exact Hp.
    subst a. destruct Hc as [Hc | Hc]; [contradiction | congruence].
  - right. exact Hp.
  - right. exact Hp.
  - destruct (decide (a = idem)) as [-> | Hne].
    + left. unfold done. ledger. reflexivity.
    + right. ledger; try congruence.
      destruct H2 as [-> | (i & t & info & f & ->)];
        [| rewrite after_fill_lookup by (intros E; key_clash E)];
        destruct H1 as [-> | ->]; exact Hp.
Qed.

Lemma housekeep_markers (env : housekeep_env) (st : state) :
  markers_set (kv st) -> markers_set (kv (housekeep cfg env st)).
Proof.
  intros Hm.
  destruct (housekeep_shape env st)
    as [-> | (idem & _ & [[-> _] | [[cl [-> | ->]] | (_ & cl & st1 & st2 & H1 & H2 & ->)]])];
    try exact Hm; intros a w; ledger; try discriminate; try apply Hm.
  destruct H2 as [-> | (i & t & info & f & ->)];
    [| rewrite after_fill_lookup by (intros E; key_clash E)];
    destruct H1 as [-> | ->]; apply Hm.
Qed.


(** A conditional order is issued only for a key that was not done, and
    leaves it done. *)
Lemma housekeep_tp_sl_calls (env : housekeep_env) (st : state) (a : string) :
  let st' := housekeep cfg env st in
  tp_sl_calls a st' = tp_sl_calls a st \/
  (~ done st a /\ done st' a /\ tp_sl_calls a st' = S (tp_sl_calls a st)).
Proof.
  intros st'. subst st'.
  destruct (housekeep_shape env st)
    as [-> | (idem & _ & [[-> _] | [[cl [-> | ->]] | (Hn & cl & st1 & st2 & H1 & H2 & ->)]])];
    try (left; count; lia).
  assert (Hst1 : tp_sl_calls a st1 = tp_sl_calls a st)
    by (destruct H1 as [-> | ->]; count; lia).
  destruct H2 as [-> | (i & t & info & f & ->)]; [left; count; exact Hst1 |].
  destruct (after_fill_tp_sl_calls (he_ex env) idem i t cl info f st1 a)
    as [Hc | [-> Hc]]; [left; count; congruence |].
  right. split; [exact Hn |]. split; [| count; congruence].
  unfold done. ledger. reflexivity.
Qed.

(** The flag of a key turns to ["1"] only in a pass whose last call is the
    conditional order for that key, accepted by the exchange. *)
Lemma housekeep_flag (env : housekeep_env) (st : state) (a : string) :
  kv st !! tp_sl_key a <> Some "1" ->
  kv (housekeep cfg env st) !! tp_sl_key a = Some "1" ->
  exists rq r, place_tp_sl_algo (he_ex env) rq = Ok r /\
    last (calls (housekeep cfg env st)) = Some (TpSl a rq).
Proof.
  intros Hn.
  destruct (housekeep_shape env st)
    as [-> | (idem & _ & [[-> _] | [[cl [-> | ->]] | (_ & cl & st1 & st2 & H1 & H2 & ->)]])];
    ledger; try contradiction.
  assert (Hst1 : kv st1 !! tp_sl_key a = kv st !! tp_sl_key a)
    by (destruct H1 as [-> | ->]; reflexivity).
  destruct H2 as [-> | (i & t & info & f & ->)]; [rewrite Hst1; contradiction |].
  destruct (after_fill_shape (he_ex env) idem i t cl info f st1)
    as [-> | (_ & rq & _ & [[-> _] | [-> [r Hr]]])];
    ledger; try (rewrite Hst1; contradiction).
  intros _. subst a. exists rq, r. split; [exact Hr |].
  cbn [calls _cleanup_pending del_kv set_kv issue]. apply last_snoc.
Qed.

Lemma step_submissions (st : state) (o : op) (a : string) :
  at_most_once (submissions a st) (gated st a) ->
  at_most_once (submissions a (step cfg st o)) (gated (step cfg st o) a).
Proof.
  unfold at_most_once. intros Hinv. destruct o as [env sig bar | env]; cbn [step].
  - destruct (on_signal_submissions env sig bar st a) as [Hc | (Hn & Hg & Hc)].
    + rewrite Hc. destruct Hinv as [H0 | [H1 Hg]]; [left; exact H0 |].
      right. split; [exact H1 | apply on_signal_keeps_gated; exact Hg].
    + destruct Hinv as [H0 | [_ Hg']]; [| contradiction].
      right. split; [lia | exact Hg].
  - rewrite housekeep_submissions.
    destruct Hinv as [H0 | [H1 Hg]]; [left; exact H0 |].
    right. split; [exact H1 | apply housekeep_keeps_gated; exact Hg].
Qed.

Lemma step_tp_sl_calls (st : state) (o : op) (a : string) :
  at_most_once (tp_sl_calls a st) (done st a) ->
  at_most_once (tp_sl_calls a (step cfg st o)) (done (step cfg st o) a).
Proof.
  unfold at_most_once. intros Hinv. destruct o as [env sig bar | env]; cbn [step].
  - rewrite on_signal_tp_sl_calls.
    destruct Hinv as [H0 | [H1 Hd]]; [left; exact H0 |].
    right. split; [exact H1 | apply on_signal_done; exact Hd].
  - destruct (housekeep_tp_sl_calls env st a) as [Hc | (Hn & Hd & Hc)].
    + rewrite Hc. destruct Hinv as [H0 | [H1 Hd]]; [left; exact H0 |].
      right. split; [exact H1 | apply housekeep_done; exact Hd].
    + destruct Hinv as [H0 | [_ Hd']]; [| contradiction].
      right. split; [lia | exact Hd].
Qed.

Lemma step_markers (st : state) (o : op) :
  markers_set (kv st) -> markers_set (kv (step cfg st o)).
Proof.
  destruct o as [env sig bar | env]; cbn [step];
    [apply on_signal_markers | apply housekeep_markers].
Qed.

Lemma run_markers (ops : list op) (st : state) :
  markers_set (kv st) -> markers_set (kv (run cfg ops st)).
Proof.
  unfold run. revert st. induction ops as [| o ops IH]; intros st Hm; [exact Hm |].
  cbn [fold_left]. apply IH, step_markers, Hm.
Qed.

Lemma run_submissions (ops : list op) (st : state) (a : string) :
  at_most_once (submissions a st) (gated st a) ->
  at_most_once (submissions a (run cfg ops st)) (gated (run cfg ops st) a).
Proof.
  unfold run. revert st. induction ops as [| o ops IH]; intros st Hinv; [exact Hinv |].
  cbn [fold_left]. apply IH, step_submissions, Hinv.
Qed.

Lemma run_tp_sl_calls (ops : list op) (st : state) (a : string) :
  at_most_once (tp_sl_calls a st) (done st a) ->
  at_most_once (tp_sl_calls a (run cfg ops st)) (done (run cfg ops st) a).
Proof.
  unfold run. revert st. induction ops as [| o ops IH]; intros st Hinv; [exact Hinv |].
  cbn [fold_left]. apply IH, step_tp_sl_calls, Hinv.
Qed.


(** C2: a signal whose idempotency key is recorded as done, or has a
    pending marker in the ledger, makes [on_signal] return with the ledger
    and the calls issued unchanged (no order is submitted, no marker is
    written); and whatever signals and housekeeping passes the manager
    goes through, it submits at most one order for a key.  The ledger is any
    ledger the manager reaches from one whose markers hold client order ids,
    as all the markers it writes do. *)
Theorem on_signal_idempotent (st0 : state) (ops : list op) (env : signal_env)
    (sig : signal) (bar : list (string * json)) :
  markers_set (kv st0) ->
  calls st0 = [] ->
  ((done (run cfg ops st0) (idempotency_key sig) \/
    is_Some (kv (run cfg ops st0) !! _pending_key (idempotency_key sig))) ->
   on_signal cfg env sig bar (run cfg ops st0) = (run cfg ops st0, None)) /\
  (forall idem, (submissions idem (run cfg ops st0) <= 1)%nat).
Proof.
  intros Hm Hc. split.
  - intros Hg. apply on_signal_gated.
    destruct Hg as [Hd | [cl Hcl]]; [left; exact Hd | right].
    rewrite Hcl. cbn [opt_str_truthy].
    pose proof (run_markers ops st0 Hm _ _ Hcl) as Hne.
    destruct cl; [contradiction | reflexivity].
  - intros idem.
    assert (Hinv : at_most_once (submissions idem st0) (gated st0 idem)).
    { left. unfold submissions. rewrite Hc. reflexivity. }
    destruct (run_submissions ops st0 idem Hinv) as [-> | [-> _]]; lia.
Qed.

(** C4: over any sequence of signals and housekeeping passes the
    conditional TP/SL order is called at most once for a key; with the flag
    [tp_sl_set:<key>] at ["1"], [_after_fill_set_tp_sl] leaves the ledger
    and the calls as they are; and the flag turns to ["1"] only where the
    conditional order was called and the exchange accepted it, in
    [_after_fill_set_tp_sl] and in every step of the manager. *)
Theorem tp_sl_at_most_once (st0 : state) (ops : list op) (idem : string) :
  calls st0 = [] ->
  (tp_sl_calls idem (run cfg ops st0) <= 1)%nat /\
  (forall ex inst_id td_mode cl info force_sz st,
     kv st !! tp_sl_key idem = Some "1" ->
     _after_fill_set_tp_sl ex idem inst_id td_mode cl info force_sz st = st) /\
  (forall ex inst_id td_mode cl info force_sz st,
     kv st !! tp_sl_key idem <> Some "1" ->
     kv (_after_fill_set_tp_sl ex idem inst_id td_mode cl info force_sz st)
       !! tp_sl_key idem = Some "1" ->
     exists rq r, place_tp_sl_algo ex rq = Ok r /\
       calls (_after_fill_set_tp_sl ex idem inst_id td_mode cl info force_sz st) =
       (calls st ++ [TpSl idem rq])%list) /\
  (forall st o,
     kv st !! tp_sl_key idem <> Some "1" ->
     kv (step cfg st o) !! tp_sl_key idem = Some "1" ->
     exists env rq r, o = Housekeep env /\ place_tp_sl_algo (he_ex env) rq = Ok r /\
       last (calls (step cfg st o)) = Some (TpSl idem rq)).
Proof.
  intros Hc. split; [| split; [| split]].
  - assert (Hinv : at_most_once (tp_sl_calls idem st0) (done st0 idem)).
    { left. unfold tp_sl_calls. rewrite Hc. reflexivity. }
    destruct (run_tp_sl_calls ops st0 idem Hinv) as [-> | [-> _]]; lia.
  - intros ex inst_id td_mode cl info force_sz st Hf.
    unfold _after_fill_set_tp_sl. rewrite (bool_decide_eq_true_2 _ Hf). reflexivity.
  - intros ex inst_id td_mode cl info force_sz st Hn.
    destruct (after_fill_shape ex idem inst_id td_mode cl info force_sz st)
      as [-> | (_ & rq & _ & [[-> _] | [-> [r Hr]]])]; [contradiction | |].
    + ledger. contradiction.
    + intros _. exists rq, r. split; [exact Hr | reflexivity].
  - intros st o Hn Hs. destruct o as [env sig bar | env]; cbn [step] in Hs |- *.
    + rewrite on_signal_flag in Hs. contradiction.
    + destruct (housekeep_flag env st idem Hn Hs) as (rq & r & Hr & Hl).
      exists env, rq, r. split; [reflexivity |]. split; [exact Hr | exact Hl].
Qed.

(** *** The lifecycle of a pending order *)

Ltac skip_returns st :=
  repeat match goal with
         | |- context [if ?b then (st, None) else _] => destruct b; [reflexivity |]
         end.

(** X1: a signal whose action is neither [OPEN_LONG] nor [OPEN_SHORT]
    (a close signal, or any other text that starts with [OPEN]), or whose
    idempotency key is empty, leaves the ledger and the calls as they are. *)
Theorem only_open_signals (env : signal_env) (sig : signal) (bar : list (string * json))
    (st : state) :
  (action sig <> "OPEN_LONG" /\ action sig <> "OPEN_SHORT") \/ idempotency_key sig = "" ->
  on_signal cfg env sig bar st = (st, None).
Proof.
  intros [[Hl Hs] | Hk]; unfold on_signal.
  - skip_returns st.
    unfold direction.
    apply String.eqb_neq in Hl, Hs. rewrite Hl, Hs. reflexivity.
  - rewrite Hk. cbn [str_truthy negb].
    destruct (negb (String.prefix "OPEN" (action sig))); reflexivity.
Qed.

(** The outcomes of [on_signal] that issue a submission, with the answer of
    the exchange. *)
Lemma on_signal_outcomes (env : signal_env) (sig : signal) (bar : list (string * json))
    (st : state) :
  let idem := idempotency_key sig in
  let st' := fst (on_signal cfg env sig bar st) in
  calls st' = calls st \/
  exists cl rq t,
    or_cl_ord_id rq = cl /\
    let st1 := set_kv (_pending_ts_key idem) t
                 (set_kv (_pending_key idem) cl
                    (set_kv "pending_current_idem" idem st)) in
    ((exists e v, place_market_with_tp_sl (se_ex env) rq = Raise e /\
        st' = set_kv (_done_key idem) "1"
                (set_kv _reject_ts_key v (_cleanup_pending idem (issue (Submit idem rq) st1)))) \/
     (exists r v, place_market_with_tp_sl (se_ex env) rq = Ok r /\
        st' = set_kv "last_trade_ts" v
                (issue (SaveOrder cl) (issue (Submit idem rq) st1)))).
Proof.
  intros idem st'. subst st'. unfold on_signal. fold idem.
  repeat match goal with
         | |- context [if ?b then (st, None) else _] => destruct b; [left; reflexivity |]
         end.
  destruct (direction (action sig)) as [[pos_side side] |]; [| left; reflexivity].
  repeat match goal with
         | |- context [if ?b then (st, None) else _] => destruct b; [left; reflexivity |]
         end.
  destruct (calc_size_by_risk _ _) as [raw_sz | e]; [| left; reflexivity].
  repeat match goal with
         | |- context [if ?b then (st, None) else _] => destruct b; [left; reflexivity |]
         end.
  destruct (negb (_margin_gate _ _ _ _ _ _)); [left; reflexivity |].
  destruct (calc_tp_sl _ _ _) as [[tp sl] | e]; [| left; reflexivity].
  destruct (make_cl_ord_id idem (now_cl_ord_id env)) as [cl | e]; [| left; reflexivity].
  right.
  match goal with
  | |- context [place_market_with_tp_sl (se_ex env) ?r] => set (rq := r)
  end.
  exists cl, rq, (str_of_float (now_pending env)). split; [reflexivity |].
  destruct (place_market_with_tp_sl (se_ex env) rq) as [r | e] eqn:Hp.
  - right. exists r. eexists. split; [reflexivity | reflexivity].
  - left. exists e. eexists. split; [reflexivity | reflexivity].
Qed.


Lemma housekeep_idle (env : housekeep_env) (st : state) :
  kv st !! "pending_current_idem" = None -> housekeep cfg env st = st.
Proof. intros Hc. unfold housekeep. rewrite Hc. reflexivity. Qed.


Lemma calls_extended (l ext1 ext2 : list event) :
  (l ++ ext1 = l ++ ext2)%list -> ext1 = ext2.
Proof. apply app_inv_head. Qed.

Lemma calls_same (l ext : list event) : l = (l ++ ext)%list -> ext = [].
Proof.
  intros E. rewrite <- (app_nil_r l) in E at 1. apply app_inv_head in E.
  symmetry. exact E.
Qed.

Ltac trace_in H :=
  unfold _cleanup_pending in H;
  cbn [calls set_kv del_kv issue] in H;
  rewrite <- ?app_assoc in H; cbn [app] in H.

(** X2: when the submission is the last call of [on_signal] (nothing was
    saved after it), the exchange raised on that very request; the key is
    then done, its two pending entries and [pending_current_idem] are
    gone, a reject timestamp is recorded, and every housekeeping pass that
    follows leaves the state as it is. *)
Theorem rejected_submission_cleans_up (env : signal_env) (sig : signal)
    (bar : list (string * json)) (st : state) (rq : order_request) :
  calls (fst (on_signal cfg env sig bar st)) =
    (calls st ++ [Submit (idempotency_key sig) rq])%list ->
  (exists e, place_market_with_tp_sl (se_ex env) rq = Raise e) /\
  done (fst (on_signal cfg env sig bar st)) (idempotency_key sig) /\
  kv (fst (on_signal cfg env sig bar st)) !! "pending_current_idem" = None /\
  kv (fst (on_signal cfg env sig bar st)) !! _pending_key (idempotency_key sig) = None /\
  kv (fst (on_signal cfg env sig bar st)) !! _pending_ts_key (idempotency_key sig) = None /\
  is_Some (kv (fst (on_signal cfg env sig bar st)) !! _reject_ts_key) /\
  (forall env', housekeep cfg env' (fst (on_signal cfg env sig bar st)) =
                fst (on_signal cfg env sig bar st)).
Proof.
  intros Hc.
  destruct (on_signal_outcomes env sig bar st)
    as [Hs | (cl & rq' & t & Hcl & [(e & v & Hp & Hst) | (r & v & Hp & Hst)])].
  - rewrite Hs in Hc. apply calls_same in Hc. discriminate Hc.
  - rewrite Hst in Hc |- *. trace_in Hc. apply calls_extended in Hc.
    injection Hc as <-.
    assert (Hcur : kv (set_kv (_done_key (idempotency_key sig)) "1"
                     (set_kv _reject_ts_key v
                        (_cleanup_pending (idempotency_key sig)
                           (issue (Submit (idempotency_key sig) rq')
                              (set_kv (_pending_ts_key (idempotency_key sig)) t
                                 (set_kv (_pending_key (idempotency_key sig)) cl
                                    (set_kv "pending_current_idem" (idempotency_key sig) st)))))))
                   !! "pending_current_idem" = None)
      by (ledger; reflexivity).
    split; [exists e; exact Hp |].
    split; [unfold done; ledger; reflexivity |].
    split; [exact Hcur |].
    split; [ledger; reflexivity |].
    split; [ledger; reflexivity |].
    split; [exists v; ledger; reflexivity |].
    intros env'. apply housekeep_idle. exact Hcur.
  - rewrite Hst in Hc. trace_in Hc. apply calls_extended in Hc. discriminate Hc.
Qed.

Lemma after_fill_calls (ex : exchange) (idem inst_id td_mode cl : string) (info : json)
    (force_sz : option float) (st : state) :
  exists ext,
    calls (_after_fill_set_tp_sl ex idem inst_id td_mode cl info force_sz st) =
    (calls st ++ ext)%list.
Proof.
  destruct (after_fill_shape ex idem inst_id td_mode cl info force_sz st)
    as [-> | (_ & rq & _ & [[-> _] | [-> _]])].
  - exists []. symmetry. apply app_nil_r.
  - eexists. reflexivity.
  - eexists. reflexivity.
Qed.

(** X3: when [on_signal] submits an order and saves it, the exchange
    accepted the request, the ledger names the key as the current pending
    one and holds the client order id the request carried, and a
    housekeeping pass that follows issues no call at all or starts with the
    lookup of that same client order id. *)
Theorem accepted_signal_tracked (env : signal_env) (sig : signal)
    (bar : list (string * json)) (st : state) (rq : order_request) (cl : string) :
  calls (fst (on_signal cfg env sig bar st)) =
    (calls st ++ [Submit (idempotency_key sig) rq; SaveOrder cl])%list ->
  (exists r, place_market_with_tp_sl (se_ex env) rq = Ok r) /\
  or_cl_ord_id rq = cl /\
  kv (fst (on_signal cfg env sig bar st)) !! "pending_current_idem" =
    Some (idempotency_key sig) /\
  kv (fst (on_signal cfg env sig bar st)) !! _pending_key (idempotency_key sig) = Some cl /\
  (forall env',
     calls (housekeep cfg env' (fst (on_signal cfg env sig bar st))) =
       calls (fst (on_signal cfg env sig bar st)) \/
     exists rest,
       calls (housekeep cfg env' (fst (on_signal cfg env sig bar st))) =
         (calls (fst (on_signal cfg env sig bar st)) ++ Lookup cl :: rest)%list).
Proof.
  intros Hc.
  destruct (on_signal_outcomes env sig bar st)
    as [Hs | (cl' & rq' & t & Hcl & [(e & v & Hp & Hst) | (r & v & Hp & Hst)])].
  - rewrite Hs in Hc. apply calls_same in Hc. discriminate Hc.
  - rewrite Hst in Hc. trace_in Hc. apply calls_extended in Hc. discriminate Hc.
  - rewrite Hst in Hc |- *. trace_in Hc. apply calls_extended in Hc.
    injection Hc as <- <-.
    set (st' := set_kv "last_trade_ts" v _).
    assert (Hcur : kv st' !! "pending_current_idem" = Some (idempotency_key sig))
      by (subst st'; ledger; reflexivity).
    assert (Hm : kv st' !! _pending_key (idempotency_key sig) = Some cl')
      by (subst st'; ledger; reflexivity).
    split; [exists r; exact Hp |]. split; [exact Hcl |].
    split; [exact Hcur |]. split; [exact Hm |].
    intros env'. clearbody st'. unfold housekeep. rewrite Hcur, Hm.
    cbn [default].
    repeat match goal with
           | |- context [if ?b then st' else _] => destruct b; [left; reflexivity |]
           end.
    repeat match goal with
           | |- context [if ?b then _cleanup_pending _ st' else _] =>
               destruct b; [left; reflexivity |]
           end.
    repeat match goal with
           | |- context [if ?b then st' else _] => destruct b; [left; reflexivity |]
           end.
    right. change (id cl') with cl'.
    destruct (query_order _ _ _) as [[[info state] acc_fill] | e].
    2: { eexists. unfold _cleanup_pending. cbn [calls set_kv del_kv issue]. reflexivity. }
    destruct (String.eqb state "filled").
    { cbn [orb]. unfold _cleanup_pending. cbn [calls set_kv del_kv].
      match goal with
      | |- context [_after_fill_set_tp_sl ?ex ?i ?a ?b ?c ?d ?f ?s] =>
          destruct (after_fill_calls ex i a b c d f s) as [ext ->]
      end.
      cbn [calls issue]. rewrite <- app_assoc. eexists. reflexivity. }
    destruct (String.eqb state "canceled").
    { cbn [orb]. eexists. unfold _cleanup_pending. cbn [calls set_kv del_kv issue].
      reflexivity. }
    cbn [orb].
    destruct (String.eqb state "partially_filled").
    { unfold _cleanup_pending. cbn [calls set_kv del_kv].
      match goal with
      | |- context [_after_fill_set_tp_sl ?ex ?i ?a ?b ?c ?d ?f ?s] =>
          destruct (after_fill_calls ex i a b c d f s) as [ext ->]
      end.
      cbn [calls issue]. rewrite <- !app_assoc. eexists. reflexivity. }
    destruct (cancel_on_timeout cfg).
    + cbn [calls issue]. rewrite <- app_assoc. eexists. reflexivity.
    + eexists. reflexivity.
Qed.


(** X4: a housekeeping pass places a conditional TP/SL order for a key
    only if that key is the current pending one, its timeout has elapsed,
    and the exchange, asked for the order under the recorded client order
    id, reported it filled or partially filled. *)
Theorem tp_sl_only_after_fill (env : housekeep_env) (st : state) (a : string) :
  tp_sl_calls a (housekeep cfg env st) = S (tp_sl_calls a st) ->
  kv st !! "pending_current_idem" = Some a /\
  exists cl info state acc_fill,
    kv st !! _pending_key a = Some cl /\
    query_order (he_ex env) (strip (text_or (trade_inst_id cfg) "")) cl =
      Ok (info, state, acc_fill) /\
    (state = "filled" \/ state = "partially_filled") /\
    (he_now env - entry_or (get_kv_float st (_pending_ts_key a)) 0
       <? entry_or (trade_order_timeout_sec cfg) 60)%float = false.
Proof.
  unfold housekeep.
  destruct (kv st !! "pending_current_idem") as [idem |] eqn:Hcur; [| intros Hc; lia].
  destruct (negb (str_truthy idem)); [intros Hc; lia |].
  destruct (bool_decide _); [count; intros Hc; lia |].
  destruct (kv st !! _pending_key idem) as [cl |] eqn:Hm;
    cbn [opt_str_truthy negb default]; [| count; intros Hc; lia].
  destruct (negb (str_truthy cl)); [count; intros Hc; lia |].
  change (id cl) with cl.
  destruct (_ <=? 0)%float; [intros Hc; lia |].
  destruct (_ <? _)%float eqn:Ht; [intros Hc; lia |].
  destruct (query_order _ _ _) as [[[info state] acc_fill] | e] eqn:Hq;
    [| count; intros Hc; lia].
  destruct (String.eqb_spec state "filled") as [Hf | Hf].
  { cbn [orb]. count. intros Hc.
    match type of Hc with
    | context [_after_fill_set_tp_sl ?ex ?i ?x ?y ?c ?d ?f ?s] =>
        destruct (after_fill_tp_sl_calls ex i x y c d f s a) as [Hk | [-> Hk]];
        rewrite Hk in Hc; revert Hc; count; intros Hc; [lia |]
    end.
    split; [reflexivity |]. exists cl, info, state, acc_fill.
    split; [exact Hm |]. split; [exact Hq |]. split; [left; exact Hf | exact Ht]. }
  destruct (String.eqb state "canceled"); [cbn [orb]; count; intros Hc; lia |].
  cbn [orb].
  destruct (String.eqb_spec state "partially_filled") as [Hpf | Hpf].
  { count. intros Hc.
    match type of Hc with
    | context [_after_fill_set_tp_sl ?ex ?i ?x ?y ?c ?d ?f ?s] =>
        destruct (after_fill_tp_sl_calls ex i x y c d f s a) as [Hk | [-> Hk]];
        rewrite Hk in Hc; revert Hc; count; intros Hc; [lia |]
    end.
    split; [reflexivity |]. exists cl, info, state, acc_fill.
    split; [exact Hm |]. split; [exact Hq |]. split; [right; exact Hpf | exact Ht]. }
  destruct (cancel_on_timeout cfg); count; intros Hc; lia.
Qed.


(** A pass that marks a key done ends with the cleanup of that key. *)
Lemma housekeep_newly_done (env : housekeep_env) (st : state) (idem : string) :
  ~ done st idem ->
  done (housekeep cfg env st) idem ->
  kv st !! "pending_current_idem" = Some idem /\
  exists st2, housekeep cfg env st = _cleanup_pending idem (set_kv (_done_key idem) "1" st2).
Proof.
  unfold done. intros Hn Hd.
  destruct (housekeep_shape env st)
    as [E | (cur & Hcur & [[E _] | [[cl [E | E]] | (_ & cl & st1 & st2 & H1 & H2 & E)]])];
    rewrite E in Hd;
    try (revert Hd; ledger; intros Hd; contradiction).
  assert (Hst2 : kv st2 !! _done_key idem = kv st !! _done_key idem).
  { destruct H2 as [-> | (i & t & info & f & ->)];
      [| rewrite after_fill_lookup by (intros E'; key_clash E')];
      destruct H1 as [-> | ->]; reflexivity. }
  revert Hd. ledger; [intros _ | rewrite Hst2; intros Hd; contradiction].
  subst cur. split; [exact Hcur |]. exists st2. exact E.
Qed.

(** X5: a housekeeping pass that marks a key done was working on the
    current pending key, removes [pending_current_idem] and the two pending
    entries of the key, and leaves a state that later passes do not
    change. *)
Theorem housekeep_settles (env : housekeep_env) (st : state) (idem : string) :
  ~ done st idem ->
  done (housekeep cfg env st) idem ->
  kv st !! "pending_current_idem" = Some idem /\
  kv (housekeep cfg env st) !! "pending_current_idem" = None /\
  kv (housekeep cfg env st) !! _pending_key idem = None /\
  kv (housekeep cfg env st) !! _pending_ts_key idem = None /\
  (forall env', housekeep cfg env' (housekeep cfg env st) = housekeep cfg env st).
Proof.
  intros Hn Hd.
  destruct (housekeep_newly_done env st idem Hn Hd) as [Hcur [st2 E]].
  assert (Hgone : kv (housekeep cfg env st) !! "pending_current_idem" = None)
    by (rewrite E; ledger; reflexivity).
  split; [exact Hcur |]. split; [exact Hgone |].
  split; [rewrite E; ledger; reflexivity |].
  split; [rewrite E; ledger; reflexivity |].
  intros env'. apply housekeep_idle. exact Hgone.
Qed.

(** X6: a housekeeping pass touches only the key that
    [pending_current_idem] names: for any other key the pending entries, the
    done entry and the TP/SL flag are unchanged and no conditional order is
    called. *)
Theorem housekeep_frame (env : housekeep_env) (st : state) (a : string) :
  kv st !! "pending_current_idem" <> Some a ->
  kv (housekeep cfg env st) !! _pending_key a = kv st !! _pending_key a /\
  kv (housekeep cfg env st) !! _pending_ts_key a = kv st !! _pending_ts_key a /\
  kv (housekeep cfg env st) !! _done_key a = kv st !! _done_key a /\
  kv (housekeep cfg env st) !! tp_sl_key a = kv st !! tp_sl_key a /\
  tp_sl_calls a (housekeep cfg env st) = tp_sl_calls a st.
Proof.
  intros Hne.
  destruct (housekeep_shape env st)
    as [E | (cur & Hcur & [[E _] | [[cl [E | E]] | (_ & cl & st1 & st2 & H1 & H2 & E)]])];
    rewrite E; clear E.
  - repeat split; reflexivity.
  - assert (Hac : a <> cur) by (intros ->; contradiction).
    repeat split; ledger; try reflexivity; try congruence.
  - repeat split; count; try reflexivity; lia.
  - repeat split; count; try reflexivity; lia.
  - assert (Hac : a <> cur) by (intros ->; contradiction).
    assert (Hst1 : forall j, kv st1 !! j = kv st !! j)
      by (intros j; destruct H1 as [-> | ->]; reflexivity).
    assert (Hc1 : tp_sl_calls a st1 = tp_sl_calls a st)
      by (destruct H1 as [-> | ->]; count; lia).
    assert (Hst2 : forall j, j <> tp_sl_key cur -> kv st2 !! j = kv st !! j).
    { intros j Hj. destruct H2 as [-> | (i & t & info & f & ->)];
        [| rewrite after_fill_lookup by exact Hj]; apply Hst1. }
    assert (Hc2 : tp_sl_calls a st2 = tp_sl_calls a st).
    { destruct H2 as [-> | (i & t & info & f & ->)]; [exact Hc1 |].
      destruct (after_fill_tp_sl_calls (he_ex env) cur i t cl info f st1 a)
        as [Hk | [Hk _]]; [congruence | contradiction]. }
    repeat split; count; ledger; try congruence;
      try (apply Hst2; intros E'; key_clash E'; congruence).
Qed.

End OrderLedger.

(** ** The timeout scenario, run *)

Section TimeoutScenario.

Import OrderManager.
Local Open Scope string_scope.

(** One submission for the two signals; no conditional order before the
    timeout, one at T0+61, none added by the later pass; the key done and
    flagged. *)
Example timeout_scenario_ex :
  submissions "k1" (Sample.ledger_after 5) = 1%nat /\
  tp_sl_calls "k1" (Sample.ledger_after 2) = 0%nat /\
  tp_sl_calls "k1" (Sample.ledger_after 3) = 1%nat /\
  tp_sl_calls "k1" (Sample.ledger_after 5) = 1%nat /\
  kv (Sample.ledger_after 3) !! _done_key "k1" = Some "1" /\
  kv (Sample.ledger_after 3) !! tp_sl_key "k1" = Some "1".
Proof. vm_compute. repeat split. Qed.

Lemma on_signal_idempotent_witness :
  markers_set (kv Sample.empty_ledger) /\
  calls Sample.empty_ledger = [] /\
  is_Some (kv (Sample.ledger_after 1) !! _pending_key "k1") /\
  on_signal Sample.cfg (Sample.signal_at 1700000001) (Sample.long_signal "k1")
    (Sample.bar 50010) (Sample.ledger_after 1) = (Sample.ledger_after 1, None) /\
  (submissions "k1" (Sample.ledger_after 1) <= 1)%nat.
Proof.
  assert (Hm : markers_set (kv Sample.empty_ledger)).
  { intros idem v Hv. vm_compute in Hv. discriminate Hv. }
  assert (Hp : is_Some (kv (Sample.ledger_after 1) !! _pending_key "k1")).
  { eexists. vm_compute. reflexivity. }
  destruct (on_signal_idempotent Sample.cfg Sample.empty_ledger
              (firstn 1 Sample.timeout_run) (Sample.signal_at 1700000001)
              (Sample.long_signal "k1") (Sample.bar 50010) Hm eq_refl)
    as [Hno Hsub].
  split; [exact Hm |]. split; [reflexivity |]. split; [exact Hp |].
  split; [apply Hno; right; exact Hp | apply Hsub].
Defined.

Lemma tp_sl_at_most_once_witness :
  calls Sample.empty_ledger = [] /\
  (tp_sl_calls "k1" (Sample.ledger_after 5) <= 1)%nat.
Proof.
  split; [reflexivity |].
  exact (proj1 (tp_sl_at_most_once Sample.cfg Sample.empty_ledger
                  (firstn 5 Sample.timeout_run) "k1" eq_refl)).
Defined.

End TimeoutScenario.

(** ** The lifecycle of a pending order, on the scenarios *)

Section LifecycleScenarios.

Import OrderManager.
Local Open Scope string_scope.

Lemma only_open_signals_witness :
  ((action Scenario.close_signal <> "OPEN_LONG" /\
    action Scenario.close_signal <> "OPEN_SHORT") \/
   idempotency_key Scenario.close_signal = "") /\
  on_signal Sample.cfg (Sample.signal_at 1700000000) Scenario.close_signal
    (Sample.bar 50000) (Sample.ledger_after 1) = (Sample.ledger_after 1, None).
Proof.
  assert (Hc : (action Scenario.close_signal <> "OPEN_LONG" /\
                action Scenario.close_signal <> "OPEN_SHORT") \/
               idempotency_key Scenario.close_signal = "")
    by (left; split; intros E; discriminate E).
  split; [exact Hc |].
  exact (only_open_signals Sample.cfg (Sample.signal_at 1700000000) Scenario.close_signal
           (Sample.bar 50000) (Sample.ledger_after 1) Hc).
Defined.

Lemma rejected_submission_cleans_up_witness :
  calls (fst (on_signal Sample.cfg (Scenario.refused_at 1700000000)
                (Sample.long_signal "k1") (Sample.bar 50000) Sample.empty_ledger)) =
    (calls Sample.empty_ledger ++ [Submit "k1" Scenario.first_order])%list /\
  done (fst (on_signal Sample.cfg (Scenario.refused_at 1700000000)
               (Sample.long_signal "k1") (Sample.bar 50000) Sample.empty_ledger)) "k1" /\
  kv (fst (on_signal Sample.cfg (Scenario.refused_at 1700000000)
             (Sample.long_signal "k1") (Sample.bar 50000) Sample.empty_ledger))
    !! "pending_current_idem" = None.
Proof.
  assert (Hc : calls (fst (on_signal Sample.cfg (Scenario.refused_at 1700000000)
                             (Sample.long_signal "k1") (Sample.bar 50000)
                             Sample.empty_ledger)) =
               (calls Sample.empty_ledger ++ [Submit "k1" Scenario.first_order])%list)
    by (vm_compute; reflexivity).
  destruct (rejected_submission_cleans_up Sample.cfg (Scenario.refused_at 1700000000)
              (Sample.long_signal "k1") (Sample.bar 50000) Sample.empty_ledger
              Scenario.first_order Hc) as (_ & Hd & Hp & _).
  split; [exact Hc |]. split; [exact Hd | exact Hp].
Defined.

Lemma accepted_signal_tracked_witness :
  calls (fst (on_signal Sample.cfg (Sample.signal_at 1700000000)
                (Sample.long_signal "k1") (Sample.bar 50000) Sample.empty_ledger)) =
    (calls Sample.empty_ledger
       ++ [Submit "k1" Scenario.first_order; SaveOrder "Qa2ab1959c1c3bfa295b000000"])%list /\
  kv (fst (on_signal Sample.cfg (Sample.signal_at 1700000000)
             (Sample.long_signal "k1") (Sample.bar 50000) Sample.empty_ledger))
    !! _pending_key "k1" = Some "Qa2ab1959c1c3bfa295b000000".
Proof.
  assert (Hc : calls (fst (on_signal Sample.cfg (Sample.signal_at 1700000000)
                             (Sample.long_signal "k1") (Sample.bar 50000)
                             Sample.empty_ledger)) =
               (calls Sample.empty_ledger
                  ++ [Submit "k1" Scenario.first_order;
                      SaveOrder "Qa2ab1959c1c3bfa295b000000"])%list)
    by (vm_compute; reflexivity).
  destruct (accepted_signal_tracked Sample.cfg (Sample.signal_at 1700000000)
              (Sample.long_signal "k1") (Sample.bar 50000) Sample.empty_ledger
              Scenario.first_order "Qa2ab1959c1c3bfa295b000000" Hc) as (_ & _ & _ & Hm & _).
  split; [exact Hc | exact Hm].
Defined.

Lemma tp_sl_only_after_fill_witness :
  tp_sl_calls "k1"
    (housekeep Sample.cfg (Sample.tick_at 1700000061 Sample.filled_order)
       (Sample.ledger_after 2)) = S (tp_sl_calls "k1" (Sample.ledger_after 2)) /\
  kv (Sample.ledger_after 2) !! "pending_current_idem" = Some "k1".
Proof.
  assert (Hc : tp_sl_calls "k1"
                 (housekeep Sample.cfg (Sample.tick_at 1700000061 Sample.filled_order)
                    (Sample.ledger_after 2)) = S (tp_sl_calls "k1" (Sample.ledger_after 2)))
    by (vm_compute; reflexivity).
  split; [exact Hc |].
  exact (proj1 (tp_sl_only_after_fill Sample.cfg
                  (Sample.tick_at 1700000061 Sample.filled_order)
                  (Sample.ledger_after 2) "k1" Hc)).
Defined.

Lemma housekeep_settles_witness :
  ~ done (Sample.ledger_after 2) "k1" /\
  done (housekeep Sample.cfg (Sample.tick_at 1700000061 Sample.filled_order)
          (Sample.ledger_after 2)) "k1" /\
  kv (housekeep Sample.cfg (Sample.tick_at 1700000061 Sample.filled_order)
        (Sample.ledger_after 2)) !! _pending_key "k1" = None.
Proof.
  assert (Hn : ~ done (Sample.ledger_after 2) "k1")
    by (unfold done; vm_compute; intros E; discriminate E).
  assert (Hd : done (housekeep Sample.cfg (Sample.tick_at 1700000061 Sample.filled_order)
                       (Sample.ledger_after 2)) "k1")
    by (unfold done; vm_compute; reflexivity).
  destruct (housekeep_settles Sample.cfg (Sample.tick_at 1700000061 Sample.filled_order)
              (Sample.ledger_after 2) "k1" Hn Hd) as (_ & _ & Hm & _).
  split; [exact Hn |]. split; [exact Hd | exact Hm].
Defined.

Lemma housekeep_frame_witness :
  kv (Sample.ledger_after 2) !! "pending_current_idem" <> Some "k2" /\
  kv (housekeep Sample.cfg (Sample.tick_at 1700000061 Sample.filled_order)
        (Sample.ledger_after 2)) !! _done_key "k2" =
  kv (Sample.ledger_after 2) !! _done_key "k2".
Proof.
  assert (Hn : kv (Sample.ledger_after 2) !! "pending_current_idem" <> Some "k2")
    by (vm_compute; intros E; discriminate E).
  destruct (housekeep_frame Sample.cfg (Sample.tick_at 1700000061 Sample.filled_order)
              (Sample.ledger_after 2) "k2" Hn) as (_ & _ & Hd & _).
  split; [exact Hn | exact Hd].
Defined.

End LifecycleScenarios.

(** ** The retry decorator *)

Section RetryFacts.

Import Retry.
Context {A : Type}.
Variable sleep : float -> result unit.
Variable exceptions : exn -> bool.

Lemma attempts_step (left made : nat) (delay backoff : float) (fn : nat -> result A) (e : exn) :
  fn made = Raise e -> exceptions e = true -> sleep delay = Ok tt ->
  attempts sleep exceptions (S (S left)) made delay backoff fn =
  {| returned := returned (attempts sleep exceptions (S left) (S made) (delay * backoff)%float backoff fn);
     calls := calls (attempts sleep exceptions (S left) (S made) (delay * backoff)%float backoff fn);
     sleeps := delay :: sleeps (attempts sleep exceptions (S left) (S made) (delay * backoff)%float backoff fn) |}.
Proof.
  intros Hf He Hs.
  change (attempts sleep exceptions (S (S left)) made delay backoff fn)
    with (match fn made with
          | Ok a => {| returned := Ok a; calls := S made; sleeps := [] |}
          | Raise e =>
              if negb (exceptions e) then {| returned := Raise e; calls := S made; sleeps := [] |}
              else
                match sleep delay with
                | Raise e' => {| returned := Raise e'; calls := S made; sleeps := [] |}
                | Ok _ =>
                    let o := attempts sleep exceptions (S left) (S made) (delay * backoff)%float
                               backoff fn in
                    {| returned := returned o; calls := calls o; sleeps := delay :: sleeps o |}
                end
          end).
  rewrite Hf, He, Hs. reflexivity.
Qed.

Lemma caught_inv (r : result A) : caught exceptions r -> exists e, r = Raise e /\ exceptions e = true.
Proof. destruct r as [a | e]; [contradiction |]. intros He. exists e. split; [reflexivity | exact He]. Qed.

Lemma attempts_success (fn : nat -> result A) (backoff : float) (a : A) :
  forall (k left made : nat) (delay : float),
    (k < left)%nat ->
    (forall j, (j < k)%nat -> caught exceptions (fn (made + j)%nat)) ->
    (forall j, (j < k)%nat -> sleep (pause j delay backoff) = Ok tt) ->
    fn (made + k)%nat = Ok a ->
    returned (attempts sleep exceptions left made delay backoff fn) = Ok a /\
    calls (attempts sleep exceptions left made delay backoff fn) = S (made + k) /\
    sleeps (attempts sleep exceptions left made delay backoff fn) =
      map (fun j => pause j delay backoff) (seq 0 k).
Proof.
  induction k as [| k IH]; intros left made delay Hk Hfail Hsleep Hok.
  - destruct left as [| left']; [lia |]. cbn [attempts].
    rewrite Nat.add_0_r in Hok. rewrite Hok. cbn.
    repeat split; try (rewrite Nat.add_0_r; reflexivity).
  - destruct left as [| [| left'']]; [lia | lia |].
    destruct (caught_inv _ (Hfail 0%nat ltac:(lia))) as (e & He & Hc).
    rewrite Nat.add_0_r in He.
    pose proof (Hsleep 0%nat ltac:(lia)) as Hs0. cbn [pause] in Hs0.
    rewrite (attempts_step _ _ _ _ _ e He Hc Hs0).
    destruct (IH (S left'') (S made) (delay * backoff)%float) as (Hr & Hcalls & Hs).
    + lia.
    + intros j Hj. replace (S made + j)%nat with (made + S j)%nat by lia.
      apply Hfail. lia.
    + intros j Hj. apply (Hsleep (S j)). lia.
    + replace (S made + k)%nat with (made + S k)%nat by lia. exact Hok.
    + cbn [returned calls sleeps]. rewrite Hr, Hcalls, Hs.
      repeat split; try (f_equal; lia).
      cbn [seq map pause]. f_equal. rewrite <- seq_shift, map_map. reflexivity.
Qed.

Lemma attempts_exhausted (fn : nat -> result A) (backoff : float) :
  forall (left made : nat) (delay : float),
    (forall j, (j <= left)%nat -> caught exceptions (fn (made + j)%nat)) ->
    (forall j, (j < left)%nat -> sleep (pause j delay backoff) = Ok tt) ->
    exists e, fn (made + left)%nat = Raise e /\
      returned (attempts sleep exceptions (S left) made delay backoff fn) = Raise e /\
      calls (attempts sleep exceptions (S left) made delay backoff fn) = S (made + left) /\
      sleeps (attempts sleep exceptions (S left) made delay backoff fn) =
        map (fun j => pause j delay backoff) (seq 0 left).
Proof.
  induction left as [| left IH]; intros made delay Hfail Hsleep.
  - destruct (caught_inv _ (Hfail 0%nat ltac:(lia))) as (e & He & Hc).
    rewrite Nat.add_0_r in He |- *.
    cbn [attempts]. rewrite He, Hc. exists e. repeat split.
  - destruct (caught_inv _ (Hfail 0%nat ltac:(lia))) as (e0 & He0 & Hc0).
    rewrite Nat.add_0_r in He0.
    destruct (IH (S made) (delay * backoff)%float) as (e & He & Hr & Hc & Hl).
    { intros j Hj. replace (S made + j)%nat with (made + S j)%nat by lia.
      apply Hfail. lia. }
    { intros j Hj. apply (Hsleep (S j)). lia. }
    exists e. replace (made + S left)%nat with (S made + left)%nat by lia.
    split; [exact He |].
    pose proof (Hsleep 0%nat ltac:(lia)) as Hs0. cbn [pause] in Hs0.
    rewrite (attempts_step _ _ _ _ _ e0 He0 Hc0 Hs0).
    cbn [returned calls sleeps]. rewrite Hr, Hc, Hl. repeat split.
    cbn [seq map pause]. f_equal. rewrite <- seq_shift, map_map. reflexivity.
Qed.

Lemma attempts_refused (fn : nat -> result A) (backoff : float) (e' : exn) :
  forall (k left made : nat) (delay : float),
    (S k < left)%nat ->
    (forall j, (j <= k)%nat -> caught exceptions (fn (made + j)%nat)) ->
    (forall j, (j < k)%nat -> sleep (pause j delay backoff) = Ok tt) ->
    sleep (pause k delay backoff) = Raise e' ->
    returned (attempts sleep exceptions left made delay backoff fn) = Raise e' /\
    calls (attempts sleep exceptions left made delay backoff fn) = S (made + k) /\
    sleeps (attempts sleep exceptions left made delay backoff fn) =
      map (fun j => pause j delay backoff) (seq 0 k).
Proof.
  induction k as [| k IH]; intros left made delay Hk Hfail Hsleep Hrefused.
  - destruct left as [| [| left'']]; [lia | lia |].
    destruct (caught_inv _ (Hfail 0%nat ltac:(lia))) as (e & He & Hc).
    rewrite Nat.add_0_r in He. cbn [pause] in Hrefused.
    cbn [attempts]. rewrite He, Hc, Hrefused. cbn.
    repeat split; rewrite Nat.add_0_r; reflexivity.
  - destruct left as [| [| left'']]; [lia | lia |].
    destruct (caught_inv _ (Hfail 0%nat ltac:(lia))) as (e & He & Hc).
    rewrite Nat.add_0_r in He.
    pose proof (Hsleep 0%nat ltac:(lia)) as Hs0. cbn [pause] in Hs0.
    rewrite (attempts_step _ _ _ _ _ e He Hc Hs0).
    destruct (IH (S left'') (S made) (delay * backoff)%float) as (Hr & Hcalls & Hs).
    + lia.
    + intros j Hj. replace (S made + j)%nat with (made + S j)%nat by lia.
      apply Hfail. lia.
    + intros j Hj. apply (Hsleep (S j)). lia.
    + exact Hrefused.
    + cbn [returned calls sleeps]. rewrite Hr, Hcalls, Hs.
      repeat split; try (f_equal; lia).
      cbn [seq map pause]. f_equal. rewrite <- seq_shift, map_map. reflexivity.
Qed.

(** X7: when the call number [k] of the decorated function is the first
    to succeed, [k < tries], the calls before it fail with exceptions the
    wrapper catches and [time.sleep] accepts the pauses between them, the
    wrapper returns the value of that call after [k + 1] calls and [k]
    pauses, the pause number [j] being [delay] times [backoff] to the
    [j]. *)
Theorem retry_first_success (tries : Z) (delay backoff : float) (fn : nat -> result A)
    (k : nat) (a : A) :
  (Z.of_nat k < tries)%Z ->
  (forall j, (j < k)%nat -> caught exceptions (fn j)) ->
  (forall j, (j < k)%nat -> sleep (pause j delay backoff) = Ok tt) ->
  fn k = Ok a ->
  returned (retry sleep exceptions tries delay backoff fn) = Ok a /\
  calls (retry sleep exceptions tries delay backoff fn) = S k /\
  sleeps (retry sleep exceptions tries delay backoff fn) =
    map (fun j => pause j delay backoff) (seq 0 k).
Proof.
  intros Hk Hfail Hsleep Hok. unfold retry.
  apply (attempts_success fn backoff a k (Z.to_nat tries) 0 delay);
    [lia | exact Hfail | exact Hsleep | exact Hok].
Qed.

(** X8: with [tries >= 1], every call failing with an exception the
    wrapper catches and [time.sleep] accepting the pauses, the wrapper
    calls the function exactly [tries] times, pauses [tries - 1] times, and
    raises the exception of the last call. *)
Theorem retry_exhausted (tries : Z) (delay backoff : float) (fn : nat -> result A) :
  (0 < tries)%Z ->
  (forall j, (Z.of_nat j < tries)%Z -> caught exceptions (fn j)) ->
  (forall j, (Z.of_nat j < tries - 1)%Z -> sleep (pause j delay backoff) = Ok tt) ->
  exists e, fn (Z.to_nat tries - 1)%nat = Raise e /\
    returned (retry sleep exceptions tries delay backoff fn) = Raise e /\
    Z.of_nat (calls (retry sleep exceptions tries delay backoff fn)) = tries /\
    sleeps (retry sleep exceptions tries delay backoff fn) =
      map (fun j => pause j delay backoff) (seq 0 (Z.to_nat tries - 1)).
Proof.
  intros Ht Hfail Hsleep. unfold retry.
  destruct (Z.to_nat tries) as [| left] eqn:E; [lia |].
  destruct (attempts_exhausted fn backoff left 0 delay) as (e & He & Hr & Hc & Hl).
  { intros j Hj. apply Hfail. lia. }
  { intros j Hj. apply Hsleep. lia. }
  exists e. replace (S left - 1)%nat with left by lia.
  split; [exact He |]. split; [exact Hr |]. split; [rewrite Hc; cbn; lia | exact Hl].
Qed.

(** X26: when [time.sleep] refuses the pause after the failed call number
    [k] (a negative or NaN length, or one too long for the clock), with
    tries left, the wrapper raises the exception of [time.sleep], not that
    of the function, and does not call the function again. *)
Theorem retry_pause_refused (tries : Z) (delay backoff : float) (fn : nat -> result A)
    (k : nat) (e : exn) :
  (Z.of_nat k + 1 < tries)%Z ->
  (forall j, (j <= k)%nat -> caught exceptions (fn j)) ->
  (forall j, (j < k)%nat -> sleep (pause j delay backoff) = Ok tt) ->
  sleep (pause k delay backoff) = Raise e ->
  returned (retry sleep exceptions tries delay backoff fn) = Raise e /\
  calls (retry sleep exceptions tries delay backoff fn) = S k /\
  sleeps (retry sleep exceptions tries delay backoff fn) =
    map (fun j => pause j delay backoff) (seq 0 k).
Proof.
  intros Hk Hfail Hsleep Hrefused. unfold retry.
  apply (attempts_refused fn backoff e k (Z.to_nat tries) 0 delay);
    [lia | exact Hfail | exact Hsleep | exact Hrefused].
Qed.

End RetryFacts.

Section RetryScenarios.

Import Retry.
Local Open Scope string_scope.

Lemma retry_first_success_witness :
  (Z.of_nat 2 < 3)%Z /\
  Scenario.flaky 2 = Ok 7%Z /\
  returned (retry Scenario.time_sleep Exception 3 0.5 2 Scenario.flaky) = Ok 7%Z /\
  calls (retry Scenario.time_sleep Exception 3 0.5 2 Scenario.flaky) = 3%nat /\
  sleeps (retry Scenario.time_sleep Exception 3 0.5 2 Scenario.flaky) = [0.5%float; 1%float].
Proof.
  assert (H1 : (Z.of_nat 2 < 3)%Z) by (cbn; lia).
  assert (H2 : forall j, (j < 2)%nat -> caught Exception (Scenario.flaky j)).
  { intros [| [| j]] Hj; [reflexivity | reflexivity | lia]. }
  assert (H3 : forall j, (j < 2)%nat ->
                 Scenario.time_sleep (pause j 0.5 2) = Ok tt).
  { intros [| [| j]] Hj; [vm_compute; reflexivity | vm_compute; reflexivity | lia]. }
  destruct (retry_first_success Scenario.time_sleep Exception 3 0.5 2 Scenario.flaky 2 7%Z
              H1 H2 H3 eq_refl) as (Hr & Hc & Hs).
  split; [exact H1 |]. split; [reflexivity |].
  split; [exact Hr |]. split; [exact Hc |]. rewrite Hs. vm_compute. reflexivity.
Defined.

Lemma retry_exhausted_witness :
  (0 < 3)%Z /\
  exists e, Scenario.failing 2 = Raise e /\
    returned (retry Scenario.time_sleep Exception 3 0.5 2 Scenario.failing) = Raise e /\
    Z.of_nat (calls (retry Scenario.time_sleep Exception 3 0.5 2 Scenario.failing)) = 3%Z /\
    sleeps (retry Scenario.time_sleep Exception 3 0.5 2 Scenario.failing)
    = [0.5%float; 1%float].
Proof.
  assert (H1 : (0 < 3)%Z) by lia.
  assert (H2 : forall j, (Z.of_nat j < 3)%Z -> caught Exception (Scenario.failing j))
    by (intros j _; reflexivity).
  assert (H3 : forall j, (Z.of_nat j < 3 - 1)%Z ->
                 Scenario.time_sleep (pause j 0.5 2) = Ok tt).
  { intros [| [| j]] Hj; [vm_compute; reflexivity | vm_compute; reflexivity | lia]. }
  destruct (retry_exhausted Scenario.time_sleep Exception 3 0.5 2 Scenario.failing H1 H2 H3)
    as (e & He & Hr & Hc & Hs).
  split; [exact H1 |].
  exists e. split; [exact He |]. split; [exact Hr |]. split; [exact Hc |].
  rewrite Hs. vm_compute. reflexivity.
Defined.

(** A negative [delay]: the first pause is refused. *)
Lemma retry_pause_refused_witness :
  (Z.of_nat 0 + 1 < 3)%Z /\
  Scenario.time_sleep (pause 0 (-1) 2)
  = Raise (ValueError "sleep length must be non-negative") /\
  returned (retry Scenario.time_sleep Exception 3 (-1) 2 Scenario.flaky)
  = Raise (ValueError "sleep length must be non-negative") /\
  calls (retry Scenario.time_sleep Exception 3 (-1) 2 Scenario.flaky) = 1%nat.
Proof.
  assert (H1 : (Z.of_nat 0 + 1 < 3)%Z) by (cbn; lia).
  assert (H2 : forall j, (j <= 0)%nat -> caught Exception (Scenario.flaky j)).
  { intros [| j] Hj; [reflexivity | lia]. }
  assert (H3 : forall j, (j < 0)%nat -> Scenario.time_sleep (pause j (-1) 2) = Ok tt)
    by (intros j Hj; lia).
  assert (H4 : Scenario.time_sleep (pause 0 (-1) 2)
               = Raise (ValueError "sleep length must be non-negative"))
    by (vm_compute; reflexivity).
  destruct (retry_pause_refused Scenario.time_sleep Exception 3 (-1) 2 Scenario.flaky 0
              (ValueError "sleep length must be non-negative") H1 H2 H3 H4) as (Hr & Hc & _).
  split; [exact H1 |]. split; [exact H4 |]. split; [exact Hr | exact Hc].
Defined.

End RetryScenarios.

(** ** The account event stream: subscriptions, credentials, other errors *)

Section Stream.

Import PrivateWS.
Local Open Scope string_scope.

Context `{Runtime}.
Variable cfg : config.

Lemma handle_login_success (st : state) :
  _handle_message cfg (Some login_success) st = login_ok st.
Proof. reflexivity. Qed.

Lemma login_ok_twice (st : state) : login_ok (login_ok st) = login_ok st.
Proof.
  unfold login_ok, _subscribe_after_login. cbn.
  destruct (subscribed st); reflexivity.
Qed.

Lemma login_ok_open (st : state) : ws_open (login_ok st) = ws_open st.
Proof. unfold login_ok, _subscribe_after_login. cbn. destruct (subscribed st); reflexivity. Qed.

Lemma deliver_welcomes (k : nat) (st : state) :
  ws_open st = true ->
  deliver cfg (repeat (Some login_success) (S k)) st = login_ok st.
Proof.
  revert st. induction k as [| k IH]; intros st Ho.
  - cbn [repeat deliver]. rewrite Ho. reflexivity.
  - change (repeat (Some login_success) (S (S k)))
      with (Some login_success :: repeat (Some login_success) (S k)).
    cbn [deliver]. rewrite Ho, handle_login_success.
    rewrite IH by (rewrite login_ok_open; exact Ho).
    apply login_ok_twice.
Qed.

(** X10: in a connection where the login is answered by one or more
    success events, the socket is written the login and the three
    subscriptions once each, in that order, and the failure counter is back
    at zero. *)
Theorem subscribes_once_per_connection (k : nat) (st : state) :
  has_credentials cfg = true ->
  sent (_connect_once cfg (welcome_session (S k)) st) =
    (sent st ++ ["login"; "subscribe:account"; "subscribe:positions"; "subscribe:orders"])%list
  /\ login_failures (_connect_once cfg (welcome_session (S k)) st) = 0%nat
  /\ attempts (_connect_once cfg (welcome_session (S k)) st) = S (attempts st)
  /\ disabled (_connect_once cfg (welcome_session (S k)) st) = disabled st
  /\ stopped (_connect_once cfg (welcome_session (S k)) st) = stopped st.
Proof.
  intros Hc. unfold _connect_once, welcome_session.
  cbn [opens messages stop_called].
  rewrite deliver_welcomes
    by (unfold _on_open, _login; rewrite Hc; reflexivity).
  unfold _on_open, _login. rewrite Hc. cbn.
  rewrite <- !app_assoc. repeat split.
Qed.


(** Failing sessions below the threshold: the loop goes on to the next
    session with the counter raised. *)
Lemma failing_sessions_below (code : string) (n : nat) :
  has_credentials cfg = true -> code <> "0" ->
  forall (st : state) (more : list session),
    disabled st = false -> stopped st = false ->
    (Z.of_nat (login_failures st + n) < max_login_failures cfg)%Z ->
    exists st',
      _run_loop cfg (repeat (failing_session code) n ++ more)%list st = _run_loop cfg more st'
      /\ login_failures st' = (login_failures st + n)%nat
      /\ attempts st' = (attempts st + n)%nat
      /\ disabled st' = false /\ stopped st' = false.
Proof.
  intros Hc Hcode. induction n as [| n IH]; intros st more Hd Hs Hmax.
  - exists st. rewrite !Nat.add_0_r. repeat split; assumption.
  - change (repeat (failing_session code) (S n) ++ more)%list
      with (failing_session code :: (repeat (failing_session code) n ++ more))%list.
    rewrite (run_loop_step cfg _ _ _ Hs Hd).
    destruct (failing_session_step cfg code st Hc Hcode) as (Hf & Ha & Hst & _ & Hdis).
    remember (_connect_once cfg (failing_session code) st) as st1 eqn:E. clear E.
    assert (Hd1 : disabled st1 = false).
    { rewrite Hdis, Hd. cbn [orb]. apply Z.leb_gt. lia. }
    assert (Hs1 : stopped st1 = false) by (rewrite Hst; exact Hs).
    rewrite Hs1, Hd1. cbn [orb].
    destruct (IH st1 more Hd1 Hs1) as (st' & E & H1 & H2 & H3 & H4).
    { rewrite Hf. lia. }
    exists st'. rewrite E, H1, H2, Hf, Ha. repeat split; try assumption; lia.
Qed.

Lemma run_loop_end (st : state) :
  disabled st = false -> stopped st = false -> _run_loop cfg [] st = st.
Proof. intros Hd Hs. cbn. rewrite Hs, Hd. reflexivity. Qed.

(** X11: the breaker counts consecutive login failures: [n] failing
    connections, one successful login, then [m] failing connections, with
    [n] and [m] both below the threshold, leave the stream enabled with the
    counter at [m], whatever [n + m] is. *)
Theorem breaker_counts_consecutive (code : string) (n m : nat) :
  has_credentials cfg = true -> code <> "0" ->
  (Z.of_nat n < max_login_failures cfg)%Z ->
  (Z.of_nat m < max_login_failures cfg)%Z ->
  disabled (start cfg (repeat (failing_session code) n
                         ++ welcome_session 1 :: repeat (failing_session code) m)%list
              initial) = false
  /\ login_failures (start cfg (repeat (failing_session code) n
                                  ++ welcome_session 1 :: repeat (failing_session code) m)%list
                       initial) = m
  /\ attempts (start cfg (repeat (failing_session code) n
                            ++ welcome_session 1 :: repeat (failing_session code) m)%list
                 initial) = (n + 1 + m)%nat.
Proof.
  intros Hc Hcode Hn Hm. unfold start. cbn [disabled running initial].
  set (st0 := {| login_failures := _ |}).
  destruct (failing_sessions_below code n Hc Hcode st0
              (welcome_session 1 :: repeat (failing_session code) m))
    as (st1 & -> & Hf1 & Ha1 & Hd1 & Hs1); [reflexivity | reflexivity | exact Hn |].
  rewrite (run_loop_step cfg _ _ _ Hs1 Hd1).
  destruct (subscribes_once_per_connection 0 st1 Hc) as (_ & Hf2 & Ha2 & Hd2 & Hs2).
  remember (_connect_once cfg (welcome_session 1) st1) as st2 eqn:E. clear E.
  rewrite Hs2, Hs1, Hd2, Hd1. cbn [orb].
  rewrite <- (app_nil_r (repeat (failing_session code) m)).
  destruct (failing_sessions_below code m Hc Hcode st2 [])
    as (st3 & -> & Hf3 & Ha3 & Hd3 & Hs3);
    [congruence | congruence | rewrite Hf2; exact Hm |].
  rewrite (run_loop_end st3 Hd3 Hs3).
  split; [exact Hd3 |]. split; [rewrite Hf3, Hf2; reflexivity |].
  rewrite Ha3, Ha2, Ha1. cbn. lia.
Qed.

(** Without credentials nothing is ever written to the socket. *)
Lemma connect_once_no_credentials (s : session) (st : state) :
  has_credentials cfg = false ->
  sent (_connect_once cfg s st) = sent st
  /\ attempts (_connect_once cfg s st) = S (attempts st)
  /\ (opens s = true ->
      disabled (_connect_once cfg s st) = true
      /\ last_error (_connect_once cfg s st) =
         "Missing API credentials (auth.api_key/api_secret/passphrase)")
  /\ (opens s = false -> disabled (_connect_once cfg s st) = disabled st).
Proof.
  intros Hc. unfold _connect_once.
  destruct (opens s).
  - unfold _on_open, _login. rewrite Hc. cbn [negb].
    assert (Hdel : forall msgs st0, ws_open st0 = false -> deliver cfg msgs st0 = st0)
      by (intros [| m msgs] st0 Ho; cbn [deliver]; [| rewrite Ho]; reflexivity).
    rewrite Hdel by reflexivity.
    destruct (stop_called s); cbn; repeat split; intros; discriminate.
  - destruct (stop_called s); cbn; repeat split; intros; discriminate.
Qed.

Lemma run_loop_no_credentials (sessions : list session) :
  has_credentials cfg = false ->
  forall st, sent (_run_loop cfg sessions st) = sent st.
Proof.
  intros Hc. induction sessions as [| s rest IH]; intros st.
  - cbn. destruct (stopped st), (disabled st); reflexivity.
  - cbn [_run_loop].
    destruct (stopped st); [reflexivity |]. destruct (disabled st); [reflexivity |].
    destruct (connect_once_no_credentials s st Hc) as (Hsent & _).
    destruct (stopped _ || disabled _); [exact Hsent | rewrite IH; exact Hsent].
Qed.

(** X12: without the three credentials nothing is ever written to the
    socket, and the first connection that opens disables the stream, with
    the missing-credentials error and no further attempt. *)
Theorem missing_credentials_disable (s : session) (rest : list session) :
  has_credentials cfg = false ->
  (forall sessions, sent (start cfg sessions initial) = [])
  /\ (opens s = true ->
      disabled (start cfg (s :: rest) initial) = true
      /\ attempts (start cfg (s :: rest) initial) = 1%nat
      /\ running (start cfg (s :: rest) initial) = false
      /\ last_error (start cfg (s :: rest) initial) =
         "Missing API credentials (auth.api_key/api_secret/passphrase)").
Proof.
  intros Hc. split.
  - intros sessions. unfold start. cbn [disabled running initial].
    rewrite run_loop_no_credentials by exact Hc. reflexivity.
  - intros Ho. unfold start. cbn [disabled running initial].
    set (st0 := {| login_failures := _ |}).
    rewrite (run_loop_step cfg s rest st0) by reflexivity.
    destruct (connect_once_no_credentials s st0 Hc) as (_ & Ha & Hopen & _).
    destruct (Hopen Ho) as [Hd He].
    rewrite Hd, orb_true_r. cbn [exited disabled attempts running last_error].
    repeat split; assumption.
Qed.


Lemma error_session_step (code msg : string) (st : state) :
  has_credentials cfg = true ->
  credential_code code = false -> contains "API key" msg = false ->
  (Z.of_nat (login_failures st) < max_login_failures cfg)%Z ->
  login_failures (_connect_once cfg (error_session code msg) st) = login_failures st
  /\ attempts (_connect_once cfg (error_session code msg) st) = S (attempts st)
  /\ disabled (_connect_once cfg (error_session code msg) st) = disabled st
  /\ stopped (_connect_once cfg (error_session code msg) st) = stopped st
  /\ last_error (_connect_once cfg (error_session code msg) st) =
     "event error code=" ++ code ++ " msg=" ++ msg.
Proof.
  intros Hc Hcode Hmsg Hmax. unfold _connect_once, error_session.
  cbn [opens messages stop_called]. unfold _on_open, _login. rewrite Hc.
  cbn [negb deliver write ws_open reset_connection].
  unfold _handle_message. cbn [get error_event assoc default field].
  change (String.eqb "event" "event") with true. cbv iota.
  change (String.eqb "code" "event") with false.
  change (String.eqb "code" "code") with true.
  change (String.eqb "msg" "event") with false.
  change (String.eqb "msg" "code") with false.
  change (String.eqb "msg" "msg") with true. cbv iota. cbn [default from_option].
  change (id (JStr "error")) with (JStr "error").
  change (id (JStr code)) with (JStr code).
  change (id (JStr msg)) with (JStr msg).
  change (lower (str (jor (JStr "error") (JStr "")))) with "error".
  change (String.eqb "error" "login") with false.
  change (String.eqb "error" "error") with true. cbv iota.
  assert (Hs : forall x, str (jor (JStr x) (JStr "")) = x) by (intros [| c x]; reflexivity).
  rewrite !Hs, Hcode, Hmsg. cbn [orb].
  assert (E : (max_login_failures cfg <=? Z.of_nat (login_failures st))%Z = false)
    by (apply Z.leb_gt; exact Hmax).
  unfold trip_or_close. cbn. rewrite E. cbn. repeat split.
Qed.

(** X13: an error event whose code is none of 60031, 60032, 50119, 50101
    and whose text does not mention an API key closes the connection and
    leaves the failure counter alone: any number of such connections leaves
    the stream enabled, each one being attempted. *)
Theorem other_errors_never_trip (code msg : string) (k : nat) :
  has_credentials cfg = true ->
  credential_code code = false -> contains "API key" msg = false ->
  (0 < max_login_failures cfg)%Z ->
  disabled (start cfg (repeat (error_session code msg) k) initial) = false
  /\ login_failures (start cfg (repeat (error_session code msg) k) initial) = 0%nat
  /\ attempts (start cfg (repeat (error_session code msg) k) initial) = k.
Proof.
  intros Hc Hcode Hmsg Hmax. unfold start. cbn [disabled running initial].
  set (st0 := {| login_failures := _ |}).
  assert (Hgen : forall st, disabled st = false -> stopped st = false ->
                   login_failures st = 0%nat ->
                   disabled (_run_loop cfg (repeat (error_session code msg) k) st) = false
                   /\ login_failures (_run_loop cfg (repeat (error_session code msg) k) st) = 0%nat
                   /\ attempts (_run_loop cfg (repeat (error_session code msg) k) st)
                      = (attempts st + k)%nat).
  { induction k as [| k IH]; intros st Hd Hs Hf.
    - cbn [repeat]. rewrite (run_loop_end st Hd Hs). repeat split; [assumption .. | lia].
    - cbn [repeat]. rewrite (run_loop_step cfg _ _ _ Hs Hd).
      destruct (error_session_step code msg st Hc Hcode Hmsg) as (H1 & H2 & H3 & H4 & _);
        [rewrite Hf; exact Hmax |].
      remember (_connect_once cfg (error_session code msg) st) as st1 eqn:E. clear E.
      rewrite H4, Hs, H3, Hd. cbn [orb].
      destruct (IH st1) as (G1 & G2 & G3); [congruence .. |].
      repeat split; [exact G1 | exact G2 | rewrite G3, H2; lia]. }
  exact (Hgen st0 eq_refl eq_refl eq_refl).
Qed.

End Stream.

Section StreamScenarios.

Import PrivateWS.
Local Open Scope string_scope.

Lemma subscribes_once_per_connection_witness :
  has_credentials Scenario.stream_cfg = true /\
  sent (_connect_once Scenario.stream_cfg (welcome_session 3) initial) =
    ["login"; "subscribe:account"; "subscribe:positions"; "subscribe:orders"].
Proof.
  split; [reflexivity |].
  exact (proj1 (subscribes_once_per_connection Scenario.stream_cfg 2 initial eq_refl)).
Defined.

Lemma breaker_counts_consecutive_witness :
  has_credentials Scenario.stream_cfg = true /\
  (Z.of_nat 2 < max_login_failures Scenario.stream_cfg)%Z /\
  disabled (start Scenario.stream_cfg
              (repeat (failing_session "60009") 2
                 ++ welcome_session 1 :: repeat (failing_session "60009") 2)%list
              initial) = false.
Proof.
  assert (Hk : (Z.of_nat 2 < max_login_failures Scenario.stream_cfg)%Z) by (cbn; lia).
  assert (Hc : "60009" <> "0") by (intros E; discriminate E).
  split; [reflexivity |]. split; [exact Hk |].
  exact (proj1 (breaker_counts_consecutive Scenario.stream_cfg "60009" 2 2 eq_refl Hc Hk Hk)).
Defined.

Lemma missing_credentials_disable_witness :
  has_credentials Scenario.anonymous_cfg = false /\
  opens (welcome_session 1) = true /\
  disabled (start Scenario.anonymous_cfg [welcome_session 1; welcome_session 1] initial) = true /\
  attempts (start Scenario.anonymous_cfg [welcome_session 1; welcome_session 1] initial) = 1%nat /\
  sent (start Scenario.anonymous_cfg [welcome_session 1; welcome_session 1] initial) = [].
Proof.
  destruct (missing_credentials_disable Scenario.anonymous_cfg (welcome_session 1)
              [welcome_session 1] eq_refl) as [Hsent Hopen].
  destruct (Hopen eq_refl) as (Hd & Ha & _).
  split; [reflexivity |]. split; [reflexivity |].
  split; [exact Hd |]. split; [exact Ha | apply Hsent].
Defined.

Lemma other_errors_never_trip_witness :
  has_credentials Scenario.stream_cfg = true /\
  credential_code "60018" = false /\
  contains "API key" "Wrong URL or channel" = false /\
  (0 < max_login_failures Scenario.stream_cfg)%Z /\
  disabled (start Scenario.stream_cfg
              (repeat (error_session "60018" "Wrong URL or channel") 10) initial) = false /\
  attempts (start Scenario.stream_cfg
              (repeat (error_session "60018" "Wrong URL or channel") 10) initial) = 10%nat.
Proof.
  assert (Hm : (0 < max_login_failures Scenario.stream_cfg)%Z) by (cbn; lia).
  destruct (other_errors_never_trip Scenario.stream_cfg "60018" "Wrong URL or channel" 10
              eq_refl eq_refl eq_refl Hm) as (Hd & _ & Ha).
  split; [reflexivity |]. split; [reflexivity |]. split; [reflexivity |].
  split; [exact Hm |]. split; [exact Hd | exact Ha].
Defined.

End StreamScenarios.

(** ** The operations of the exchange client *)

Section RestOpsFacts.

Import Rest RestOps.
Local Open Scope string_scope.

Context `{Runtime}.

Lemma first_text_some (s : string) : first_text (Some s) None = s.
Proof. unfold first_text. destruct s; reflexivity. Qed.

(** X14: on a cache miss [_must_spec] asks the exchange once, under the
    stripped instrument name; a specification it gets is stored, and the
    next call for the same name (whatever the spaces around it) returns it
    without asking, whatever the exchange would answer then; a failed fetch
    raises and leaves the cache as it was. *)
Theorem must_spec_caches (fetch : string -> result OrderManager.InstrumentSpec)
    (cache : gmap string OrderManager.InstrumentSpec) (inst_id : string) :
  cache !! strip inst_id = None ->
  (forall spec,
     fetch (strip inst_id) = Ok spec ->
     _must_spec fetch cache inst_id =
       (Ok spec, <[strip inst_id := spec]> cache, [strip inst_id])
     /\ (forall fetch' inst_id',
           strip inst_id' = strip inst_id ->
           _must_spec fetch' (<[strip inst_id := spec]> cache) inst_id' =
             (Ok spec, <[strip inst_id := spec]> cache, [])))
  /\ (forall e,
        fetch (strip inst_id) = Raise e ->
        _must_spec fetch cache inst_id = (Raise e, cache, [strip inst_id])).
Proof.
  intros Hmiss. split.
  - intros spec Hfetch. split.
    + unfold _must_spec. rewrite Hmiss, Hfetch. reflexivity.
    + intros fetch' inst_id' Hid. unfold _must_spec. rewrite Hid.
      rewrite lookup_insert_eq. reflexivity.
  - intros e Hfetch. unfold _must_spec. rewrite Hmiss, Hfetch. reflexivity.
Qed.

Lemma first_usdt_skips (pre : list json) (rest : list json) :
  Forall other_currency pre -> first_usdt (pre ++ rest) = first_usdt rest.
Proof.
  induction 1 as [| d pre (fields & -> & Hc) _ IH]; [reflexivity |].
  cbn [app first_usdt get]. change (mbind ?f (Ok ?a)) with (f a). cbv beta.
  rewrite Hc. exact IH.
Qed.



Ltac bind_inv E :=
  repeat match type of E with
         | mbind _ ?r = Ok _ =>
             let x := fresh "x" in
             let Hx := fresh "Hx" in
             destruct r as [x | ?] eqn:Hx; [| discriminate E];
             change (mbind ?f (Ok x)) with (f x) in E; cbv beta in E
         end.

(** What [prepare_tp_sl] builds: a side, a position side and a size that
    [place_tp_sl_algo] accepts, under the client order id [TPSL_<id>]. *)
Lemma prepare_tp_sl_fields (ex : OrderManager.exchange) (inst_id td_mode cl : string)
    (info : json) (force_sz : option float) (rq : OrderManager.tpsl_request) :
  OrderManager.prepare_tp_sl ex inst_id td_mode cl info force_sz = Ok (Some rq) ->
  OrderManager.ts_inst_id rq = inst_id
  /\ OrderManager.ts_td_mode rq = td_mode
  /\ OrderManager.ts_cl_ord_id rq = "TPSL_" ++ cl
  /\ (OrderManager.ts_sz rq <=? 0)%float = false
  /\ ((OrderManager.ts_pos_side rq = "long" /\ OrderManager.ts_close_side rq = "sell")
      \/ (OrderManager.ts_pos_side rq = "short" /\ OrderManager.ts_close_side rq = "buy")).
Proof.
  unfold OrderManager.prepare_tp_sl. intros E.
  bind_inv E.
  match type of E with
  | (if ?b then _ else _) = _ => destruct b eqn:Hsz; [discriminate E |]
  end.
  apply orb_false_iff in Hsz. destruct Hsz as [Hsz _].
  bind_inv E. injection E as <-. cbn.
  split; [reflexivity |]. split; [reflexivity |]. split; [reflexivity |].
  split; [exact Hsz |].
  match goal with
  | Hps : (if ?b then Ok _ else _) = Ok ?p |- context [String.eqb ?p "long"] =>
      assert (Hside : p = "long" \/ p = "short");
      [ destruct b eqn:Hb;
        [ injection Hps as <-; apply orb_true_iff in Hb;
          destruct Hb as [Hb | Hb]; apply String.eqb_eq in Hb; auto
        | bind_inv Hps; injection Hps as <-;
          match goal with |- context [if ?c then _ else _] => destruct c end; auto ]
      | destruct Hside as [-> | ->]; [left | right]; split; reflexivity ]
  end.
Qed.


(** X16: a TP/SL request the order manager builds passes the argument
    checks of [place_tp_sl_algo] (side, position side, size): the call goes
    on to the rounding of the two triggers and to the request, under the
    client order id [TPSL_<id>]. *)
Theorem manager_tp_sl_passes_checks (ex : OrderManager.exchange)
    (inst_id td_mode cl : string) (info : json) (force_sz : option float)
    (rq : OrderManager.tpsl_request) :
  OrderManager.prepare_tp_sl ex inst_id td_mode cl info force_sz = Ok (Some rq) ->
  forall (w : world) (c : client) (a : algo_env) (sent : list http_request),
  exists mm,
    place_tp_sl_algo w c a
      (Some (OrderManager.ts_inst_id rq)) (Some (OrderManager.ts_close_side rq))
      (OrderManager.ts_sz rq)
      (Some (OrderManager.ts_tp_trigger rq)) (Some (OrderManager.ts_sl_trigger rq))
      (Some (OrderManager.ts_pos_side rq)) (Some (OrderManager.ts_cl_ord_id rq))
      (Some (OrderManager.ts_td_mode rq)) None sent =
    send_tp_sl w c a (strip inst_id) (OrderManager.ts_close_side rq)
      (OrderManager.ts_sz rq)
      (Some (OrderManager.ts_tp_trigger rq)) (Some (OrderManager.ts_sl_trigger rq))
      (OrderManager.ts_pos_side rq) (Some ("TPSL_" ++ cl)) mm sent.
Proof.
  intros E w c a sent.
  destruct (prepare_tp_sl_fields ex inst_id td_mode cl info force_sz rq E)
    as (Hi & Ht & Hc & Hsz & Hside).
  unfold place_tp_sl_algo. rewrite !first_text_some, Hi, Hc, Hsz.
  destruct Hside as [[-> ->] | [-> ->]]; eexists; reflexivity.
Qed.

Lemma request_sent (w : world) (c : client) (method path : string)
    (params : list (string * option string)) (data : list (string * json)) (auth : bool)
    (sent : list http_request) :
  (exists e, request w c method path params data auth sent = (Raise e, sent)
             /\ @build_request (w (length sent)) c method path params data auth = Raise e)
  \/ (exists rq, @build_request (w (length sent)) c method path params data auth = Ok rq
                 /\ request w c method path params data auth sent =
                    (classify c path (@send (w (length sent)) rq), (sent ++ [rq])%list)).
Proof.
  unfold request. destruct (build_request _ _ _ _ _ _) as [rq | e].
  - right. exists rq. split; reflexivity.
  - left. exists e. split; reflexivity.
Qed.

Lemma build_request_error (net : Network) (c : client) (method path : string)
    (params : list (string * option string)) (data : list (string * json)) (auth : bool)
    (e : exn) :
  @build_request net c method path params data auth = Raise e ->
  e = RuntimeError "Missing OKX API credentials in config.auth".
Proof.
  unfold build_request. destruct auth.
  - destruct (_ && _); cbn; intros E; [discriminate E | injection E as <-; reflexivity].
  - cbn. intros E. discriminate E.
Qed.

(** A successful pair of calls sent two requests, the long side first. *)
Lemma both_sides_ok (w : world) (c : client) (inst_id : string) (lever : Z)
    (mgn_mode : string) (sent tr : list http_request) (r : json) :
  both_sides w c inst_id lever mgn_mode sent = (Ok r, tr) ->
  exists rq1 rq2,
    tr = (sent ++ [rq1; rq2])%list
    /\ @build_request (w (length sent)) c "POST" "/api/v5/account/set-leverage" []
         (leverage_payload inst_id lever mgn_mode (Some "long")) true = Ok rq1
    /\ @build_request (w (S (length sent))) c "POST" "/api/v5/account/set-leverage" []
         (leverage_payload inst_id lever mgn_mode (Some "short")) true = Ok rq2.
Proof.
  unfold both_sides, _call. intros E.
  destruct (request_sent w c "POST" "/api/v5/account/set-leverage" []
              (leverage_payload inst_id lever mgn_mode (Some "long")) true sent)
    as [(e & Hr & _) | (rq1 & Hb1 & Hr)].
  { unfold mbind, io_bind in E. rewrite Hr in E. discriminate E. }
  unfold mbind at 1, io_bind at 1 in E. rewrite Hr in E.
  destruct (classify c _ _) as [r1 | e1]; [| discriminate E].
  destruct (request_sent w c "POST" "/api/v5/account/set-leverage" []
              (leverage_payload inst_id lever mgn_mode (Some "short")) true (sent ++ [rq1]))
    as [(e & Hr2 & _) | (rq2 & Hb2 & Hr2)].
  { unfold mbind at 1, io_bind at 1 in E. rewrite Hr2 in E. discriminate E. }
  unfold mbind at 1, io_bind at 1 in E. rewrite Hr2 in E.
  destruct (classify c _ _) as [r2 | e2]; [| discriminate E].
  unfold mbind, io_bind, lift, mret, io_ret in E.
  destruct (get r1 "data"); [| discriminate E].
  destruct (get r2 "data"); [| discriminate E].
  injection E as _ <-.
  exists rq1, rq2. rewrite <- app_assoc. split; [reflexivity |].
  split; [exact Hb1 |].
  rewrite List.length_app, Nat.add_1_r in Hb2. exact Hb2.
Qed.

(** X17: a [set_leverage] that returns has sent, in hedge mode, two
    requests, the long side first and the short side next; in the other
    modes one request, or three when the exchange refused the first with an
    error that mentions both 51000 and posSide. *)
Theorem set_leverage_requests (w : world) (c : client) (pos_mode : string)
    (inst_id : option string) (lever : Z) (td_mode : option string)
    (sent tr : list http_request) (r : json) :
  set_leverage w c pos_mode inst_id lever td_mode sent = (Ok r, tr) ->
  (is_hedge pos_mode = true ->
   exists rq1 rq2, tr = (sent ++ [rq1; rq2])%list
     /\ rq_body rq1 = Some (@json_dumps (w (length sent))
          (JObj (leverage_payload (strip (first_text inst_id None)) lever
                   (strip (first_text td_mode (Some "isolated"))) (Some "long"))))
     /\ rq_body rq2 = Some (@json_dumps (w (S (length sent)))
          (JObj (leverage_payload (strip (first_text inst_id None)) lever
                   (strip (first_text td_mode (Some "isolated"))) (Some "short")))))
  /\ (is_hedge pos_mode = false ->
      (exists rq0, tr = (sent ++ [rq0])%list)
      \/ (exists rq0 rq1 rq2 e,
            tr = (sent ++ [rq0; rq1; rq2])%list
            /\ _call w c (leverage_payload (strip (first_text inst_id None)) lever
                            (strip (first_text td_mode (Some "isolated"))) None) sent =
               (Raise e, (sent ++ [rq0])%list)
            /\ contains "51000" (str_exn e) = true
            /\ contains "posSide" (str_exn e) = true)).
Proof.
  unfold set_leverage. intros E. split; intros Hh; rewrite Hh in E.
  - destruct (both_sides_ok w c _ lever _ sent tr r E) as (rq1 & rq2 & -> & Hb1 & Hb2).
    exists rq1, rq2. split; [reflexivity |].
    unfold build_request in Hb1, Hb2.
    split.
    + destruct (_ && _) in Hb1; cbn in Hb1; [| discriminate Hb1].
      injection Hb1 as <-. reflexivity.
    + destruct (_ && _) in Hb2; cbn in Hb2; [| discriminate Hb2].
      injection Hb2 as <-. reflexivity.
  - unfold try_except, _call in E.
    destruct (request_sent w c "POST" "/api/v5/account/set-leverage" []
                (leverage_payload (strip (first_text inst_id None)) lever
                   (strip (first_text td_mode (Some "isolated"))) None) true sent)
      as [(e & Hr & Hb) | (rq0 & Hb & Hr)]; rewrite Hr in E.
    + apply build_request_error in Hb. subst e. cbn in E. discriminate E.
    + destruct (classify c _ _) as [r0 | e] eqn:Hc.
      * injection E as _ <-. left. exists rq0. reflexivity.
      * destruct (contains "51000" (str_exn e)) eqn:H1; [| discriminate E].
        destruct (contains "posSide" (str_exn e)) eqn:H2; [| discriminate E].
        cbn [andb] in E.
        destruct (both_sides_ok w c _ lever _ _ tr r E) as (rq1 & rq2 & -> & _ & _).
        right. exists rq0, rq1, rq2, e. rewrite <- app_assoc.
        split; [reflexivity |]. split; [| split; [exact H1 | exact H2]].
        unfold _call. rewrite Hr. reflexivity.
Qed.

End RestOpsFacts.

(** ** Whitespace *)

Section Whitespace.

Import RestOps.
Local Open Scope string_scope.

Lemma lstrip_fixed (s : string) : starts_space s = false -> lstrip s = s.
Proof.
  destruct s as [| c1 [| c2 [| c3 s3]]]; cbn [starts_space lstrip]; intros E;
    try reflexivity.
  - rewrite orb_false_r in E. rewrite E. reflexivity.
  - apply orb_false_iff in E. destruct E as [E1 E2]. rewrite orb_false_r in E2.
    rewrite E1, E2. reflexivity.
  - apply orb_false_iff in E. destruct E as [E1 E]. apply orb_false_iff in E.
    destruct E as [E2 E3]. rewrite E1, E2, E3. reflexivity.
Qed.

Lemma lstrip_stripped_upto (n : nat) :
  forall s, (String.length s <= n)%nat -> starts_space (lstrip s) = false.
Proof.
  induction n as [| n IH]; intros s Hn.
  - destruct s; [reflexivity | cbn in Hn; lia].
  - destruct s as [| c1 s1]; [reflexivity |]. cbn [String.length] in Hn.
    cbn [lstrip]. destruct (is_space c1) eqn:E1; [apply IH; lia |].
    destruct s1 as [| c2 s2]; [cbn; rewrite E1; reflexivity |]. cbn [String.length] in Hn.
    destruct (is_space2 c1 c2) eqn:E2; [apply IH; lia |].
    destruct s2 as [| c3 s3]; [cbn; rewrite E1, E2; reflexivity |]. cbn [String.length] in Hn.
    destruct (is_space3 c1 c2 c3) eqn:E3; [apply IH; lia |].
    cbn. rewrite E1, E2, E3. reflexivity.
Qed.

Lemma lstrip_stripped (s : string) : starts_space (lstrip s) = false.
Proof. apply (lstrip_stripped_upto (String.length s)). lia. Qed.

Lemma starts_space_app (s u : string) :
  starts_space s = true -> starts_space (s ++ u) = true.
Proof.
  destruct s as [| c1 [| c2 [| c3 s3]]]; intros E; try discriminate E.
  - cbn [starts_space] in E. rewrite orb_false_r in E.
    change (String c1 "" ++ u) with (String c1 u). cbn [starts_space]. rewrite E. reflexivity.
  - cbn [starts_space] in E.
    change (String c1 (String c2 "") ++ u) with (String c1 (String c2 u)).
    cbn [starts_space].
    apply orb_true_iff in E. destruct E as [E | E]; [rewrite E; reflexivity |].
    rewrite orb_false_r in E. rewrite E. rewrite orb_true_l, orb_true_r. reflexivity.
  - change (String c1 (String c2 (String c3 s3)) ++ u)
      with (String c1 (String c2 (String c3 (s3 ++ u)))).
    exact E.
Qed.

Lemma rstrip_prefix (s : string) : exists u, s = rstrip s ++ u.
Proof.
  induction s as [| c s IH]; [exists ""; reflexivity |].
  cbn [rstrip]. cbv zeta. destruct (is_space_char (String c (rstrip s))).
  - exists (String c s). reflexivity.
  - destruct IH as [u Hu]. exists u.
    change (String c (rstrip s) ++ u) with (String c (rstrip s ++ u)).
    rewrite <- Hu. reflexivity.
Qed.

Lemma rstrip_idem (s : string) : rstrip (rstrip s) = rstrip s.
Proof.
  induction s as [| c s IH]; [reflexivity |].
  cbn [rstrip]. cbv zeta. destruct (is_space_char (String c (rstrip s))) eqn:E; [reflexivity |].
  cbn [rstrip]. cbv zeta. rewrite IH, E. reflexivity.
Qed.

(** [s.strip().strip()] is [s.strip()]. *)
Lemma strip_idem (s : string) : strip (strip s) = strip s.
Proof.
  unfold strip.
  assert (Hl : lstrip (rstrip (lstrip s)) = rstrip (lstrip s)).
  { apply lstrip_fixed. destruct (starts_space (rstrip (lstrip s))) eqn:E; [| reflexivity].
    destruct (rstrip_prefix (lstrip s)) as [u Hu].
    pose proof (starts_space_app _ u E) as E'. rewrite <- Hu in E'.
    rewrite lstrip_stripped in E'. discriminate E'. }
  rewrite Hl. apply rstrip_idem.
Qed.

Lemma not_space_inv (c : ascii) :
  not_space c = true ->
  is_space c = false /\ (forall c2, is_space2 c c2 = false)
  /\ (forall c2 c3, is_space3 c c2 c3 = false).
Proof.
  unfold not_space, is_space2, is_space3. cbv zeta. intros E.
  apply andb_true_iff in E. destruct E as [E1 E2].
  apply negb_true_iff in E1. apply Nat.ltb_lt in E2.
  split; [exact E1 |]. split.
  - intros c2. replace (nat_of_ascii c =? 194)%nat with false
      by (symmetry; apply Nat.eqb_neq; lia). reflexivity.
  - intros c2 c3.
    replace (nat_of_ascii c =? 225)%nat with false by (symmetry; apply Nat.eqb_neq; lia).
    replace (nat_of_ascii c =? 226)%nat with false by (symmetry; apply Nat.eqb_neq; lia).
    replace (nat_of_ascii c =? 227)%nat with false by (symmetry; apply Nat.eqb_neq; lia).
    reflexivity.
Qed.

Lemma rstrip_no_space (s : string) : all_chars not_space s = true -> rstrip s = s.
Proof.
  induction s as [| c s IH]; [reflexivity |].
  cbn [all_chars]. intros Hs. apply andb_true_iff in Hs. destruct Hs as [Hc Hs].
  cbn [rstrip]. cbv zeta. rewrite (IH Hs).
  destruct (not_space_inv c Hc) as (H1 & H2 & H3).
  destruct s as [| c2 [| c3 [| c4 s4]]]; cbn [is_space_char];
    rewrite ?H1, ?H2, ?H3; reflexivity.
Qed.

(** A string of ASCII characters with no whitespace is left as it is. *)
Lemma strip_no_space (s : string) : all_chars not_space s = true -> strip s = s.
Proof.
  intros Hs. unfold strip.
  assert (Hl : lstrip s = s).
  { apply lstrip_fixed. destruct s as [| c s]; [reflexivity |]. cbn [all_chars] in Hs.
    apply andb_true_iff in Hs. destruct Hs as [Hc _].
    destruct (not_space_inv c Hc) as (H1 & H2 & H3).
    destruct s as [| c2 [| c3 s3]]; cbn [starts_space]; rewrite ?H1, ?H2, ?H3; reflexivity. }
  rewrite Hl. apply rstrip_no_space. exact Hs.
Qed.

Lemma all_chars_implies (p q : ascii -> bool) (s : string) :
  (forall c, p c = true -> q c = true) -> all_chars p s = true -> all_chars q s = true.
Proof.
  intros Hpq. induction s as [| c s IH]; [reflexivity |].
  cbn [all_chars]. intros Hs. apply andb_true_iff in Hs. destruct Hs as [Hc Hs].
  rewrite (Hpq c Hc), (IH Hs). reflexivity.
Qed.

Lemma hex_not_space (c : ascii) : is_hex_digit c = true -> not_space c = true.
Proof.
  unfold is_hex_digit, not_space, is_space. cbv zeta.
  generalize (nat_of_ascii c). intros n Hn.
  apply andb_true_iff. rewrite negb_true_iff.
  repeat match goal with
         | |- context [(?a <=? ?b)%nat] => destruct (Nat.leb_spec a b)
         | |- context [(?a <? ?b)%nat] => destruct (Nat.ltb_spec a b)
         | H : context [(?a <=? ?b)%nat] |- _ => destruct (Nat.leb_spec a b)
         end; cbn in *; try (split; reflexivity); try discriminate; lia.
Qed.

Lemma digit_not_space (c : ascii) : is_digit c = true -> not_space c = true.
Proof.
  unfold is_digit, not_space, is_space. cbv zeta.
  generalize (nat_of_ascii c). intros n Hn.
  apply andb_true_iff. rewrite negb_true_iff.
  repeat match goal with
         | |- context [(?a <=? ?b)%nat] => destruct (Nat.leb_spec a b)
         | |- context [(?a <? ?b)%nat] => destruct (Nat.ltb_spec a b)
         | H : context [(?a <=? ?b)%nat] |- _ => destruct (Nat.leb_spec a b)
         end; cbn in *; try (split; reflexivity); try discriminate; lia.
Qed.

(** A client order id has no whitespace: [strip] leaves it as it is. *)
Lemma make_cl_ord_id_stripped (idem : string) (now : float) (cl : string) :
  OrderManager.make_cl_ord_id idem now = Ok cl -> strip cl = cl /\ str_truthy cl = true.
Proof.
  unfold OrderManager.make_cl_ord_id.
  destruct (int_of_float _) as [ms | e]; [| intros E; discriminate E].
  change (mbind ?f (Ok ms)) with (f ms). cbv beta. intros E. injection E as <-.
  split; [| reflexivity].
  apply strip_no_space.
  destruct (take20_hexdigest idem) as [_ Hhex].
  destruct (suffix_shape ms) as [_ Hdig].
  change ("Q" ++ take 20 (Sha1.hexdigest idem) ++ zfill 5 (str_of_Z (ms mod 100000)))
    with (String "Q" (take 20 (Sha1.hexdigest idem) ++ zfill 5 (str_of_Z (ms mod 100000)))).
  cbn [all_chars]. rewrite all_chars_app.
  rewrite (all_chars_implies _ _ _ hex_not_space Hhex).
  rewrite (all_chars_implies _ _ _ digit_not_space Hdig).
  reflexivity.
Qed.

End Whitespace.

Section EndToEnd.

Import Rest RestOps OrderManager.
Local Open Scope string_scope.
Context `{Runtime}.
Variable cfg : config.

Lemma calls_unextended (l ext : list event) : l = (l ++ ext)%list -> ext = [].
Proof.
  intros E. rewrite <- (app_nil_r l) in E at 1. apply app_inv_head in E.
  symmetry. exact E.
Qed.

(** The order [on_signal] submits. *)
Lemma on_signal_order (env : signal_env) (sig : signal) (bar : list (string * json))
    (st : state) (rq : order_request) (rest : list event) :
  calls (fst (on_signal cfg env sig bar st)) =
    (calls st ++ Submit (idempotency_key sig) rq :: rest)%list ->
  or_inst_id rq = strip (text_or (trade_inst_id cfg) "")
  /\ str_truthy (or_inst_id rq) = true
  /\ or_td_mode rq = strip (text_or (account_td_mode cfg) "isolated")
  /\ (or_sz rq <=? 0)%float = false
  /\ ((or_pos_side rq = "long" /\ or_side rq = "buy")
      \/ (or_pos_side rq = "short" /\ or_side rq = "sell"))
  /\ make_cl_ord_id (idempotency_key sig) (now_cl_ord_id env) = Ok (or_cl_ord_id rq).
Proof.
  unfold on_signal.
  assert (Hquiet : forall P : Prop,
            calls st = (calls st ++ Submit (idempotency_key sig) rq :: rest)%list -> P)
    by (intros P E; apply calls_unextended in E; discriminate E).
  repeat match goal with
         | |- context [if ?b then (st, None) else _] =>
             destruct b eqn:?; [cbn [fst]; intros E; exact (Hquiet _ E) |]
         end.
  destruct (direction (action sig)) as [[pos_side side] |] eqn:Hdir;
    [| cbn [fst]; intros E; exact (Hquiet _ E)].
  repeat match goal with
         | |- context [if ?b then (st, None) else _] =>
             destruct b eqn:?; [cbn [fst]; intros E; exact (Hquiet _ E) |]
         end.
  destruct (calc_size_by_risk _ _) as [raw_sz | e]; [| cbn [fst]; intros E; exact (Hquiet _ E)].
  repeat match goal with
         | |- context [if ?b then (st, None) else _] =>
             destruct b eqn:?; [cbn [fst]; intros E; exact (Hquiet _ E) |]
         end.
  destruct (negb (_margin_gate _ _ _ _ _ _)); [cbn [fst calls set_kv]; intros E; exact (Hquiet _ E) |].
  destruct (calc_tp_sl _ _ _) as [[tp sl] | e]; [| cbn [fst]; intros E; exact (Hquiet _ E)].
  destruct (make_cl_ord_id _ _) as [cl | e] eqn:Hcl; [| cbn [fst]; intros E; exact (Hquiet _ E)].
  assert (Hside : (pos_side = "long" /\ side = "buy") \/ (pos_side = "short" /\ side = "sell")).
  { unfold direction in Hdir.
    destruct (String.eqb (action sig) "OPEN_LONG"); [injection Hdir as <- <-; auto |].
    destruct (String.eqb (action sig) "OPEN_SHORT"); [injection Hdir as <- <-; auto |].
    discriminate Hdir. }
  destruct (place_market_with_tp_sl _ _) as [r | e]; cbn [fst];
    unfold _cleanup_pending; cbn [calls set_kv del_kv issue];
    rewrite <- ?app_assoc; cbn [app]; intros E; apply app_inv_head in E;
    injection E as <-; cbn [or_inst_id or_td_mode or_sz or_pos_side or_side or_cl_ord_id];
    (split; [reflexivity |]); (split; [apply negb_false_iff; assumption |]);
    (split; [reflexivity |]); (split; [assumption |]);
    (split; [exact Hside | reflexivity]).
Qed.


(** X18: an order that [on_signal] submits is never refused locally by
    [place_market_with_tp_sl]: the call sends one POST to the order
    endpoint whose payload carries the instrument, the side, the position
    side and the client order id exactly as the manager recorded them (the
    id is not stripped, replaced or regenerated). *)
Theorem manager_order_reaches_exchange (env : signal_env) (sig : signal)
    (bar : list (string * json)) (st : state) (rq : order_request) (rest : list event)
    (w : world) (c : client) (p : placing) (sent : list http_request) :
  calls (fst (on_signal cfg env sig bar st)) =
    (calls st ++ Submit (idempotency_key sig) rq :: rest)%list ->
  RestOps.place_market_with_tp_sl w c p (or_side rq) (JFloat (or_sz rq)) ""
    (Some (or_inst_id rq)) (Some (or_td_mode rq)) (Some (or_pos_side rq))
    (Some (or_cl_ord_id rq)) sent =
  request w c "POST" "/api/v5/trade/order" []
    [("instId", JStr (or_inst_id rq));
     ("tdMode", JStr (strip (if str_truthy (or_td_mode rq) then or_td_mode rq
                             else text_or (cfg_td_mode p) "isolated")));
     ("side", JStr (or_side rq)); ("ordType", JStr "market");
     ("sz", JStr (_fmt_sz p (or_sz rq))); ("clOrdId", JStr (or_cl_ord_id rq));
     ("posSide", JStr (or_pos_side rq))] true sent.
Proof.
  intros Hc.
  destruct (on_signal_order env sig bar st rq rest Hc) as (Hi & Hit & Htd & Hsz & Hside & Hcl).
  destruct (make_cl_ord_id_stripped _ _ _ Hcl) as [Hstrip Hclt].
  unfold RestOps.place_market_with_tp_sl.
  cbn [to_float opt_str_truthy default]. change (id ?x) with x.
  rewrite Hsz, Hit.
  assert (Hinst : strip (or_inst_id rq) = or_inst_id rq)
    by (rewrite Hi; apply strip_idem).
  rewrite Hinst, Hit. cbn [negb].
  unfold first_text. cbn [opt_str_truthy default]. change (id ?x) with x.
  rewrite Hclt, Hstrip, Hclt.
  assert (Hps : str_truthy (or_pos_side rq) = true
                /\ strip (lower (or_pos_side rq)) = or_pos_side rq
                /\ lower (or_side rq) = or_side rq).
  { destruct Hside as [[-> ->] | [-> ->]]; repeat split; reflexivity. }
  destruct Hps as (Hpt & Hpl & Hsl). rewrite Hpt, Hpl, Hsl.
  unfold mbind at 1, io_bind at 1, mret, io_ret.
  unfold place_order, order_payload, has_key.
  cbn [app assoc].
  change (String.eqb "posSide" "instId") with false.
  change (String.eqb "posSide" "tdMode") with false.
  change (String.eqb "posSide" "side") with false.
  change (String.eqb "posSide" "ordType") with false.
  change (String.eqb "posSide" "sz") with false.
  change (String.eqb "posSide" "clOrdId") with false.
  change (String.eqb "posSide" "posSide") with true.
  cbv iota. rewrite andb_false_r.
  unfold mbind, io_bind, lift. reflexivity.
Qed.

End EndToEnd.

Section RestScenarios.

Import Rest RestOps.
Local Open Scope string_scope.

Lemma must_spec_caches_witness :
  (∅ : gmap string OrderManager.InstrumentSpec) !! strip " BTC-USDT-SWAP " = None /\
  _must_spec (fun _ => Ok (Sample.spec 0.01)) ∅ " BTC-USDT-SWAP " =
    (Ok (Sample.spec 0.01), <[strip " BTC-USDT-SWAP " := Sample.spec 0.01]> ∅,
     [strip " BTC-USDT-SWAP "]) /\
  _must_spec (fun _ => Sample.unavailable)
    (<[strip " BTC-USDT-SWAP " := Sample.spec 0.01]> ∅) "BTC-USDT-SWAP" =
    (Ok (Sample.spec 0.01), <[strip " BTC-USDT-SWAP " := Sample.spec 0.01]> ∅, []).
Proof.
  assert (Hm : (∅ : gmap string OrderManager.InstrumentSpec) !! strip " BTC-USDT-SWAP " = None)
    by apply lookup_empty.
  destruct (must_spec_caches (fun _ => Ok (Sample.spec 0.01)) ∅ " BTC-USDT-SWAP " Hm)
    as [Hok _].
  destruct (Hok (Sample.spec 0.01) eq_refl) as [H1 H2].
  split; [exact Hm |]. split; [exact H1 |].
  apply H2. vm_compute. reflexivity.
Defined.


Lemma manager_tp_sl_passes_checks_witness :
  OrderManager.prepare_tp_sl (Sample.exchange 0.01 1 Sample.filled_order)
    "BTC-USDT-SWAP" "isolated" "Qa2ab1959c1c3bfa295b000000"
    (Sample.order_row "Qa2ab1959c1c3bfa295b000000" "100" "filled") None =
    Ok (Some Scenario.first_tp_sl) /\
  exists mm,
    place_tp_sl_algo Scenario.world Sample.client Scenario.algo
      (Some "BTC-USDT-SWAP") (Some "sell") 1 (Some 51000%float) (Some 49500%float)
      (Some "long") (Some "TPSL_Qa2ab1959c1c3bfa295b000000") (Some "isolated") None [] =
    send_tp_sl Scenario.world Sample.client Scenario.algo (strip "BTC-USDT-SWAP") "sell" 1
      (Some 51000%float) (Some 49500%float) "long"
      (Some "TPSL_Qa2ab1959c1c3bfa295b000000") mm [].
Proof.
  assert (Hp : OrderManager.prepare_tp_sl (Sample.exchange 0.01 1 Sample.filled_order)
                 "BTC-USDT-SWAP" "isolated" "Qa2ab1959c1c3bfa295b000000"
                 (Sample.order_row "Qa2ab1959c1c3bfa295b000000" "100" "filled") None =
               Ok (Some Scenario.first_tp_sl))
    by (vm_compute; reflexivity).
  split; [exact Hp |].
  exact (manager_tp_sl_passes_checks _ _ _ _ _ _ _ Hp Scenario.world Sample.client
           Scenario.algo []).
Defined.

Lemma set_leverage_requests_witness :
  exists r tr,
    set_leverage Scenario.world Sample.client "net_mode" (Some "BTC-USDT-SWAP") 10
      (Some "isolated") [] = (Ok r, tr) /\
    is_hedge "net_mode" = false /\
    ((exists rq0, tr = ([] ++ [rq0])%list) \/
     (exists rq0 rq1 rq2 e,
        tr = ([] ++ [rq0; rq1; rq2])%list
        /\ _call Scenario.world Sample.client
             (leverage_payload (strip (first_text (Some "BTC-USDT-SWAP") None)) 10
                (strip (first_text (Some "isolated") (Some "isolated"))) None) [] =
           (Raise e, ([] ++ [rq0])%list)
        /\ contains "51000" (str_exn e) = true
        /\ contains "posSide" (str_exn e) = true)).
Proof.
  eexists. eexists.
  assert (Hs : set_leverage Scenario.world Sample.client "net_mode" (Some "BTC-USDT-SWAP") 10
                 (Some "isolated") [] =
               (Ok (fst (Sample.envelope_of "0" [JObj [("lever", JStr "10")]], tt)),
                snd (set_leverage Scenario.world Sample.client "net_mode"
                       (Some "BTC-USDT-SWAP") 10 (Some "isolated") [])))
    by (vm_compute; reflexivity).
  split; [exact Hs |]. split; [reflexivity |].
  exact (proj2 (set_leverage_requests _ _ _ _ _ _ _ _ _ Hs) eq_refl).
Defined.

Lemma manager_order_reaches_exchange_witness :
  OrderManager.calls
    (fst (OrderManager.on_signal Sample.cfg (Sample.signal_at 1700000000)
            (Sample.long_signal "k1") (Sample.bar 50000) Sample.empty_ledger)) =
    (OrderManager.calls Sample.empty_ledger
       ++ OrderManager.Submit "k1" Scenario.first_order
            :: [OrderManager.SaveOrder "Qa2ab1959c1c3bfa295b000000"])%list /\
  place_market_with_tp_sl Scenario.world Sample.client Scenario.placing_cfg "buy"
    (JFloat 1) "" (Some "BTC-USDT-SWAP") (Some "isolated") (Some "long")
    (Some "Qa2ab1959c1c3bfa295b000000") [] =
  request Scenario.world Sample.client "POST" "/api/v5/trade/order" []
    [("instId", JStr "BTC-USDT-SWAP"); ("tdMode", JStr (strip "isolated"));
     ("side", JStr "buy"); ("ordType", JStr "market");
     ("sz", JStr (Sample.render_float 1)); ("clOrdId", JStr "Qa2ab1959c1c3bfa295b000000");
     ("posSide", JStr "long")] true [].
Proof.
  assert (Hc : OrderManager.calls
                 (fst (OrderManager.on_signal Sample.cfg (Sample.signal_at 1700000000)
                         (Sample.long_signal "k1") (Sample.bar 50000) Sample.empty_ledger)) =
               (OrderManager.calls Sample.empty_ledger
                  ++ OrderManager.Submit "k1" Scenario.first_order
                       :: [OrderManager.SaveOrder "Qa2ab1959c1c3bfa295b000000"])%list)
    by (vm_compute; reflexivity).
  split; [exact Hc |].
  exact (manager_order_reaches_exchange Sample.cfg _ _ _ _ _ _ Scenario.world Sample.client
           Scenario.placing_cfg [] Hc).
Defined.

End RestScenarios.

(** ** The signals of the main loop *)

Section Signals.

Import Main.
Local Open Scope string_scope.

Context `{Formats}.
Variable inst_id : string.

Lemma rel_not_last_ts : rel_key inst_id <> last_ts_key inst_id.
Proof. unfold rel_key, last_ts_key. intros E. discriminate E. Qed.

(** What one observation does to the stored relation and what it returns. *)
Lemma generate_signal_step (store : gmap string string) (ts : Z) (fast slow : float) :
  let r := generate_signal_from_ema store inst_id ts fast slow in
  match snd r with
  | None =>
      kv_or (fst r) (rel_key inst_id) "" = kv_or store (rel_key inst_id) ""
      \/ (kv_or store (rel_key inst_id) "" <> "GT" /\ kv_or (fst r) (rel_key inst_id) "" = "LT")
      \/ (kv_or store (rel_key inst_id) "" <> "LT" /\ kv_or (fst r) (rel_key inst_id) "" = "GT")
  | Some sig =>
      (OrderManager.action sig = "OPEN_LONG"
       /\ OrderManager.idempotency_key sig = make_idem "LONG" ts fast slow
       /\ kv_or store (rel_key inst_id) "" = "LT"
       /\ kv_or (fst r) (rel_key inst_id) "" = "GT")
      \/ (OrderManager.action sig = "OPEN_SHORT"
          /\ OrderManager.idempotency_key sig = make_idem "SHORT" ts fast slow
          /\ kv_or store (rel_key inst_id) "" = "GT"
          /\ kv_or (fst r) (rel_key inst_id) "" = "LT")
  end.
Proof.
  cbv zeta. unfold generate_signal_from_ema.
  destruct (_ || _); [left; reflexivity |].
  set (prev := kv_or store (rel_key inst_id) "").
  assert (Hset : forall st v, str_truthy v = true ->
            kv_or (<[rel_key inst_id := v]> (<[last_ts_key inst_id := str_of_Z ts]> st))
              (rel_key inst_id) "" = v).
  { intros st v Hv. unfold kv_or. rewrite lookup_insert_eq, Hv. reflexivity. }
  destruct (negb (str_truthy prev)) eqn:Hp.
  { cbn [snd fst]. apply negb_true_iff in Hp.
    assert (Hprev : prev = "") by (destruct prev; [reflexivity | discriminate Hp]).
    assert (Hnew : forall v, str_truthy v = true ->
              kv_or (<[last_ts_key inst_id := str_of_Z ts]> (<[rel_key inst_id := v]> store))
                (rel_key inst_id) "" = v).
    { intros v Hv. unfold kv_or.
      rewrite lookup_insert_ne by (intros E; symmetry in E; exact (rel_not_last_ts E)).
      rewrite lookup_insert_eq, Hv. reflexivity. }
    destruct (slow <? fast)%float; rewrite Hnew by reflexivity; rewrite Hprev.
    - right. right. split; [discriminate | reflexivity].
    - right. left. split; [discriminate | reflexivity]. }
  destruct (_ =? _)%Z; [left; reflexivity |].
  destruct (String.eqb_spec prev "LT") as [Hlt | Hlt];
    destruct (String.eqb_spec prev "GT") as [Hgt | Hgt];
    destruct (slow <? fast)%float; cbn [andb String.eqb Ascii.eqb Bool.eqb snd fst];
    rewrite ?Hset by reflexivity;
    try (left; repeat split; congruence);
    try (right; repeat split; congruence);
    try (right; left; split; congruence);
    try (right; right; split; congruence).
Qed.


Lemma signals_cons (store : gmap string string) (o : observation) (rest : list observation) :
  signals store inst_id (o :: rest) =
  match snd (generate_signal_from_ema store inst_id (candle_ts_ms o) (ema_fast o) (ema_slow o)) with
  | Some sig =>
      sig :: signals (fst (generate_signal_from_ema store inst_id (candle_ts_ms o)
                             (ema_fast o) (ema_slow o))) inst_id rest
  | None =>
      signals (fst (generate_signal_from_ema store inst_id (candle_ts_ms o)
                      (ema_fast o) (ema_slow o))) inst_id rest
  end.
Proof. reflexivity. Qed.

(** The first signal after a stored [GT] is no [OPEN_LONG], after a stored
    [LT] no [OPEN_SHORT]; every signal is one of the two. *)
Lemma first_signal (obs : list observation) :
  forall (store : gmap string string) (sig : OrderManager.signal)
         (rest : list OrderManager.signal),
    signals store inst_id obs = sig :: rest ->
    (OrderManager.action sig = "OPEN_LONG" /\ kv_or store (rel_key inst_id) "" <> "GT")
    \/ (OrderManager.action sig = "OPEN_SHORT" /\ kv_or store (rel_key inst_id) "" <> "LT").
Proof.
  induction obs as [| o obs IH]; intros store sig rest E; [discriminate E |].
  rewrite signals_cons in E.
  pose proof (generate_signal_step store (candle_ts_ms o) (ema_fast o) (ema_slow o)) as Hstep.
  cbv zeta in Hstep.
  destruct (snd (generate_signal_from_ema store inst_id _ _ _)) as [sig0 |].
  - injection E as -> _.
    destruct Hstep as [(Ha & _ & Hp & _) | (Ha & _ & Hp & _)];
      [left | right]; (split; [exact Ha | rewrite Hp; discriminate]).
  - destruct (IH _ _ _ E) as [[Ha Hr] | [Ha Hr]];
      destruct Hstep as [Hs | [[Hs1 Hs2] | [Hs1 Hs2]]];
      try (left; split; [exact Ha | congruence]);
      try (right; split; [exact Ha | congruence]);
      exfalso; congruence.
Qed.

(** X19: whatever the ledger and the observations, the signals
    [generate_signal_from_ema] returns are [OPEN_LONG] and [OPEN_SHORT]
    signals and no two in a row have the same action: a long signal is
    always followed by a short one and a short one by a long one. *)
Theorem signals_alternate (store : gmap string string) (obs : list observation) :
  alternate (signals store inst_id obs) = true
  /\ Forall (fun sig =>
               OrderManager.action sig = "OPEN_LONG" \/ OrderManager.action sig = "OPEN_SHORT")
       (signals store inst_id obs).
Proof.
  revert store. induction obs as [| o obs IH]; intros store; [split; [reflexivity | constructor] |].
  rewrite signals_cons.
  pose proof (generate_signal_step store (candle_ts_ms o) (ema_fast o) (ema_slow o)) as Hstep.
  cbv zeta in Hstep.
  destruct (snd (generate_signal_from_ema store inst_id _ _ _)) as [sig0 |]; [| apply IH].
  destruct (IH (fst (generate_signal_from_ema store inst_id (candle_ts_ms o)
                       (ema_fast o) (ema_slow o)))) as [Halt Hall].
  split.
  - destruct (signals _ inst_id obs) as [| sig1 rest] eqn:E; [reflexivity |].
    change (alternate (sig0 :: sig1 :: rest))
      with (negb (String.eqb (OrderManager.action sig0) (OrderManager.action sig1))
            && alternate (sig1 :: rest)).
    rewrite Halt, andb_true_r. apply negb_true_iff, String.eqb_neq.
    destruct (first_signal obs _ _ _ E) as [[Ha Hr] | [Ha Hr]];
      destruct Hstep as [(Hb & _ & _ & Hn) | (Hb & _ & _ & Hn)];
      rewrite Ha, Hb; try discriminate; exfalso; exact (Hr Hn).
  - constructor; [| exact Hall].
    destruct Hstep as [(Hb & _) | (Hb & _)]; [left | right]; exact Hb.
Qed.

End Signals.

(** ** The account stream and the portfolio *)

Section StreamSnapshot.

Import Main.
Local Open Scope string_scope.

Context `{Runtime}.
Variable inst_cfg : string.

Lemma write_all_other (entries : list (string * string)) (k : string) :
  forall store, k ∉ map fst entries -> write_all entries store !! k = store !! k.
Proof.
  unfold write_all. induction entries as [| [k0 v0] entries IH]; intros store Hk; [reflexivity |].
  cbn [fold_left fst snd]. rewrite IH.
  - apply lookup_insert_ne. intros ->. apply Hk. left.
  - intros Hin. apply Hk. right. exact Hin.
Qed.

Lemma on_private_event_other (now : float) (msg : json) (store : gmap string string)
    (k : string) :
  k ∉ stream_keys -> on_private_event inst_cfg now msg store !! k = store !! k.
Proof.
  intros Hk. unfold on_private_event.
  destruct (get msg "arg") as [arg |]; [| reflexivity].
  destruct (get _ "channel") as [channel |]; [| reflexivity].
  destruct (String.eqb _ "orders"); [reflexivity |].
  destruct (String.eqb _ "positions"); [| reflexivity].
  apply write_all_other. exact Hk.
Qed.

Lemma private_events_other (events : list (float * json)) (k : string) :
  k ∉ stream_keys ->
  forall store, private_events inst_cfg events store !! k = store !! k.
Proof.
  intros Hk. unfold private_events.
  induction events as [| ev events IH]; intros store; [reflexivity |].
  cbn [fold_left]. rewrite IH. apply on_private_event_other. exact Hk.
Qed.

(** X20: the handler of the account stream records the time of a push
    under [ws_private:uptime] and the portfolio reads the freshness of the
    snapshot under [ws_private:last_uptime]: on a ledger that does not hold
    that entry, after any pushes the snapshot is never fresh and a refresh
    takes no field from the stream. *)
Theorem stream_snapshot_never_fresh (events : list (float * json))
    (store0 : gmap string string) (inst_id_cfg : option string)
    (env : Portfolio.refresh_env) (s : Portfolio.snapshot) :
  store0 !! "ws_private:last_uptime" = None ->
  Portfolio.store env = private_events inst_cfg events store0 ->
  (forall now max_age, Portfolio._ws_fresh env now max_age = false)
  /\ Portfolio.of_equity (snd (Portfolio.refresh inst_id_cfg env s)) <> Portfolio.Stream
  /\ Portfolio.of_avail (snd (Portfolio.refresh inst_id_cfg env s)) <> Portfolio.Stream
  /\ Portfolio.of_long (snd (Portfolio.refresh inst_id_cfg env s)) <> Portfolio.Stream
  /\ Portfolio.of_short (snd (Portfolio.refresh inst_id_cfg env s)) <> Portfolio.Stream.
Proof.
  intros H0 Hst.
  assert (Hfresh : forall now max_age, Portfolio._ws_fresh env now max_age = false).
  { intros now max_age. unfold Portfolio._ws_fresh, Portfolio.get_kv_float.
    rewrite Hst, private_events_other, H0; [reflexivity |].
    unfold stream_keys. intros Hin.
    repeat (apply elem_of_cons in Hin; destruct Hin as [Hin | Hin]; [discriminate Hin |]).
    apply elem_of_nil in Hin. exact Hin. }
  split; [exact Hfresh |].
  destruct (stale_account_sources inst_id_cfg env s (Hfresh _ _)) as [He Ha].
  pose proof (stale_positions_source inst_id_cfg env s (Hfresh _ _)) as Hl.
  repeat split; assumption.
Qed.

End StreamSnapshot.

(** ** The daily loss limit *)

Section RiskFacts.

Import Risk.
Local Open Scope string_scope.

Context `{Runtime}.

(** X21: once [is_halted] has answered [True] on a day, the ledger holds
    [halted = 1] and that day as the baseline day, and every later call on
    the same day answers [True] and leaves the ledger as it is, whatever the
    equity and the limit then are. *)
Theorem halt_latches (limit : result float) (today : string) (equity : float)
    (store : gmap string string) :
  snd (is_halted limit today equity store) = Ok true ->
  fst (is_halted limit today equity store) !! "halted" = Some "1"
  /\ fst (is_halted limit today equity store) !! "daily_base_date" = Some today
  /\ (forall limit' equity',
        is_halted limit' today equity' (fst (is_halted limit today equity store)) =
        (fst (is_halted limit today equity store), Ok true)).
Proof.
  intros Hh.
  assert (Hdate : forall st, ensure_daily_reset today equity st !! "daily_base_date" = Some today).
  { intros st. unfold ensure_daily_reset. destruct (bool_decide _) eqn:E.
    - apply bool_decide_eq_true in E. exact E.
    - rewrite lookup_delete_ne by discriminate.
      rewrite lookup_insert_ne by discriminate. apply lookup_insert_eq. }
  assert (Hres : fst (is_halted limit today equity store) !! "halted" = Some "1"
                 /\ fst (is_halted limit today equity store) !! "daily_base_date" = Some today).
  { revert Hh. unfold is_halted.
    destruct (bool_decide (_ !! "halted" = Some "1")) eqn:E; cbn [fst snd].
    - intros _. apply bool_decide_eq_true in E. split; [exact E | apply Hdate].
    - destruct limit as [l | e]; [| intros Hh; discriminate Hh].
      destruct (l <=? _)%float; cbn [fst snd]; [| intros Hh; discriminate Hh].
      intros _. split; [apply lookup_insert_eq |].
      rewrite lookup_insert_ne by discriminate. apply Hdate. }
  destruct Hres as [Hhalt Hd]. split; [exact Hhalt |]. split; [exact Hd |].
  intros limit' equity'.
  set (st1 := fst (is_halted limit today equity store)) in *.
  unfold is_halted, ensure_daily_reset.
  rewrite (bool_decide_eq_true_2 _ Hd), (bool_decide_eq_true_2 _ Hhalt). reflexivity.
Qed.

End RiskFacts.

(** ** The positions of the portfolio *)

Section PositionsFacts.

Import Portfolio.
Local Open Scope string_scope.

Context `{Runtime}.

(** X22: after [_set_pos] the one-sided fields agree with the two sizes:
    a position implies a side, the size reported is the size of the side
    reported, no side means no position and two sizes equal to zero; the
    equity and the balance are not touched. *)
Theorem set_pos_consistent (s : snapshot) (long_sz short_sz : float) :
  (has_position (_set_pos s long_sz short_sz) = true ->
   pos_side (_set_pos s long_sz short_sz) = Some "long"
   \/ pos_side (_set_pos s long_sz short_sz) = Some "short")
  /\ (pos_side (_set_pos s long_sz short_sz) = Some "long" ->
      pos_sz (_set_pos s long_sz short_sz) = pos_long (_set_pos s long_sz short_sz))
  /\ (pos_side (_set_pos s long_sz short_sz) = Some "short" ->
      pos_sz (_set_pos s long_sz short_sz) = pos_short (_set_pos s long_sz short_sz))
  /\ (pos_side (_set_pos s long_sz short_sz) = None ->
      has_position (_set_pos s long_sz short_sz) = false
      /\ (pos_long (_set_pos s long_sz short_sz) =? 0)%float = true
      /\ (pos_short (_set_pos s long_sz short_sz) =? 0)%float = true)
  /\ equity (_set_pos s long_sz short_sz) = equity s
  /\ avail_usdt (_set_pos s long_sz short_sz) = avail_usdt s.
Proof.
  unfold _set_pos. cbv zeta.
  set (l := float_or long_sz 0). set (sh := float_or short_sz 0).
  cbn [has_position pos_side pos_sz pos_long pos_short equity avail_usdt].
  destruct ((0 <? l)%float && (sh <=? 0)%float) eqn:E1; cbn [fst snd].
  { repeat split; try discriminate; auto. }
  destruct ((0 <? sh)%float && (l <=? 0)%float) eqn:E2; cbn [fst snd].
  { repeat split; try discriminate; auto. }
  destruct ((l =? 0)%float && (sh =? 0)%float) eqn:E3; cbn [fst snd].
  { apply andb_true_iff in E3. destruct E3 as [El Es].
    rewrite (eqb_not_gt _ _ El), (eqb_not_gt _ _ Es).
    repeat split; try discriminate; auto. }
  destruct (sh <=? l)%float; cbn [fst snd]; repeat split; try discriminate; auto.
Qed.

(** The loop adds nothing for the rows it passes over. *)
Lemma sum_positions_passed_over (items : list json) :
  Forall passed_over items ->
  forall long_sz short_sz, sum_positions items long_sz short_sz = (long_sz, short_sz).
Proof.
  induction 1 as [| d items Hd _ IH]; intros long_sz short_sz; [reflexivity |].
  destruct d as [| b | n | x | t | xs | fields]; cbn [sum_positions]; try apply IH.
  cbn [passed_over] in Hd. cbv zeta in Hd. destruct Hd as [Hl Hs].
  rewrite Hl, Hs. apply IH.
Qed.

(** X23: when the positions are pulled and every row of the answer is
    passed over by the loop of [_refresh_pos] (not a dict, or a [posSide]
    that is neither long nor short, as the rows of a net-mode account), the
    refresh reports no position: both sizes are zero and there is no side,
    whatever the [pos] fields of the rows hold. *)
Theorem net_rows_ignored (inst_id_cfg : option string) (env : refresh_env)
    (s : snapshot) (resp : json) :
  str_truthy (strip (OrderManager.text_or inst_id_cfg "")) = true ->
  _ws_fresh env (now_positions env) 5 = false ->
  get_positions env (strip (OrderManager.text_or inst_id_cfg "")) = Ok resp ->
  Forall passed_over (positions_of env resp) ->
  has_position (fst (refresh inst_id_cfg env s)) = false
  /\ pos_side (fst (refresh inst_id_cfg env s)) = None
  /\ pos_long (fst (refresh inst_id_cfg env s)) = 0%float
  /\ pos_short (fst (refresh inst_id_cfg env s)) = 0%float
  /\ pos_sz (fst (refresh inst_id_cfg env s)) = 0%float
  /\ of_long (snd (refresh inst_id_cfg env s)) = Pull.
Proof.
  intros Hid Hstale Hget Hrows.
  assert (Hpos : _refresh_pos inst_id_cfg env = ((0%float, 0%float), Pull)).
  { unfold _refresh_pos. cbv zeta. rewrite Hid, Hstale, Hget. cbn [negb].
    rewrite (sum_positions_passed_over _ Hrows). reflexivity. }
  unfold refresh. cbv zeta. rewrite Hpos. cbn [fst snd of_long].
  repeat split; vm_compute; reflexivity.
Qed.

End PositionsFacts.

(** ** The core request *)

Section RequestFacts.

Import Rest.
Local Open Scope string_scope.

Context `{Runtime} `{Network}.

(** X24: a response [_request] returns is a dict whose [code] reads
    ["0"], received with a status below 400 for the request built; on a
    trade path its first row, if any, has no [sCode] other than ["0"]. *)
Theorem request_returns_success (c : client) (method path : string)
    (params : list (string * option string)) (data : list (string * json)) (auth : bool)
    (resp : json) :
  _request c method path params data auth = Ok resp ->
  (exists fields code,
     resp = JObj fields /\ get resp "code" = Ok code /\ str (jor code (JStr "")) = "0")
  /\ (exists rq r, build_request c method path params data auth = Ok rq
                   /\ send rq = inr r /\ (status_code r < 400)%Z /\ json_body r = Some resp)
  /\ (String.prefix "/api/v5/trade/" path = true ->
      forall row0 rows, get resp "data" = Ok (JArr (row0 :: rows)) ->
      exists s_code, get row0 "sCode" = Ok s_code /\ str (jor s_code (JStr "0")) = "0").
Proof.
  unfold _request. intros E.
  destruct (build_request c method path params data auth) as [rq |] eqn:Hb; [| discriminate E].
  change (mbind ?f (Ok rq)) with (f rq) in E. cbv beta in E.
  unfold classify in E. destruct (send rq) as [err | r] eqn:Hs; [discriminate E |].
  destruct (400 <=? status_code r)%Z eqn:Hst; [discriminate E |].
  destruct (json_body r) as [body |] eqn:Hj; [| discriminate E].
  unfold check_envelope in E.
  destruct (get body "code") as [code |] eqn:Hc; [| discriminate E].
  change (mbind ?f (Ok code)) with (f code) in E. cbv beta in E.
  destruct (get body "msg") as [msg |] eqn:Hm; [| discriminate E].
  change (mbind ?f (Ok msg)) with (f msg) in E. cbv beta in E.
  destruct (String.eqb_spec (str (jor code (JStr ""))) "0") as [Hcode | Hcode];
    cbn [negb] in E.
  2: { destruct (String.eqb _ "50119"); discriminate E. }
  assert (Hresp : resp = body).
  { destruct (String.prefix "/api/v5/trade/" path); [| injection E as <-; reflexivity].
    destruct (get body "data") as [rows_v |]; [| discriminate E].
    change (mbind ?f (Ok rows_v)) with (f rows_v) in E. cbv beta in E.
    destruct (jor rows_v (JArr [])) as [| | | | | [| row0 rows] |];
      try (injection E as <-; reflexivity).
    destruct (get row0 "sCode") as [sc |]; [| discriminate E].
    change (mbind ?f (Ok sc)) with (f sc) in E. cbv beta in E.
    destruct (negb _); [| injection E as <-; reflexivity].
    destruct (get row0 "sMsg"); discriminate E. }
  subst body. split; [| split].
  - destruct resp as [| | | | | | fields]; try discriminate Hc.
    exists fields, code. repeat split; assumption.
  - exists rq, r. apply Z.leb_gt in Hst. repeat split; assumption.
  - intros Hp row0 rows Hd. rewrite Hp, Hd in E.
    change (mbind ?f (Ok ?a)) with (f a) in E. cbv beta in E.
    change (jor (JArr (row0 :: rows)) (JArr [])) with (JArr (row0 :: rows)) in E.
    cbv iota in E.
    destruct (get row0 "sCode") as [sc |]; [| discriminate E].
    change (mbind ?f (Ok sc)) with (f sc) in E. cbv beta in E.
    exists sc. split; [reflexivity |].
    destruct (String.eqb_spec (str (jor sc (JStr "0"))) "0") as [Hsc | Hsc]; [exact Hsc |].
    cbn [negb] in E. destruct (get row0 "sMsg"); discriminate E.
Qed.

(** X25: a request carries [x-simulated-trading: 1] exactly when the
    client is a demo client, signed or not; a signed request carries the
    key, the passphrase and the timestamp, and was built with the three
    credentials set; an unsigned one carries no signature. *)
Theorem simulated_trading_header (c : client) (method path : string)
    (params : list (string * option string)) (data : list (string * json)) (auth : bool)
    (rq : http_request) :
  build_request c method path params data auth = Ok rq ->
  header "x-simulated-trading" (rq_headers rq) = (if demo c then Some "1" else None)
  /\ (auth = true ->
      header "OK-ACCESS-KEY" (rq_headers rq) = Some (api_key c)
      /\ header "OK-ACCESS-PASSPHRASE" (rq_headers rq) = Some (passphrase c)
      /\ header "OK-ACCESS-TIMESTAMP" (rq_headers rq) = Some iso_ts
      /\ str_truthy (api_key c) = true /\ str_truthy (api_secret c) = true
      /\ str_truthy (passphrase c) = true)
  /\ (auth = false -> header "OK-ACCESS-SIGN" (rq_headers rq) = None).
Proof.
  unfold build_request. destruct auth.
  - destruct (str_truthy (api_key c)) eqn:H1; [| intros E; discriminate E].
    destruct (str_truthy (api_secret c)) eqn:H2; [| intros E; discriminate E].
    destruct (str_truthy (passphrase c)) eqn:H3; [| intros E; discriminate E].
    cbn [andb]. change (mbind ?f (Ok ?a)) with (f a). cbv beta.
    intros E. injection E as <-. cbn [rq_headers _headers app header].
    split; [destruct (demo c); reflexivity |].
    split; [intros _; repeat split; reflexivity | intros E; discriminate E].
  - change (mbind ?f (Ok ?a)) with (f a). cbv beta.
    intros E. injection E as <-. cbn [rq_headers app header].
    split; [destruct (demo c); reflexivity |].
    split; [intros E; discriminate E | intros _; destruct (demo c); reflexivity].
Qed.

End RequestFacts.

Section MoreScenarios.

Local Open Scope string_scope.

(** The four candles give a long signal at the second and a short one at
    the fourth. *)
Example candles_ex :
  map OrderManager.action (Main.signals ∅ "BTC-USDT-SWAP" Scenario.candles) =
    ["OPEN_LONG"; "OPEN_SHORT"]
  /\ map OrderManager.idempotency_key (Main.signals ∅ "BTC-USDT-SWAP" Scenario.candles) =
    ["SIG_LONG_1700000060000_101.0000_100.0000"; "SIG_SHORT_1700000180000_98.0000_100.0000"].
Proof. vm_compute. split; reflexivity. Qed.

Lemma stream_snapshot_never_fresh_witness :
  (∅ : gmap string string) !! "ws_private:last_uptime" = None /\
  Scenario.pushed !! "ws:pos_long" = Some "3.0" /\
  Scenario.pushed !! "ws_private:uptime" = Some "1700000000.0" /\
  Portfolio._ws_fresh Scenario.refresh_after_push 1700000001 5 = false /\
  Portfolio.of_long
    (snd (Portfolio.refresh (Some "BTC-USDT-SWAP") Scenario.refresh_after_push Scenario.flat))
    <> Portfolio.Stream.
Proof.
  destruct (stream_snapshot_never_fresh "BTC-USDT-SWAP" [(1700000000%float, Scenario.positions_push)]
              ∅ (Some "BTC-USDT-SWAP") Scenario.refresh_after_push Scenario.flat
              (lookup_empty _) eq_refl) as (Hf & _ & _ & Hl & _).
  split; [apply lookup_empty |].
  split; [vm_compute; reflexivity |]. split; [vm_compute; reflexivity |].
  split; [apply Hf | exact Hl].
Defined.

Lemma halt_latches_witness :
  snd (Risk.is_halted (Ok 0.05%float) "2026-01-05" 900 Scenario.baseline) = Ok true /\
  Risk.is_halted (Ok 0.05%float) "2026-01-05" 1000
    (fst (Risk.is_halted (Ok 0.05%float) "2026-01-05" 900 Scenario.baseline)) =
  (fst (Risk.is_halted (Ok 0.05%float) "2026-01-05" 900 Scenario.baseline), Ok true).
Proof.
  assert (Hh : snd (Risk.is_halted (Ok 0.05%float) "2026-01-05" 900 Scenario.baseline) = Ok true)
    by (vm_compute; reflexivity).
  destruct (halt_latches (Ok 0.05%float) "2026-01-05" 900 Scenario.baseline Hh) as (_ & _ & Hl).
  split; [exact Hh | apply Hl].
Defined.

Lemma net_rows_ignored_witness :
  Forall Portfolio.passed_over
    (Portfolio.positions_of Scenario.net_account Scenario.net_answer) /\
  Portfolio.has_position
    (fst (Portfolio.refresh (Some "BTC-USDT-SWAP") Scenario.net_account Scenario.flat)) = false /\
  Portfolio.pos_side
    (fst (Portfolio.refresh (Some "BTC-USDT-SWAP") Scenario.net_account Scenario.flat)) = None.
Proof.
  assert (Hp : Forall Portfolio.passed_over
                 (Portfolio.positions_of Scenario.net_account Scenario.net_answer)).
  { constructor; [split; vm_compute; reflexivity |]. constructor; [exact I | constructor]. }
  split; [exact Hp |].
  destruct (net_rows_ignored (Some "BTC-USDT-SWAP") Scenario.net_account Scenario.flat
              Scenario.net_answer ltac:(vm_compute; reflexivity)
              ltac:(vm_compute; reflexivity) eq_refl Hp) as (Hh & Hs & _).
  split; [exact Hh | exact Hs].
Defined.

Lemma request_returns_success_witness :
  @Rest._request Sample.runtime (Scenario.world 0) Sample.client "GET"
    "/api/v5/account/config" [] [] true =
    Ok (Sample.envelope_of "0" [JObj [("lever", JStr "10")]]) /\
  exists fields code,
    Sample.envelope_of "0" [JObj [("lever", JStr "10")]] = JObj fields
    /\ get (Sample.envelope_of "0" [JObj [("lever", JStr "10")]]) "code" = Ok code
    /\ str (jor code (JStr "")) = "0".
Proof.
  assert (Hr : @Rest._request Sample.runtime (Scenario.world 0) Sample.client "GET"
                 "/api/v5/account/config" [] [] true =
               Ok (Sample.envelope_of "0" [JObj [("lever", JStr "10")]]))
    by (vm_compute; reflexivity).
  split; [exact Hr |].
  exact (proj1 (@request_returns_success Sample.runtime (Scenario.world 0) Sample.client "GET"
                  "/api/v5/account/config" [] [] true _ Hr)).
Defined.

Lemma simulated_trading_header_witness :
  exists rq,
    @Rest.build_request (Scenario.world 0) Sample.client "GET" "/api/v5/market/candles"
      [("instId", Some "BTC-USDT-SWAP")] [] false = Ok rq /\
    Rest.header "x-simulated-trading" (Rest.rq_headers rq) = None.
Proof.
  eexists.
  assert (Hb : @Rest.build_request (Scenario.world 0) Sample.client "GET"
                 "/api/v5/market/candles" [("instId", Some "BTC-USDT-SWAP")] [] false =
               Ok {| Rest.rq_method := "GET";
                     Rest.rq_url := "https://www.okx.com/api/v5/market/candles?instId=BTC-USDT-SWAP";
                     Rest.rq_headers := []; Rest.rq_body := None |})
    by (vm_compute; reflexivity).
  split; [exact Hb |].
  exact (proj1 (@simulated_trading_header (Scenario.world 0) Sample.client "GET"
                  "/api/v5/market/candles" [("instId", Some "BTC-USDT-SWAP")] [] false _ Hb)).
Defined.

End MoreScenarios.
